(** * EcoHackathon: vehicle lifecycle carbon comparison

    A shallow embedding of the calculation core of the repository:

    - [data_loader.py]          the constant library (vehicle parameters,
                                fuel factors, size multipliers, thresholds);
    - [carbon_engine.py]        [calculate_lifecycle] and its helpers;
    - [break_even.py]           [compare_best_vs_all] and its helpers;
    - [recommendation_logic.py] [recommend_vehicle] and [_build_reasoning].

    The Python code computes on [float].  The embedding is written once,
    over an interface [PyFloat] of the operations the code applies to its
    numbers, and is run at two instances:

    - [Q]: exact rational arithmetic, with [round(x, n)] rounding the exact
      value half-to-even at [n] decimals.  Numeric bounds are proved at
      this instance.
    - [float]: IEEE 754 binary64, the arithmetic of the Python interpreter,
      with decimal literals and [round(x, n)] correctly rounded.  The
      concrete scenarios are evaluated at this instance as well, and what
      does not depend on the numbers computed (which exception, which
      branch, which formula) is proved at both.

    The two instances part where a value falls on or next to a rounding
    tie: exact arithmetic and binary64 can then round to neighbouring
    tenths.  A bound proved at [Q] that such a difference could breach is
    stated with a small margin, named in the statement, wider than the
    error binary64 makes on the numbers in range.

    Python exceptions are values of [exn]; a function that can raise returns
    [exc A].  Division is checked everywhere, as Python's [/] is.  An [int]
    too large for a [float] makes Python raise [OverflowError] where it
    meets a float; the embedding converts every integer, and a statement
    that a result is returned takes the years within the range of [float]
    ([fits_float]). *)

From Stdlib Require Import ZArith QArith Qround Qabs Qminmax Floats.
From Stdlib Require Import List String Bool Lia Lqa Permutation Sorted.
Import ListNotations.

(* ================================================================== *)
(** * Exceptions *)
(* ================================================================== *)

Inductive exn : Type :=
| KeyError (key : string)
| ValueError (msg : string)
| IndexError
| ZeroDivisionError.

Inductive exc (A : Type) : Type :=
| Ok (a : A)
| Raise (e : exn).

Arguments Ok {A} a.
Arguments Raise {A} e.

Definition ret {A} (a : A) : exc A := Ok a.

Definition bind {A B} (m : exc A) (k : A -> exc B) : exc B :=
  match m with
  | Ok a => k a
  | Raise e => Raise e
  end.

Declare Scope exc_scope.
Delimit Scope exc_scope with exc.
Notation "x <- m ;; k" := (bind m (fun x => k))
  (at level 61, m at next level, right associativity) : exc_scope.
Notation "' p <- m ;; k" := (bind m (fun x => match x with p => k end))
  (at level 61, p pattern, m at next level, right associativity) : exc_scope.

(* ================================================================== *)
(** * The numbers of the program *)
(* ================================================================== *)

(** The operations the source applies to a Python [float] (and to the
    [int]s it mixes with them, which Python converts to [float] first). *)
Class PyFloat (F : Type) : Type := {
  lit    : Q -> F;            (* a decimal or integer literal *)
  fadd   : F -> F -> F;
  fsub   : F -> F -> F;
  fmul   : F -> F -> F;
  fquot  : F -> F -> F;       (* [a / b] for [b != 0] *)
  feqb   : F -> F -> bool;
  fltb   : F -> F -> bool;
  fleb   : F -> F -> bool;
  fround : F -> nat -> F;     (* [round(x, ndigits)] *)
}.

Arguments lit {F _} q%_Q.

Declare Scope pyfloat_scope.
Delimit Scope pyfloat_scope with F.
Infix "+" := fadd : pyfloat_scope.
Infix "-" := fsub : pyfloat_scope.
Infix "*" := fmul : pyfloat_scope.
Infix "==" := feqb (at level 70, no associativity) : pyfloat_scope.
Infix "<?" := fltb : pyfloat_scope.
Infix "<=?" := fleb : pyfloat_scope.
Notation "x >? y" := (fltb y x) : pyfloat_scope.

(** [int] to [float], as in [annual_km * years].  Every integer is
    converted; Python converts those within the range of [float] and raises
    [OverflowError] on the others. *)
Definition of_int {F} `{PyFloat F} (z : Z) : F := lit (inject_Z z).

(** Python's [/]: [ZeroDivisionError] on a zero divisor. *)
Definition fdiv {F} `{PyFloat F} (a b : F) : exc F :=
  if (b == lit 0)%F then Raise ZeroDivisionError else Ok (fquot a b).
Infix "/" := fdiv : pyfloat_scope.

(** Python's [min(a, b)]: [b] when [b < a], else [a]. *)
Definition pymin {F} `{PyFloat F} (a b : F) : F :=
  if (b <? a)%F then b else a.

(** ** Half-to-even rounding of an exact value *)

Fixpoint pow10 (n : nat) : positive :=
  match n with
  | O => 1%positive
  | S k => (10 * pow10 k)%positive
  end.

(** The integer nearest to [x], ties to the even one. *)
Definition round_half_even (x : Q) : Z :=
  let f := Qfloor x in
  match ((x - inject_Z f) ?= (1 # 2))%Q with
  | Lt => f
  | Gt => (f + 1)%Z
  | Eq => if Z.even f then f else (f + 1)%Z
  end.

(** ** Instance 1: exact rationals *)

Definition Qround_ndigits (x : Q) (ndigits : nat) : Q :=
  Qred (round_half_even (x * inject_Z (Zpos (pow10 ndigits)))%Q
        # pow10 ndigits).

Definition Qltb (x y : Q) : bool := negb (Qle_bool y x).

#[export] Instance Q_PyFloat : PyFloat Q := {|
  lit    := Qred;
  fadd   := Qplus;
  fsub   := Qminus;
  fmul   := Qmult;
  fquot  := Qdiv;
  feqb   := Qeq_bool;
  fltb   := Qltb;
  fleb   := Qle_bool;
  fround := Qround_ndigits;
|}.

(** ** Instance 2: IEEE 754 binary64 *)

(** The binary64 value nearest to [q] (ties to even): how Python reads a
    decimal literal and converts an [int]. *)
Definition Q2SF (q : Q) : spec_float :=
  match Qnum q with
  | Z0 => S754_zero false
  | Zpos p =>
      let '(mz, ez, lz) :=
        SFdiv_core_binary prec emax (Zpos p) 0 (Zpos (Qden q)) 0 in
      binary_round_aux prec emax false mz ez lz
  | Zneg p =>
      let '(mz, ez, lz) :=
        SFdiv_core_binary prec emax (Zpos p) 0 (Zpos (Qden q)) 0 in
      binary_round_aux prec emax true mz ez lz
  end.

Definition Q2F (q : Q) : float := SF2Prim (Q2SF q).

(** The exact value of a finite binary64 number. *)
Definition F2Q (f : float) : option Q :=
  match Prim2SF f with
  | S754_zero _ => Some 0%Q
  | S754_finite s m e =>
      let v := (inject_Z (Zpos m) * Qpower 2 e)%Q in
      Some (if s then Qopp v else v)
  | S754_infinity _ | S754_nan => None
  end.

(** [round(x, ndigits)] on a float: the exact value is rounded half-to-even
    at [ndigits] decimals and the decimal result is read back as a float;
    infinities and NaN round to themselves. *)
Definition float_round (x : float) (ndigits : nat) : float :=
  match F2Q x with
  | Some q =>
      let n := round_half_even (q * inject_Z (Zpos (pow10 ndigits)))%Q in
      if (n =? 0)%Z then (if get_sign x then neg_zero else zero)
      else Q2F (n # pow10 ndigits)
  | None => x
  end.

#[export] Instance float_PyFloat : PyFloat float := {|
  lit    := Q2F;
  fadd   := PrimFloat.add;
  fsub   := PrimFloat.sub;
  fmul   := PrimFloat.mul;
  fquot  := PrimFloat.div;
  feqb   := PrimFloat.eqb;
  fltb   := PrimFloat.ltb;
  fleb   := PrimFloat.leb;
  fround := float_round;
|}.

(* ================================================================== *)
(** * Dictionaries with string keys *)
(* ================================================================== *)

(** A dict literal, in the order it is written; [d[k]] raises [KeyError]. *)
Fixpoint dict_get {V} (d : list (string * V)) (k : string) : exc V :=
  match d with
  | [] => Raise (KeyError k)
  | (k', v) :: d' => if String.eqb k k' then Ok v else dict_get d' k
  end.

(* ================================================================== *)
(** * Lists as Python uses them *)
(* ================================================================== *)

(** [range(lo, hi)]. *)
Definition range (lo hi : Z) : list Z :=
  map (fun i => (lo + Z.of_nat i)%Z) (seq 0 (Z.to_nat (hi - lo))).

(** [enumerate(l)]. *)
Definition enumerate {A} (l : list A) : list (Z * A) :=
  combine (range 0 (Z.of_nat (List.length l))) l.

(** [l[i]], negative indices counting from the end; [IndexError] outside. *)
Definition list_index {A} (l : list A) (i : Z) : exc A :=
  let j := if (i <? 0)%Z then (i + Z.of_nat (List.length l))%Z else i in
  if (j <? 0)%Z then Raise IndexError
  else match nth_error l (Z.to_nat j) with
       | Some a => Ok a
       | None => Raise IndexError
       end.

(** A loop that appends one computed element per input element. *)
Fixpoint for_each {A B} (f : A -> exc B) (l : list A) : exc (list B) :=
  match l with
  | [] => Ok []
  | a :: t =>
      bind (f a) (fun b => bind (for_each f t) (fun bs => Ok (b :: bs)))
  end.

Section Engine.

Context {F : Type} `{PyFloat F}.

Open Scope string_scope.
Open Scope exc_scope.
Open Scope pyfloat_scope.

(* ================================================================== *)
(** * data_loader.py *)
(* ================================================================== *)

Record VehicleParams : Type := {
  glider_manufacturing_kg : F;
  powertrain_manufacturing_kg : F;
  battery_manufacturing_per_kwh : F;
  battery_capacity_kwh : F;
  energy_consumption_per_100km : F;
  fuel_type : string;
  disposal_kg : F;
  battery_eol_factor : F;
}.

Definition FUEL_EMISSION_FACTORS : list (string * F) :=
  [ ("petrol", lit 2.392);
    ("diesel", lit 2.640) ].

Definition VEHICLE_PARAMS : list (string * VehicleParams) :=
  [ ("BEV",
     {| glider_manufacturing_kg := lit 6500;
        powertrain_manufacturing_kg := lit 400;
        battery_manufacturing_per_kwh := lit 150;
        battery_capacity_kwh := lit 60;
        energy_consumption_per_100km := lit 18.0;
        fuel_type := "electricity";
        disposal_kg := lit 200;
        battery_eol_factor := lit 20 |});
    ("PHEV",
     {| glider_manufacturing_kg := lit 7000;
        powertrain_manufacturing_kg := lit 800;
        battery_manufacturing_per_kwh := lit 150;
        battery_capacity_kwh := lit 14;
        energy_consumption_per_100km := lit 5.5;
        fuel_type := "hybrid_petrol";
        disposal_kg := lit 250;
        battery_eol_factor := lit 20 |});
    ("HEV",
     {| glider_manufacturing_kg := lit 7200;
        powertrain_manufacturing_kg := lit 900;
        battery_manufacturing_per_kwh := lit 150;
        battery_capacity_kwh := lit 1.5;
        energy_consumption_per_100km := lit 5.0;
        fuel_type := "hybrid_petrol";
        disposal_kg := lit 280;
        battery_eol_factor := lit 20 |});
    ("ICEV-p",
     {| glider_manufacturing_kg := lit 6800;
        powertrain_manufacturing_kg := lit 1500;
        battery_manufacturing_per_kwh := lit 0;
        battery_capacity_kwh := lit 0;
        energy_consumption_per_100km := lit 7.5;
        fuel_type := "petrol";
        disposal_kg := lit 350;
        battery_eol_factor := lit 0 |});
    ("ICEV-d",
     {| glider_manufacturing_kg := lit 7000;
        powertrain_manufacturing_kg := lit 1700;
        battery_manufacturing_per_kwh := lit 0;
        battery_capacity_kwh := lit 0;
        energy_consumption_per_100km := lit 6.0;
        fuel_type := "diesel";
        disposal_kg := lit 370;
        battery_eol_factor := lit 0 |}) ].

Definition SIZE_MULTIPLIERS : list (string * F) :=
  [ ("small", lit 0.85);
    ("medium", lit 1.00);
    ("large", lit 1.20) ].

Definition PHEV_ELECTRIC_FRACTION : F := lit 0.42.

Definition GREENWASHING_OPERATIONAL_THRESHOLD_PCT : F := lit 0.05.
Definition GREENWASHING_TOTAL_THRESHOLD_KG : F := lit 15000.

(* ================================================================== *)
(** * schemas.py (the result types) *)
(* ================================================================== *)

(** The text of a greenwashing reason is an f-string over these values, or
    a fixed sentence; the embedding keeps which message it is and the
    values it is formatted from. *)
Inductive GreenwashingReason : Type :=
| MisleadingLabel (vehicle_type : string)
    (use_kg operational_pct total_kg : F)
| GridAdvocacy.

Record LifecycleResult : Type := {
  vehicle_type : string;
  manufacturing : F;
  use_phase : F;
  disposal : F;
  total : F;
  total_km : F;
  per_km : F;
  greenwashing_flag : bool;
  greenwashing_reason : option GreenwashingReason;
}.

Record BreakEvenPair : Type := {
  year : option Z;
  best_vehicle : string;
  comparison_vehicle : string;
  yearly_best_cumulative : list F;
  yearly_comparison_cumulative : list F;
}.

Record BreakEvenComparison : Type := {
  cmp_best_vehicle : string;
  years_range : list Z;
  pairs : list BreakEvenPair;
}.

(** The sentences [_build_reasoning] joins with single spaces, each with
    the values its f-string formats. *)
Inductive Sentence : Type :=
| LowestTotal (vehicle : string) (total_kg per_km_g : F)
| SavesVsWorst (savings_kg savings_pct : F) (worst_vehicle : string)
| ManufacturingDominates
| UsePhaseDominates
| GreenwashingAlert (reason : option GreenwashingReason).

Record RecommendationResult : Type := {
  recommended_vehicle : string;
  total_emissions_kg : F;
  confidence_percentage : F;
  savings_vs_worst_kg : F;
  savings_vs_worst_pct : F;
  reasoning : list Sentence;
}.

(* ================================================================== *)
(** * carbon_engine.py *)
(* ================================================================== *)

Definition _calculate_use_phase (params : VehicleParams)
    (total_km grid_factor size_mult : F) : exc F :=
  let fuel := fuel_type params in
  let consumption := energy_consumption_per_100km params * size_mult in
  if String.eqb fuel "electricity" then
    per_km <- consumption / lit 100 ;;
    let kwh_total := per_km * total_km in
    ret (kwh_total * grid_factor)
  else if String.eqb fuel "petrol" then
    per_km <- consumption / lit 100 ;;
    let litres_total := per_km * total_km in
    factor <- dict_get FUEL_EMISSION_FACTORS "petrol" ;;
    ret (litres_total * factor)
  else if String.eqb fuel "diesel" then
    per_km <- consumption / lit 100 ;;
    let litres_total := per_km * total_km in
    factor <- dict_get FUEL_EMISSION_FACTORS "diesel" ;;
    ret (litres_total * factor)
  else if String.eqb fuel "hybrid_petrol" then
    let electric_fraction :=
      if battery_capacity_kwh params >? lit 14
      then PHEV_ELECTRIC_FRACTION
      else lit 0.05 in
    let electric_km := total_km * electric_fraction in
    let fossil_km := total_km * (lit 1 - electric_fraction) in
    electric_emissions <-
      (if battery_capacity_kwh params >? lit 14 then
         kwh_per_km <- (lit 18.0 * size_mult) / lit 100 ;;
         let kwh_electric := kwh_per_km * electric_km in
         ret (kwh_electric * grid_factor)
       else ret (lit 0)) ;;
    per_km <- consumption / lit 100 ;;
    factor <- dict_get FUEL_EMISSION_FACTORS "petrol" ;;
    let fossil_emissions := per_km * fossil_km * factor in
    ret (electric_emissions + fossil_emissions)
  else Raise (ValueError ("Unknown fuel type: " ++ fuel)).

Definition _calculate_disposal (params : VehicleParams)
    (battery_kwh_actual size_mult : F) : F :=
  let body_disposal := disposal_kg params * size_mult in
  let battery_eol := battery_kwh_actual * battery_eol_factor params in
  body_disposal + battery_eol.

Definition _check_greenwashing (use_kg total_kg : F)
    (vehicle_type : string) : exc (bool * option GreenwashingReason) :=
  if total_kg == lit 0 then ret (false, None)
  else
    operational_fraction <- use_kg / total_kg ;;
    if (operational_fraction <? GREENWASHING_OPERATIONAL_THRESHOLD_PCT)
       && (total_kg >? GREENWASHING_TOTAL_THRESHOLD_KG)
    then
      ret (true,
           Some (MisleadingLabel vehicle_type use_kg
                   (operational_fraction * lit 100) total_kg))
    else if String.eqb vehicle_type "BEV"
            && (operational_fraction >? lit 0.70)
    then ret (true, Some GridAdvocacy)
    else ret (false, None).

Definition calculate_lifecycle (vehicle_type : string) (annual_km : F)
    (years : Z) (grid_factor : F) (vehicle_size : string)
    : exc LifecycleResult :=
  params <- dict_get VEHICLE_PARAMS vehicle_type ;;
  size_mult <- dict_get SIZE_MULTIPLIERS vehicle_size ;;
  let total_km := annual_km * of_int years in
  (* 1. manufacturing *)
  let glider_kg := glider_manufacturing_kg params * size_mult in
  let powertrain_kg := powertrain_manufacturing_kg params * size_mult in
  let battery_kwh :=
    if battery_capacity_kwh params >? lit 0
    then battery_capacity_kwh params * size_mult
    else lit 0 in
  let battery_kg := battery_kwh * battery_manufacturing_per_kwh params in
  let manufacturing_kg := glider_kg + powertrain_kg + battery_kg in
  (* 2. use phase *)
  use_kg <- _calculate_use_phase params total_km grid_factor size_mult ;;
  (* 3. disposal *)
  let disposal_kg := _calculate_disposal params battery_kwh size_mult in
  (* 4. totals *)
  let total_kg := manufacturing_kg + use_kg + disposal_kg in
  per_km_g <-
    (if total_km >? lit 0 then
       kg_per_km <- total_kg / total_km ;;
       ret (kg_per_km * lit 1000)
     else ret (lit 0)) ;;
  (* 5. greenwashing *)
  '(greenwashing_flag, greenwashing_reason) <-
    _check_greenwashing use_kg total_kg vehicle_type ;;
  ret {| vehicle_type := vehicle_type;
         manufacturing := fround manufacturing_kg 1;
         use_phase := fround use_kg 1;
         disposal := fround disposal_kg 1;
         total := fround total_kg 1;
         total_km := fround total_km 0;
         per_km := fround per_km_g 1;
         greenwashing_flag := greenwashing_flag;
         greenwashing_reason := greenwashing_reason |}.

(* ================================================================== *)
(** * Sorting by a key *)
(* ================================================================== *)

(** [sorted(l, key=...)] is a stable sort that compares keys with [<]
    only.  It is embedded as the stable insertion sort: an element goes in
    front of the first later element whose key is not smaller than its own. *)
Fixpoint insert_by {A} (key : A -> F) (x : A) (l : list A) : list A :=
  match l with
  | [] => [x]
  | y :: t => if key y <? key x then y :: insert_by key x t else x :: y :: t
  end.

Definition sorted {A} (key : A -> F) (l : list A) : list A :=
  fold_right (insert_by key) [] l.

(* ================================================================== *)
(** * break_even.py *)
(* ================================================================== *)

Definition _build_cumulative_curve (result : LifecycleResult) (years : Z)
    : exc (list F) :=
  let upfront := manufacturing result + disposal result in
  annual <-
    (if (years >? 0)%Z then use_phase result / of_int years
     else ret (lit 0)) ;;
  ret (map (fun y => fround (upfront + annual * of_int y) 1)
           (range 0 (years + 1))).

(** The body of the [for year, (b, c) in ...] loop. *)
Fixpoint first_crossing (l : list (Z * (F * F))) : option Z :=
  match l with
  | [] => None
  | (year, (b, c)) :: t => if b <=? c then Some year else first_crossing t
  end.

Definition _find_break_even_year (best_curve comparison_curve : list F)
    : option Z :=
  first_crossing (enumerate (combine best_curve comparison_curve)).

Definition compare_best_vs_all (results : list LifecycleResult) (years : Z)
    : exc (option BreakEvenComparison) :=
  if (List.length results <? 2)%nat then ret None
  else
    let sorted_results := sorted total results in
    best <- list_index sorted_results 0 ;;
    let others := skipn 1 sorted_results in
    let years_range := range 0 (years + 1) in
    best_curve <- _build_cumulative_curve best years ;;
    pairs <-
      for_each
        (fun other =>
           comparison_curve <- _build_cumulative_curve other years ;;
           let break_even_year :=
             _find_break_even_year best_curve comparison_curve in
           ret {| year := break_even_year;
                  best_vehicle := vehicle_type best;
                  comparison_vehicle := vehicle_type other;
                  yearly_best_cumulative := best_curve;
                  yearly_comparison_cumulative := comparison_curve |})
        others ;;
    ret (Some {| cmp_best_vehicle := vehicle_type best;
                 years_range := years_range;
                 pairs := pairs |}).

(* ================================================================== *)
(** * recommendation_logic.py *)
(* ================================================================== *)

Definition _build_reasoning (best worst : LifecycleResult)
    (sorted_results : list LifecycleResult) (savings_kg savings_pct : F)
    : list Sentence :=
  let lines := [LowestTotal (vehicle_type best) (total best) (per_km best)] in
  let lines :=
    if (savings_pct >? lit 0)
       && negb (String.eqb (vehicle_type worst) (vehicle_type best))
    then (lines
          ++ [SavesVsWorst savings_kg savings_pct (vehicle_type worst)])%list
    else lines in
  let lines :=
    if manufacturing best >? use_phase best
    then (lines ++ [ManufacturingDominates])%list
    else if use_phase best >? manufacturing best * lit 2
    then (lines ++ [UsePhaseDominates])%list
    else lines in
  let lines :=
    if greenwashing_flag best
    then (lines ++ [GreenwashingAlert (greenwashing_reason best)])%list
    else lines in
  lines.

Definition recommend_vehicle (results : list LifecycleResult)
    : exc RecommendationResult :=
  match results with
  | [] => Raise (ValueError "No results to evaluate")
  | _ :: _ =>
    let sorted_results := sorted total results in
    best <- list_index sorted_results 0 ;;
    worst <- list_index sorted_results (-1) ;;
    confidence <-
      (if (1 <? List.length sorted_results)%nat then
         second_best <- list_index sorted_results 1 ;;
         gap <- (total second_best - total best) / total second_best ;;
         let gap_pct := gap * lit 100 in
         ret (pymin (lit 99.0) (lit 50.0 + gap_pct * lit 1.65))
       else ret (lit 99.0)) ;;
    let savings_kg := total worst - total best in
    savings_pct <-
      (if total worst >? lit 0 then
         ratio <- savings_kg / total worst ;;
         ret (ratio * lit 100)
       else ret (lit 0)) ;;
    let reasoning :=
      _build_reasoning best worst sorted_results savings_kg savings_pct in
    ret {| recommended_vehicle := vehicle_type best;
           total_emissions_kg := total best;
           confidence_percentage := fround confidence 1;
           savings_vs_worst_kg := fround savings_kg 1;
           savings_vs_worst_pct := fround savings_pct 1;
           reasoning := reasoning |}
  end.

End Engine.

Arguments VehicleParams F : clear implicits.
Arguments LifecycleResult F : clear implicits.
Arguments GreenwashingReason F : clear implicits.
Arguments BreakEvenPair F : clear implicits.
Arguments BreakEvenComparison F : clear implicits.
Arguments Sentence F : clear implicits.
Arguments RecommendationResult F : clear implicits.

(* ================================================================== *)
(** * schemas.py (the request types) and main.py *)
(* ================================================================== *)

(** The enumeration [schemas.VehicleType] and its [.value]. *)
Inductive VehicleType : Type := BEV | PHEV | HEV | ICEV_p | ICEV_d.

Definition VehicleType_value (v : VehicleType) : string :=
  match v with
  | BEV => "BEV"
  | PHEV => "PHEV"
  | HEV => "HEV"
  | ICEV_p => "ICEV-p"
  | ICEV_d => "ICEV-d"
  end%string.

(** What an [HTTPException] of [main.py] reports: the fixed sentence about
    the years, or a text formatted from the exception caught. *)
Inductive Detail : Type :=
| SameYearsRequired
| UnknownVehicleType (e : exn)
| InternalError (e : exn).

(** The outcome of an endpoint: a response, an [HTTPException] it raises,
    or an exception it lets through. *)
Inductive http (A : Type) : Type :=
| Respond (a : A)
| HTTPException (status_code : Z) (detail : Detail)
| Unhandled (e : exn).

Arguments Respond {A} a.
Arguments HTTPException {A} status_code detail.
Arguments Unhandled {A} e.

Section Endpoints.

Context {F : Type} `{PyFloat F}.

Record CalculateRequest : Type := {
  req_vehicle_type : VehicleType;
  req_annual_km : F;
  req_years : Z;
  req_grid_factor : F;
  req_vehicle_size : string;
}.

Record CompareRequest : Type := {
  vehicles : list CalculateRequest;
}.

Record CompareResponse : Type := {
  results : list (LifecycleResult F);
  break_even : option (BreakEvenComparison F);
  recommendation : RecommendationResult F;
}.

(** The [try ... except KeyError ... except Exception] of both endpoints. *)
Definition catch_calculation {A B} (m : exc A) (k : A -> http B) : http B :=
  match m with
  | Ok a => k a
  | Raise (KeyError key) =>
      HTTPException 400 (UnknownVehicleType (KeyError key))
  | Raise e => HTTPException 500 (InternalError e)
  end.

(** A call outside any [try]. *)
Definition uncaught {A B} (m : exc A) (k : A -> http B) : http B :=
  match m with
  | Ok a => k a
  | Raise e => Unhandled e
  end.

Definition calculate_single (req : CalculateRequest)
    : http (LifecycleResult F) :=
  catch_calculation
    (calculate_lifecycle
       (VehicleType_value (req_vehicle_type req))
       (req_annual_km req)
       (req_years req)
       (req_grid_factor req)
       (req_vehicle_size req))
    (fun result => Respond result).

Definition compare_vehicles (req : CompareRequest) : http CompareResponse :=
  let years_values := nodup Z.eq_dec (map req_years (vehicles req)) in
  if (1 <? List.length years_values)%nat
  then HTTPException 400 SameYearsRequired
  else
    uncaught (list_index (vehicles req) 0) (fun first =>
    let years := req_years first in
    catch_calculation
      (for_each
         (fun v =>
            calculate_lifecycle
              (VehicleType_value (req_vehicle_type v))
              (req_annual_km v)
              (req_years v)
              (req_grid_factor v)
              (req_vehicle_size v))
         (vehicles req))
      (fun results =>
         uncaught (compare_best_vs_all results years) (fun break_even =>
         uncaught (recommend_vehicle results) (fun recommendation =>
         Respond {| results := results;
                    break_even := break_even;
                    recommendation := recommendation |})))).

End Endpoints.

Arguments CalculateRequest F : clear implicits.
Arguments CompareRequest F : clear implicits.
Arguments CompareResponse F : clear implicits.

Open Scope string_scope.

(* ================================================================== *)
(** * Vocabulary of the statements *)
(* ================================================================== *)

(** The fuel types the use-phase formula branches on. *)
Definition KNOWN_FUEL_TYPES : list string :=
  ["electricity"; "petrol"; "diesel"; "hybrid_petrol"].

(** The identifiers of the constant library. *)
Definition BUILTIN_VEHICLE_TYPES : list string :=
  ["BEV"; "PHEV"; "HEV"; "ICEV-p"; "ICEV-d"].

Definition VEHICLE_SIZES : list string := ["small"; "medium"; "large"].

(** [curve[y]] for a year [y]. *)
Definition curve_at (curve : list Q) (y : Z) : option Q :=
  if (y <? 0)%Z then None else nth_error curve (Z.to_nat y).

(** The PHEV entry of the constant library. *)
Definition PHEV_PARAMS {F} `{PyFloat F} : VehicleParams F :=
  {| glider_manufacturing_kg := lit 7000;
     powertrain_manufacturing_kg := lit 800;
     battery_manufacturing_per_kwh := lit 150;
     battery_capacity_kwh := lit 14;
     energy_consumption_per_100km := lit 5.5;
     fuel_type := "hybrid_petrol";
     disposal_kg := lit 250;
     battery_eol_factor := lit 20 |}.

(** The ranges [schemas.CalculateRequest] admits.  [annual_km] is checked
    to be in (0, 100000] and then rounded to one decimal by [round_km], so
    the endpoint can see 0. *)
Definition request_in_range (req : CalculateRequest Q) : Prop :=
  (0 <= req_annual_km req <= 100000)%Q
  /\ (1 <= req_years req <= 30)%Z
  /\ (0 < req_grid_factor req <= 2)%Q
  /\ In (req_vehicle_size req) VEHICLE_SIZES.

(** The integers Python converts to [float]: an [int] that rounds to a
    binary64 number.  On any other, arithmetic that mixes it with a [float],
    as [annual_km * years] does, raises [OverflowError]. *)
Definition fits_float (z : Z) : Prop := (Z.abs z < 2 ^ 1024 - 2 ^ 970)%Z.

(** Ascending order of keys. *)
Definition key_le {A} (key : A -> Q) (a b : A) : Prop := (key a <= key b)%Q.

(* ================================================================== *)
(** * The concrete scenarios *)
(* ================================================================== *)

Section Scenarios.

Context (F : Type) `{PyFloat F}.

Open Scope string_scope.

(** Scenario A: BEV, 15000 km a year, 10 years, grid 0.233, medium. *)
Definition scenario_A : exc (LifecycleResult F) :=
  calculate_lifecycle "BEV" (lit 15000) 10 (lit 0.233) "medium".

(** Scenario B: ICEV-p, same distance, horizon and size. *)
Definition scenario_B : exc (LifecycleResult F) :=
  calculate_lifecycle "ICEV-p" (lit 15000) 10 (lit 0.233) "medium".

(** A hybrid under the parameters of scenario A. *)
Definition scenario_HEV : exc (LifecycleResult F) :=
  calculate_lifecycle "HEV" (lit 15000) 10 (lit 0.233) "medium".

(** The result of scenario A. *)
Definition result_A : LifecycleResult F :=
  {| vehicle_type := "BEV";
     manufacturing := lit 15900;
     use_phase := lit 6291.0;
     disposal := lit 1400;
     total := lit 23591.0;
     total_km := lit 150000;
     per_km := lit 157.3;
     greenwashing_flag := false;
     greenwashing_reason := None |}.

(** The result of scenario B. *)
Definition result_B : LifecycleResult F :=
  {| vehicle_type := "ICEV-p";
     manufacturing := lit 8300;
     use_phase := lit 26910.0;
     disposal := lit 350;
     total := lit 35560.0;
     total_km := lit 150000;
     per_km := lit 237.1;
     greenwashing_flag := false;
     greenwashing_reason := None |}.

(** The result of the hybrid scenario. *)
Definition result_HEV : LifecycleResult F :=
  {| vehicle_type := "HEV";
     manufacturing := lit 8325;
     use_phase := lit 17043;
     disposal := lit 310;
     total := lit 25678;
     total_km := lit 150000;
     per_km := lit 171.2;
     greenwashing_flag := false;
     greenwashing_reason := None |}.

(** Scenario C: the break-even pair of A against B over 10 years. *)
Definition pair_C : BreakEvenPair F :=
  {| year := Some 5%Z;
     best_vehicle := "BEV";
     comparison_vehicle := "ICEV-p";
     yearly_best_cumulative :=
       [lit 17300; lit 17929.1; lit 18558.2; lit 19187.3; lit 19816.4;
        lit 20445.5; lit 21074.6; lit 21703.7; lit 22332.8; lit 22961.9;
        lit 23591];
     yearly_comparison_cumulative :=
       [lit 8650; lit 11341; lit 14032; lit 16723; lit 19414; lit 22105;
        lit 24796; lit 27487; lit 30178; lit 32869; lit 35560] |}.

Definition comparison_C : BreakEvenComparison F :=
  {| cmp_best_vehicle := "BEV";
     years_range := range 0 11;
     pairs := [pair_C] |}.

(** A result record with the given total and nothing else. *)
Definition bare_result (name : string) (t : F) : LifecycleResult F :=
  {| vehicle_type := name;
     manufacturing := lit 0;
     use_phase := lit 0;
     disposal := lit 0;
     total := t;
     total_km := lit 0;
     per_km := lit 0;
     greenwashing_flag := false;
     greenwashing_reason := None |}.

End Scenarios.

(* ================================================================== *)
(** * Scenario A (claim C1) *)
(* ================================================================== *)

(** C1, as amended: on scenario A, [calculate_lifecycle] returns
    manufacturing 15900, use phase 6291.0, disposal 1400, total 23591.0,
    total distance 150000, no greenwashing flag, and 157.3 g/km (the total
    over the distance, times 1000); in exact arithmetic and in binary64. *)
Theorem scenario_A_lifecycle :
  scenario_A Q = Ok (result_A Q)
  /\ scenario_A float = Ok (result_A float)
  /\ (manufacturing (result_A Q) == 15900
      /\ use_phase (result_A Q) == 6291
      /\ disposal (result_A Q) == 1400
      /\ total (result_A Q) == 23591
      /\ per_km (result_A Q) == 157.3
      /\ greenwashing_flag (result_A Q) = false)%Q.
Proof.
  split; [vm_compute; reflexivity|].
  split; [vm_compute; reflexivity|].
  repeat split; reflexivity.
Qed.

(** C1 as stated fails: no result of scenario A has a [per_km] within
    1 g/km of 15.7, in exact arithmetic or in binary64. *)
Lemma scenario_A_per_km_is_not_15_7 :
  ~ (exists r : LifecycleResult Q,
        scenario_A Q = Ok r
        /\ manufacturing r == 15900 /\ use_phase r == 6291
        /\ disposal r == 1400 /\ total r == 23591
        /\ Qabs (per_km r - 15.7) <= 1
        /\ greenwashing_flag r = false)%Q
  /\ ~ (exists r : LifecycleResult float,
        scenario_A float = Ok r
        /\ (lit 14.7 <=? per_km r)%F = true
        /\ (per_km r <=? lit 16.7)%F = true).
Proof.
  split.
  - intros (r & Hr & _ & _ & _ & _ & Hkm & _).
    vm_compute in Hr. injection Hr as <-. vm_compute in Hkm. now apply Hkm.
  - intros (r & Hr & _ & Hhi).
    vm_compute in Hr. injection Hr as <-. vm_compute in Hhi. discriminate.
Qed.

(* ================================================================== *)
(** * Exact arithmetic: comparisons and rounding *)
(* ================================================================== *)

Lemma Qltb_true (x y : Q) : Qltb x y = true <-> (x < y)%Q.
Proof.
  unfold Qltb. rewrite negb_true_iff. split; intro Hlt.
  - apply Qnot_le_lt. intro Hle. apply Qle_bool_iff in Hle. congruence.
  - destruct (Qle_bool y x) eqn:E; [|reflexivity].
    apply Qle_bool_iff in E. exfalso. now apply (Qlt_not_le x y).
Qed.

Lemma Qltb_false (x y : Q) : Qltb x y = false <-> (y <= x)%Q.
Proof.
  unfold Qltb. rewrite negb_false_iff. apply Qle_bool_iff.
Qed.

Lemma Qeq_bool_false (x y : Q) : Qeq_bool x y = false <-> ~ (x == y)%Q.
Proof.
  split.
  - intros E Heq. apply Qeq_bool_iff in Heq. congruence.
  - intro Hne. destruct (Qeq_bool x y) eqn:E; [|reflexivity].
    apply Qeq_bool_iff in E. contradiction.
Qed.

Lemma Qle_bool_false (x y : Q) : Qle_bool x y = false <-> (y < x)%Q.
Proof.
  rewrite <- Qltb_true. unfold Qltb.
  destruct (Qle_bool x y); simpl; intuition congruence.
Qed.

(** The rounded integer is within one half of the exact value. *)
Lemma round_half_even_near (x : Q) :
  (Qabs (inject_Z (round_half_even x) - x) <= 1 # 2)%Q.
Proof.
  unfold round_half_even.
  pose proof (Qfloor_le x) as Hlo. pose proof (Qlt_floor x) as Hhi.
  rewrite inject_Z_plus in Hhi.
  set (f := Qfloor x) in *. change (inject_Z 1) with 1%Q in Hhi.
  apply Qabs_case; intro Hs;
    destruct (Qcompare_spec (x - inject_Z f) (1 # 2)) as [E|E|E];
    try destruct (Z.even f);
    rewrite ?inject_Z_plus; change (inject_Z 1) with 1%Q; lra.
Qed.

(** An integer is its own rounding. *)
Lemma round_half_even_inject_Z (k : Z) : round_half_even (inject_Z k) = k.
Proof.
  unfold round_half_even. rewrite Qfloor_Z.
  destruct (Qcompare_spec (inject_Z k - inject_Z k) (1 # 2)) as [E|E|E];
    try reflexivity; exfalso; lra.
Qed.

Lemma round_half_even_comp (x y : Q) :
  (x == y)%Q -> round_half_even x = round_half_even y.
Proof.
  intro E. unfold round_half_even.
  assert (Ef : Qfloor x = Qfloor y) by now rewrite E.
  rewrite Ef.
  assert (Ec : ((x - inject_Z (Qfloor y)) ?= (1 # 2))%Q
               = ((y - inject_Z (Qfloor y)) ?= (1 # 2))%Q) by now rewrite E.
  now rewrite Ec.
Qed.

(** Rounding never crosses an integer. *)
Lemma round_half_even_ge (k : Z) (x : Q) :
  (inject_Z k <= x)%Q -> (k <= round_half_even x)%Z.
Proof.
  intro Hk. pose proof (round_half_even_near x) as Hn.
  apply Qabs_Qle_condition in Hn. destruct Hn as [Hn _].
  assert (Hlt : (inject_Z k < inject_Z (round_half_even x) + 1)%Q) by lra.
  change 1%Q with (inject_Z 1) in Hlt. rewrite <- inject_Z_plus in Hlt.
  rewrite <- Zlt_Qlt in Hlt. lia.
Qed.

Lemma round_half_even_le (k : Z) (x : Q) :
  (x <= inject_Z k)%Q -> (round_half_even x <= k)%Z.
Proof.
  intro Hk. pose proof (round_half_even_near x) as Hn.
  apply Qabs_Qle_condition in Hn. destruct Hn as [_ Hn].
  assert (Hlt : (inject_Z (round_half_even x) < inject_Z k + 1)%Q) by lra.
  change 1%Q with (inject_Z 1) in Hlt. rewrite <- inject_Z_plus in Hlt.
  rewrite <- Zlt_Qlt in Hlt. lia.
Qed.

(** [round(x, 1)] as a number of tenths. *)
Lemma Qround_1_tenths (x : Q) :
  (Qround_ndigits x 1 == inject_Z (round_half_even (x * 10)) / 10)%Q.
Proof.
  unfold Qround_ndigits. rewrite Qred_correct.
  change (pow10 1) with 10%positive.
  change (inject_Z (Z.pos 10)) with 10%Q.
  now rewrite Qmake_Qdiv.
Qed.

Lemma Qround_1_near (x : Q) :
  (Qabs (Qround_ndigits x 1 - x) <= 1 # 20)%Q.
Proof.
  rewrite Qround_1_tenths.
  pose proof (round_half_even_near (x * 10)) as Hn.
  apply Qabs_Qle_condition in Hn. destruct Hn as [Hlo Hhi].
  apply Qabs_Qle_condition.
  set (n := inject_Z (round_half_even (x * 10))) in *.
  assert (E : (n / 10 == n * (1 # 10))%Q) by (unfold Qdiv; reflexivity).
  rewrite E. split; lra.
Qed.

(* ================================================================== *)
(** * Sorting by a key *)
(* ================================================================== *)

Section SortedFacts.

Context {A : Type} (key : A -> Q).

Lemma insert_by_perm (x : A) (l : list A) :
  Permutation (insert_by key x l) (x :: l).
Proof.
  induction l as [|y t IH]; cbn [insert_by].
  - reflexivity.
  - destruct (key y <? key x)%F.
    + eapply perm_trans; [apply perm_skip, IH | apply perm_swap].
    + reflexivity.
Qed.

Lemma sorted_perm (l : list A) : Permutation (sorted key l) l.
Proof.
  induction l as [|x t IH]; cbn [sorted fold_right].
  - reflexivity.
  - eapply perm_trans; [apply insert_by_perm | now constructor].
Qed.

Lemma sorted_length (l : list A) : List.length (sorted key l) = List.length l.
Proof. apply Permutation_length, sorted_perm. Qed.

Lemma insert_by_sorted (x : A) (l : list A) :
  StronglySorted (key_le key) l ->
  StronglySorted (key_le key) (insert_by key x l).
Proof.
  induction 1 as [|y t Hs IH Hy]; cbn [insert_by].
  - repeat constructor.
  - destruct (key y <? key x)%F eqn:E.
    + apply Qltb_true in E. constructor; [exact IH|].
      eapply Permutation_Forall;
        [apply Permutation_sym, insert_by_perm|].
      constructor; [|exact Hy].
      now apply Qlt_le_weak.
    + apply Qltb_false in E. constructor.
      * now constructor.
      * constructor; [exact E|].
        eapply Forall_impl; [|exact Hy].
        intros z Hz. unfold key_le in *. lra.
Qed.

Lemma sorted_sorted (l : list A) : StronglySorted (key_le key) (sorted key l).
Proof.
  induction l as [|x t IH]; cbn [sorted fold_right].
  - constructor.
  - now apply insert_by_sorted.
Qed.

(** A sorted non-empty list is non-empty. *)
Lemma sorted_cons (x : A) (l : list A) :
  exists b rest, sorted key (x :: l) = b :: rest.
Proof.
  destruct (sorted key (x :: l)) as [|b rest] eqn:E.
  - pose proof (sorted_length (x :: l)) as Hl. rewrite E in Hl. discriminate.
  - eauto.
Qed.

End SortedFacts.

(* ================================================================== *)
(** * Loops *)
(* ================================================================== *)

Lemma for_each_total {A B} (f : A -> exc B) (l : list A) :
  (forall a, exists b, f a = Ok b) ->
  exists bs, for_each f l = Ok bs /\ Forall2 (fun a b => f a = Ok b) l bs.
Proof.
  intro Hf. induction l as [|a t (bs & E & Hbs)]; simpl.
  - exists []. split; [reflexivity|constructor].
  - destruct (Hf a) as (b & Eb). rewrite Eb, E. simpl.
    exists (b :: bs). split; [reflexivity|now constructor].
Qed.

Lemma range_length (lo hi : Z) : List.length (range lo hi) = Z.to_nat (hi - lo).
Proof. unfold range. now rewrite length_map, length_seq. Qed.

(* ================================================================== *)
(** * break_even.py in exact arithmetic *)
(* ================================================================== *)

Lemma of_int_nonzero (z : Z) :
  (z > 0)%Z -> ((of_int z : Q) == lit 0)%F = false.
Proof.
  intro Hz. apply Qeq_bool_false. unfold of_int. cbn [lit Q_PyFloat].
  rewrite !Qred_correct. unfold Qeq. simpl. lia.
Qed.

(** The curve is always built, one point per year of [0..years]. *)
Lemma build_cumulative_curve_ok (r : LifecycleResult Q) (years : Z) :
  exists curve,
    _build_cumulative_curve r years = Ok curve
    /\ List.length curve = Z.to_nat (years + 1).
Proof.
  unfold _build_cumulative_curve.
  destruct (years >? 0)%Z eqn:E.
  - unfold fdiv. rewrite of_int_nonzero by lia. cbn [bind ret].
    eexists. split; [reflexivity|].
    now rewrite length_map, range_length, Z.sub_0_r.
  - cbn [bind ret]. eexists. split; [reflexivity|].
    now rewrite length_map, range_length, Z.sub_0_r.
Qed.

Lemma nth_error_combine_Some {A B} (l : list A) (l' : list B) (i : nat) a b :
  nth_error (combine l l') i = Some (a, b)
  <-> nth_error l i = Some a /\ nth_error l' i = Some b.
Proof.
  revert l' i. induction l as [|x t IH]; intros [|y t'] [|i]; simpl;
    try (split; [discriminate | intros [? ?]; discriminate]).
  - split; [intros [= -> ->]; auto | intros [[= ->] [= ->]]; auto].
  - apply IH.
Qed.

(** The scan returns the first index at which the first component is at
    most the second; it returns nothing when there is none. *)
Lemma first_crossing_spec (l : list (Q * Q)) (k : nat) :
  match first_crossing
          (combine (map (fun i => (0 + Z.of_nat i)%Z)
                        (seq k (List.length l))) l) with
  | Some y =>
      exists i b c,
        y = Z.of_nat (k + i) /\ nth_error l i = Some (b, c) /\ (b <= c)%Q
        /\ forall j b' c', (j < i)%nat ->
             nth_error l j = Some (b', c') -> (c' < b')%Q
  | None =>
      forall j b' c', nth_error l j = Some (b', c') -> (c' < b')%Q
  end.
Proof.
  revert k. induction l as [|[b c] t IH]; intro k.
  - simpl. intros [|j] b' c'; discriminate.
  - cbn [List.length seq map combine first_crossing].
    destruct (b <=? c)%F eqn:E.
    + exists 0%nat, b, c.
      split; [lia|]. split; [reflexivity|]. split.
      * now apply Qle_bool_iff.
      * intros j b' c' Hj. lia.
    + apply Qle_bool_false in E.
      specialize (IH (S k)).
      destruct (first_crossing _) as [y|].
      * destruct IH as (i & b0 & c0 & -> & Hn & Hle & Hbefore).
        exists (S i), b0, c0.
        split; [lia|]. split; [exact Hn|]. split; [exact Hle|].
        intros [|j] b' c' Hj Hnth.
        -- simpl in Hnth. now injection Hnth as <- <-.
        -- simpl in Hnth. apply (Hbefore j); [lia|exact Hnth].
      * intros [|j] b' c' Hnth.
        -- simpl in Hnth. now injection Hnth as <- <-.
        -- simpl in Hnth. now apply (IH j).
Qed.

Lemma find_break_even_year_spec (best_curve comparison_curve : list Q) :
  match _find_break_even_year best_curve comparison_curve with
  | Some y =>
      (0 <= y)%Z
      /\ (exists b c,
            curve_at best_curve y = Some b
            /\ curve_at comparison_curve y = Some c /\ (b <= c)%Q)
      /\ (forall y' b c, (0 <= y' < y)%Z ->
            curve_at best_curve y' = Some b ->
            curve_at comparison_curve y' = Some c -> (c < b)%Q)
  | None =>
      forall y' b c,
        curve_at best_curve y' = Some b ->
        curve_at comparison_curve y' = Some c -> (c < b)%Q
  end.
Proof.
  unfold _find_break_even_year, enumerate, range.
  rewrite Z.sub_0_r, Nat2Z.id.
  pose proof (first_crossing_spec (combine best_curve comparison_curve) 0)
    as Hs.
  destruct (first_crossing _) as [y|].
  - destruct Hs as (i & b & c & -> & Hn & Hle & Hbefore).
    apply nth_error_combine_Some in Hn. destruct Hn as [Hb Hc].
    simpl Nat.add. unfold curve_at. split; [lia|]. split.
    + exists b, c.
      destruct (Z.ltb_spec (Z.of_nat i) 0); [lia|].
      now rewrite Nat2Z.id.
    + intros y' b' c' Hy'.
      destruct (Z.ltb_spec y' 0); [lia|]. intros Hb' Hc'.
      apply (Hbefore (Z.to_nat y')); [lia|].
      now apply nth_error_combine_Some.
  - intros y' b' c'. unfold curve_at.
    destruct (Z.ltb_spec y' 0); [discriminate|]. intros Hb' Hc'.
    apply (Hs (Z.to_nat y')). now apply nth_error_combine_Some.
Qed.

(** Fewer than two results: nothing to compare. *)
Lemma compare_best_vs_all_short (results : list (LifecycleResult Q))
    (years : Z) :
  (List.length results < 2)%nat -> compare_best_vs_all results years = Ok None.
Proof.
  intro Hl. unfold compare_best_vs_all.
  destruct (Nat.ltb_spec (List.length results) 2); [reflexivity|lia].
Qed.

(** Two results or more: the shape of what is returned. *)
Lemma compare_best_vs_all_long (results : list (LifecycleResult Q))
    (years : Z) :
  (2 <= List.length results)%nat ->
  exists best others best_curve ps,
    sorted total results = best :: others
    /\ _build_cumulative_curve best years = Ok best_curve
    /\ compare_best_vs_all results years =
         Ok (Some {| cmp_best_vehicle := vehicle_type best;
                     years_range := range 0 (years + 1);
                     pairs := ps |})
    /\ Forall2
         (fun other p =>
            exists comparison_curve,
              _build_cumulative_curve other years = Ok comparison_curve
              /\ p = {| year := _find_break_even_year best_curve
                                  comparison_curve;
                        best_vehicle := vehicle_type best;
                        comparison_vehicle := vehicle_type other;
                        yearly_best_cumulative := best_curve;
                        yearly_comparison_cumulative := comparison_curve |})
         others ps.
Proof.
  intro Hl. unfold compare_best_vs_all.
  destruct (Nat.ltb_spec (List.length results) 2); [lia|].
  destruct results as [|r0 rest]; [simpl in Hl; lia|].
  destruct (sorted_cons total r0 rest) as (best & others & Es).
  rewrite Es. cbn [list_index Z.ltb Z.compare Z.to_nat nth_error bind skipn].
  destruct (build_cumulative_curve_ok best years) as (best_curve & Eb & _).
  rewrite Eb. cbn [bind].
  match goal with |- context [for_each ?f others] =>
    destruct (for_each_total f others) as (ps & Eps & Hps)
  end.
  { intro other.
    destruct (build_cumulative_curve_ok other years) as (cc & Ec & _).
    rewrite Ec. cbn [bind ret]. eauto. }
  rewrite Eps. cbn [bind ret].
  exists best, others, best_curve, ps.
  split; [reflexivity|]. split; [exact Eb|]. split; [reflexivity|].
  eapply Forall2_impl; [|exact Hps].
  intros other p Hp. cbv beta in Hp.
  destruct (build_cumulative_curve_ok other years) as (cc & Ec & _).
  rewrite Ec in Hp. cbn [bind ret] in Hp. injection Hp as <-.
  exists cc. split; [exact Ec|reflexivity].
Qed.

(* ================================================================== *)
(** * Break-even analysis (claims C3, C4, C5) *)
(* ================================================================== *)

(** C3: scenario B yields manufacturing 8300, use phase 26910.0, disposal
    350 and total 35560.0; on the results of scenarios A and B, in either
    order, with 10 years, [compare_best_vs_all] selects BEV as best and
    returns one pair, BEV against ICEV-p, with break-even year 5; the
    curves start at 17300 for BEV and 8650 for ICEV-p.  In exact arithmetic
    and in binary64. *)
Theorem scenario_C_break_even :
  (scenario_B Q = Ok (result_B Q)
   /\ compare_best_vs_all [result_A Q; result_B Q] 10
      = Ok (Some (comparison_C Q))
   /\ compare_best_vs_all [result_B Q; result_A Q] 10
      = Ok (Some (comparison_C Q)))
  /\ (scenario_B float = Ok (result_B float)
      /\ compare_best_vs_all [result_A float; result_B float] 10
         = Ok (Some (comparison_C float))
      /\ compare_best_vs_all [result_B float; result_A float] 10
         = Ok (Some (comparison_C float)))
  /\ cmp_best_vehicle (comparison_C Q) = "BEV"
  /\ map (fun p => (best_vehicle p, comparison_vehicle p, year p))
         (pairs (comparison_C Q))
     = [("BEV", "ICEV-p", Some 5%Z)]
  /\ (curve_at (yearly_best_cumulative (pair_C Q)) 0 = Some (lit 17300)
      /\ curve_at (yearly_comparison_cumulative (pair_C Q)) 0
         = Some (lit 8650)).
Proof.
  split; [repeat split; vm_compute; reflexivity|].
  split; [repeat split; vm_compute; reflexivity|].
  repeat split; reflexivity.
Qed.

(** C4: in every pair that [compare_best_vs_all] produces, both curves
    have a point for every year of [0..years]; a present year is a year
    of that range at which the best curve is at most the comparison curve,
    and at every earlier year the best curve is strictly above; with no
    year, the best curve is strictly above at every year of the range. *)
Theorem break_even_year_is_first_crossing
    (results : list (LifecycleResult Q)) (years : Z)
    (c : BreakEvenComparison Q) (p : BreakEvenPair Q) :
  compare_best_vs_all results years = Ok (Some c) ->
  In p (pairs c) ->
  (forall y, (0 <= y <= years)%Z ->
     exists b k,
       curve_at (yearly_best_cumulative p) y = Some b
       /\ curve_at (yearly_comparison_cumulative p) y = Some k)
  /\ match year p with
     | Some y =>
         (0 <= y <= years)%Z
         /\ (exists b k,
               curve_at (yearly_best_cumulative p) y = Some b
               /\ curve_at (yearly_comparison_cumulative p) y = Some k
               /\ (b <= k)%Q)
         /\ (forall y' b k, (0 <= y' < y)%Z ->
               curve_at (yearly_best_cumulative p) y' = Some b ->
               curve_at (yearly_comparison_cumulative p) y' = Some k ->
               (k < b)%Q)
     | None =>
         forall y' b k, (0 <= y' <= years)%Z ->
           curve_at (yearly_best_cumulative p) y' = Some b ->
           curve_at (yearly_comparison_cumulative p) y' = Some k ->
           (k < b)%Q
     end.
Proof.
  intros Hc Hp.
  destruct (Nat.ltb_spec (List.length results) 2) as [Hshort|Hlong].
  { rewrite compare_best_vs_all_short in Hc by exact Hshort. discriminate. }
  destruct (compare_best_vs_all_long results years Hlong)
    as (best & others & best_curve & ps & _ & Eb & Ec & Hps).
  rewrite Ec in Hc. injection Hc as <-. cbn [pairs] in Hp.
  assert (Hother : exists other comparison_curve,
            _build_cumulative_curve other years = Ok comparison_curve
            /\ p = {| year := _find_break_even_year best_curve
                                comparison_curve;
                      best_vehicle := vehicle_type best;
                      comparison_vehicle := vehicle_type other;
                      yearly_best_cumulative := best_curve;
                      yearly_comparison_cumulative := comparison_curve |}).
  { clear Ec. induction Hps as [|o q os qs (cc & E1 & E2) _ IH].
    - contradiction.
    - destruct Hp as [<-|Hp]; [eauto|auto]. }
  destruct Hother as (other & cc & Ecc & ->).
  cbn [year yearly_best_cumulative yearly_comparison_cumulative].
  destruct (build_cumulative_curve_ok best years) as (bc' & Eb' & Lb).
  rewrite Eb in Eb'. injection Eb' as <-.
  destruct (build_cumulative_curve_ok other years) as (cc' & Ec' & Lc).
  rewrite Ecc in Ec'. injection Ec' as <-.
  assert (Hat : forall (l : list Q) y,
            List.length l = Z.to_nat (years + 1) ->
            (0 <= y <= years)%Z -> exists v, curve_at l y = Some v).
  { intros l y Hlen Hy. unfold curve_at.
    destruct (Z.ltb_spec y 0); [lia|].
    destruct (nth_error l (Z.to_nat y)) eqn:E; [eauto|].
    apply nth_error_None in E. lia. }
  assert (Hin : forall (l : list Q) y v,
            List.length l = Z.to_nat (years + 1) ->
            curve_at l y = Some v -> (0 <= y <= years)%Z).
  { intros l y v Hlen. unfold curve_at.
    destruct (Z.ltb_spec y 0); [discriminate|]. intro E.
    assert (Hlt : (Z.to_nat y < List.length l)%nat)
      by (apply nth_error_Some; congruence).
    lia. }
  split.
  - intros y Hy.
    destruct (Hat best_curve y Lb Hy) as (b & Hb).
    destruct (Hat cc y Lc Hy) as (k & Hk). eauto.
  - pose proof (find_break_even_year_spec best_curve cc) as Hs.
    destruct (_find_break_even_year best_curve cc) as [y|].
    + destruct Hs as (Hy0 & (b & k & Hb & Hk & Hle) & Hbefore).
      split; [exact (Hin _ _ _ Lb Hb)|]. split; [eauto|exact Hbefore].
    + intros y' b k _. apply Hs.
Qed.

(** C4 at scenario C. *)
Lemma break_even_year_is_first_crossing_scenario_C :
  compare_best_vs_all [result_A Q; result_B Q] 10
    = Ok (Some (comparison_C Q))
  /\ In (pair_C Q) (pairs (comparison_C Q))
  /\ (exists b k,
        curve_at (yearly_best_cumulative (pair_C Q)) 5 = Some b
        /\ curve_at (yearly_comparison_cumulative (pair_C Q)) 5 = Some k
        /\ (b <= k)%Q)
  /\ (forall y' b k, (0 <= y' < 5)%Z ->
        curve_at (yearly_best_cumulative (pair_C Q)) y' = Some b ->
        curve_at (yearly_comparison_cumulative (pair_C Q)) y' = Some k ->
        (k < b)%Q).
Proof.
  assert (Hc : compare_best_vs_all [result_A Q; result_B Q] 10
               = Ok (Some (comparison_C Q))) by (vm_compute; reflexivity).
  assert (Hp : In (pair_C Q) (pairs (comparison_C Q)))
    by (left; reflexivity).
  split; [exact Hc|]. split; [exact Hp|].
  exact (proj2 (proj2 (break_even_year_is_first_crossing
                         [result_A Q; result_B Q] 10
                         (comparison_C Q) (pair_C Q) Hc Hp))).
Defined.

(** C5: with no result or one result [compare_best_vs_all] returns the
    absent comparison and raises nothing; with [N >= 2] results it returns
    a comparison of [N - 1] pairs: the results are a permutation of a best
    one followed by the others in ascending order of total, and the pairs
    are, in that order, one per other vehicle, each against the best. *)
Theorem compare_best_vs_all_pairs :
  (forall years, compare_best_vs_all (F:=Q) [] years = Ok None)
  /\ (forall r years, compare_best_vs_all (F:=Q) [r] years = Ok None)
  /\ (forall (results : list (LifecycleResult Q)) years,
        (2 <= List.length results)%nat ->
        exists c best others,
          compare_best_vs_all results years = Ok (Some c)
          /\ List.length (pairs c) = (List.length results - 1)%nat
          /\ Permutation (best :: others) results
          /\ StronglySorted (fun a b => (total a <= total b)%Q)
               (best :: others)
          /\ cmp_best_vehicle c = vehicle_type best
          /\ map comparison_vehicle (pairs c) = map vehicle_type others
          /\ Forall (fun p => best_vehicle p = vehicle_type best) (pairs c)).
Proof.
  split; [reflexivity|]. split; [reflexivity|].
  intros results years Hlong.
  destruct (compare_best_vs_all_long results years Hlong)
    as (best & others & best_curve & ps & Es & _ & Ec & Hps).
  exists {| cmp_best_vehicle := vehicle_type best;
            years_range := range 0 (years + 1);
            pairs := ps |}, best, others.
  cbn [pairs cmp_best_vehicle].
  split; [exact Ec|].
  assert (Hperm : Permutation (best :: others) results)
    by (rewrite <- Es; apply sorted_perm).
  split.
  { apply Permutation_length in Hperm. apply Forall2_length in Hps.
    simpl in Hperm. lia. }
  split; [exact Hperm|]. split.
  { rewrite <- Es. apply (sorted_sorted total). }
  split; [reflexivity|].
  clear Ec Es Hperm. induction Hps as [|o q os qs (cc & _ & ->) _ IH].
  - split; [reflexivity|constructor].
  - destruct IH as [IH1 IH2]. cbn [map comparison_vehicle]. split.
    + now rewrite IH1.
    + constructor; [reflexivity|exact IH2].
Qed.

(* ================================================================== *)
(** * carbon_engine.py: facts that hold in any arithmetic *)
(* ================================================================== *)

Section EngineFacts.

Context {F : Type} `{PyFloat F}.

(** The use phase raises [ValueError] exactly on an unrecognised fuel. *)
Lemma use_phase_ValueError (params : VehicleParams F)
    (total_km grid_factor size_mult : F) (msg : string) :
  _calculate_use_phase params total_km grid_factor size_mult
    = Raise (ValueError msg)
  <-> ~ In (fuel_type params) KNOWN_FUEL_TYPES
      /\ msg = "Unknown fuel type: " ++ fuel_type params.
Proof.
  unfold _calculate_use_phase.
  destruct (String.eqb_spec (fuel_type params) "electricity") as [E1|N1].
  { split.
    - unfold fdiv. destruct (_ == _)%F; cbn [bind ret]; discriminate.
    - intros [Hn _]. exfalso. apply Hn. rewrite E1. simpl. tauto. }
  destruct (String.eqb_spec (fuel_type params) "petrol") as [E2|N2].
  { split.
    - unfold fdiv. destruct (_ == _)%F; cbn [bind ret]; discriminate.
    - intros [Hn _]. exfalso. apply Hn. rewrite E2. simpl. tauto. }
  destruct (String.eqb_spec (fuel_type params) "diesel") as [E3|N3].
  { split.
    - unfold fdiv. destruct (_ == _)%F; cbn [bind ret]; discriminate.
    - intros [Hn _]. exfalso. apply Hn. rewrite E3. simpl. tauto. }
  destruct (String.eqb_spec (fuel_type params) "hybrid_petrol") as [E4|N4].
  { split.
    - unfold fdiv.
      destruct (_ >? _)%F; repeat (destruct (_ == _)%F; cbn [bind ret]);
        discriminate.
    - intros [Hn _]. exfalso. apply Hn. rewrite E4. simpl. tauto. }
  split.
  - intros [= <-]. split; [|reflexivity].
    simpl. intuition congruence.
  - intros [_ ->]. reflexivity.
Qed.

(** Every entry of the constant library has a recognised fuel. *)
Lemma vehicle_params_fuel_known :
  Forall (fun entry => In (fuel_type (snd entry)) KNOWN_FUEL_TYPES)
         (VEHICLE_PARAMS (F:=F)).
Proof. repeat constructor; simpl; tauto. Qed.

Lemma dict_get_In {V} (d : list (string * V)) (k : string) (v : V) :
  dict_get d k = Ok v -> In (k, v) d.
Proof.
  induction d as [|[k' v'] d IH]; simpl; [discriminate|].
  destruct (String.eqb_spec k k') as [<-|Hne].
  - intros [= <-]. now left.
  - intro E. right. now apply IH.
Qed.

(** [calculate_lifecycle] never raises [ValueError]. *)
Lemma calculate_lifecycle_no_ValueError (vehicle_type : string)
    (annual_km : F) (years : Z) (grid_factor : F) (vehicle_size : string)
    (msg : string) :
  calculate_lifecycle vehicle_type annual_km years grid_factor vehicle_size
    <> Raise (ValueError msg).
Proof.
  unfold calculate_lifecycle.
  destruct (dict_get VEHICLE_PARAMS vehicle_type) as [params|e] eqn:Ep;
    cbn [bind].
  2:{ clear -Ep. intros [= ->]. revert Ep. simpl.
      repeat (destruct (String.eqb _ _); [discriminate|]). discriminate. }
  destruct (dict_get SIZE_MULTIPLIERS vehicle_size) as [size_mult|e] eqn:Es;
    cbn [bind].
  2:{ clear -Es. intros [= ->]. revert Es. simpl.
      repeat (destruct (String.eqb _ _); [discriminate|]). discriminate. }
  destruct (_calculate_use_phase _ _ _ _) as [use_kg|e] eqn:Eu; cbn [bind].
  2:{ intros [= ->]. apply use_phase_ValueError in Eu. destruct Eu as [Hn _].
      apply Hn. apply dict_get_In in Ep.
      pose proof vehicle_params_fuel_known as Hall.
      rewrite Forall_forall in Hall. exact (Hall _ Ep). }
  unfold _check_greenwashing, fdiv.
  repeat (match goal with
          | |- context [if ?b then _ else _] => destruct b
          end; cbn [bind ret]); discriminate.
Qed.

(** ** The plug-in branch *)

Hypothesis lit_100_nonzero : (lit 100 == lit 0)%F = false.
Hypothesis lit_14_not_above_14 : (lit 14 >? lit 14)%F = false.

Lemma PHEV_PARAMS_lookup : dict_get VEHICLE_PARAMS "PHEV" = Ok PHEV_PARAMS.
Proof. reflexivity. Qed.

(** The use phase of the built-in PHEV: 5% of the distance carries no
    emissions, 95% burns petrol; the grid factor plays no part. *)
Lemma PHEV_use_phase (total_km grid_factor size_mult : F) :
  _calculate_use_phase PHEV_PARAMS total_km grid_factor size_mult
  = Ok (lit 0
        + fquot (lit 5.5 * size_mult) (lit 100)
          * (total_km * (lit 1 - lit 0.05)) * lit 2.392)%F.
Proof.
  unfold _calculate_use_phase, fdiv.
  cbn [fuel_type battery_capacity_kwh energy_consumption_per_100km
       PHEV_PARAMS].
  rewrite lit_14_not_above_14, lit_100_nonzero.
  reflexivity.
Qed.

Lemma PHEV_lifecycle_ignores_grid (annual_km : F) (years : Z)
    (grid_1 grid_2 : F) (vehicle_size : string) :
  calculate_lifecycle "PHEV" annual_km years grid_1 vehicle_size
  = calculate_lifecycle "PHEV" annual_km years grid_2 vehicle_size.
Proof.
  unfold calculate_lifecycle. rewrite PHEV_PARAMS_lookup. cbn [bind].
  destruct (dict_get SIZE_MULTIPLIERS vehicle_size) as [size_mult|e];
    cbn [bind]; [|reflexivity].
  now rewrite !PHEV_use_phase.
Qed.

(** No built-in entry reaches the plug-in test with a capacity above 14. *)
Lemma plug_in_branch_unreachable :
  (lit 1.5 >? lit 14)%F = false ->
  Forall (fun entry =>
            String.eqb (fuel_type (snd entry)) "hybrid_petrol"
            && (battery_capacity_kwh (snd entry) >? lit 14)%F = false)
         (VEHICLE_PARAMS (F:=F)).
Proof.
  intro Hhev. repeat constructor; cbn [snd fuel_type battery_capacity_kwh];
    try reflexivity.
  - now rewrite lit_14_not_above_14.
  - now rewrite Hhev.
Qed.

End EngineFacts.

(* ================================================================== *)
(** * carbon_engine.py in exact arithmetic *)
(* ================================================================== *)

Lemma Q_positive_nonzero (x : Q) :
  (x >? lit 0)%F = true -> (x == lit 0)%F = false.
Proof.
  cbn [fltb feqb lit Q_PyFloat]. intro Hpos.
  apply Qltb_true in Hpos. apply Qeq_bool_false.
  rewrite Qred_correct in *. lra.
Qed.

(** The greenwashing check, case by case. *)
Lemma check_greenwashing_cases (use_kg total_kg : Q) (vt : string) :
  let fraction := (use_kg / total_kg)%Q in
  (total_kg == 0
   /\ _check_greenwashing use_kg total_kg vt = Ok (false, None))%Q
  \/ (~ total_kg == 0 /\ fraction < 0.05 /\ 15000 < total_kg
      /\ _check_greenwashing use_kg total_kg vt
         = Ok (true, Some (MisleadingLabel vt use_kg
                             (fraction * lit 100)%F total_kg)))%Q
  \/ (~ total_kg == 0 /\ ~ (fraction < 0.05 /\ 15000 < total_kg)
      /\ vt = "BEV" /\ 0.70 < fraction
      /\ _check_greenwashing use_kg total_kg vt
         = Ok (true, Some GridAdvocacy))%Q
  \/ (~ total_kg == 0 /\ ~ (fraction < 0.05 /\ 15000 < total_kg)
      /\ ~ (vt = "BEV" /\ 0.70 < fraction)
      /\ _check_greenwashing use_kg total_kg vt = Ok (false, None))%Q.
Proof.
  intro fraction. unfold _check_greenwashing, fdiv.
  destruct (total_kg == lit 0)%F eqn:E0.
  { left. split; [|reflexivity].
    cbn [feqb lit Q_PyFloat] in E0. apply Qeq_bool_iff in E0.
    now rewrite Qred_correct in E0. }
  right. cbn [bind].
  assert (Hnz : ~ (total_kg == 0)%Q).
  { cbn [feqb lit Q_PyFloat] in E0. apply Qeq_bool_false in E0.
    now rewrite Qred_correct in E0. }
  change (fquot use_kg total_kg) with fraction.
  assert (H1 : (fraction <? GREENWASHING_OPERATIONAL_THRESHOLD_PCT)%F = true
               <-> (fraction < 0.05)%Q).
  { unfold GREENWASHING_OPERATIONAL_THRESHOLD_PCT.
    cbn [fltb lit Q_PyFloat]. rewrite Qltb_true. now rewrite Qred_correct. }
  assert (H2 : (total_kg >? GREENWASHING_TOTAL_THRESHOLD_KG)%F = true
               <-> (15000 < total_kg)%Q).
  { unfold GREENWASHING_TOTAL_THRESHOLD_KG.
    cbn [fltb lit Q_PyFloat]. rewrite Qltb_true. now rewrite Qred_correct. }
  assert (H3 : (fraction >? lit 0.70)%F = true <-> (0.70 < fraction)%Q).
  { cbn [fltb lit Q_PyFloat]. rewrite Qltb_true. now rewrite Qred_correct. }
  destruct (_ && _) eqn:E1.
  { left. apply andb_true_iff in E1. destruct E1 as [Ea Eb].
    apply H1 in Ea. apply H2 in Eb. repeat split; auto. }
  right.
  assert (Hn1 : ~ (fraction < 0.05 /\ 15000 < total_kg)%Q).
  { intros [Ha Hb]. apply H1 in Ha. apply H2 in Hb.
    rewrite Ha, Hb in E1. discriminate. }
  destruct (String.eqb vt "BEV" && _) eqn:E2.
  - left. apply andb_true_iff in E2. destruct E2 as [Ea Eb].
    apply String.eqb_eq in Ea. apply H3 in Eb. repeat split; auto.
  - right. repeat split; auto.
    intros [Ha Hb]. apply H3 in Hb. rewrite Ha, Hb in E2. discriminate.
Qed.

Lemma check_greenwashing_ok (use_kg total_kg : Q) (vt : string) :
  exists flag reason,
    _check_greenwashing use_kg total_kg vt = Ok (flag, reason).
Proof.
  destruct (check_greenwashing_cases use_kg total_kg vt)
    as [(_ & E)|[(_ & _ & _ & E)|[(_ & _ & _ & _ & E)|(_ & _ & _ & E)]]];
    rewrite E; eauto.
Qed.

(** Once the two lookups and the use phase succeed, a result is returned,
    with these four fields. *)
Lemma calculate_lifecycle_fields (vt : string) (annual_km : Q) (years : Z)
    (grid_factor : Q) (size : string) (params : VehicleParams Q)
    (size_mult use_kg : Q) :
  dict_get VEHICLE_PARAMS vt = Ok params ->
  dict_get SIZE_MULTIPLIERS size = Ok size_mult ->
  _calculate_use_phase params (annual_km * of_int years)%F grid_factor
    size_mult = Ok use_kg ->
  let battery_kwh :=
    (if battery_capacity_kwh params >? lit 0
     then battery_capacity_kwh params * size_mult else lit 0)%F in
  let manufacturing_kg :=
    (glider_manufacturing_kg params * size_mult
     + powertrain_manufacturing_kg params * size_mult
     + battery_kwh * battery_manufacturing_per_kwh params)%F in
  let disposal_kg := _calculate_disposal params battery_kwh size_mult in
  exists r,
    calculate_lifecycle vt annual_km years grid_factor size = Ok r
    /\ manufacturing r = fround manufacturing_kg 1
    /\ use_phase r = fround use_kg 1
    /\ disposal r = fround disposal_kg 1
    /\ total r = fround (manufacturing_kg + use_kg + disposal_kg)%F 1.
Proof.
  intros Ep Es Eu battery_kwh manufacturing_kg disposal_kg.
  unfold calculate_lifecycle. rewrite Ep, Es. cbn [bind]. rewrite Eu.
  cbn [bind].
  fold battery_kwh. fold manufacturing_kg. fold disposal_kg.
  destruct (check_greenwashing_ok use_kg
              (manufacturing_kg + use_kg + disposal_kg)%F vt)
    as (flag & reason & Eg).
  destruct (annual_km * of_int years >? lit 0)%F eqn:Ekm.
  - unfold fdiv. rewrite (Q_positive_nonzero _ Ekm). cbn [bind ret].
    rewrite Eg. cbn [bind ret]. eexists. repeat split; reflexivity.
  - cbn [bind ret]. rewrite Eg. cbn [bind ret].
    eexists. repeat split; reflexivity.
Qed.

Lemma lit_100_nonzero_Q : ((lit 100 : Q) == lit 0)%F = false.
Proof. reflexivity. Qed.

Lemma fuel_factor_petrol {F} `{PyFloat F} :
  dict_get (FUEL_EMISSION_FACTORS (F:=F)) "petrol" = Ok (lit 2.392).
Proof. reflexivity. Qed.

Lemma fuel_factor_diesel {F} `{PyFloat F} :
  dict_get (FUEL_EMISSION_FACTORS (F:=F)) "diesel" = Ok (lit 2.640).
Proof. reflexivity. Qed.

(** With a recognised fuel the use phase returns. *)
Lemma use_phase_ok (params : VehicleParams Q)
    (total_km grid_factor size_mult : Q) :
  In (fuel_type params) KNOWN_FUEL_TYPES ->
  exists use_kg,
    _calculate_use_phase params total_km grid_factor size_mult = Ok use_kg.
Proof.
  intro Hk. unfold _calculate_use_phase, fdiv.
  rewrite lit_100_nonzero_Q, fuel_factor_petrol, fuel_factor_diesel.
  cbn [bind ret].
  destruct (String.eqb_spec (fuel_type params) "electricity"); [eauto|].
  destruct (String.eqb_spec (fuel_type params) "petrol"); [eauto|].
  destruct (String.eqb_spec (fuel_type params) "diesel"); [eauto|].
  destruct (String.eqb_spec (fuel_type params) "hybrid_petrol").
  - destruct (_ >? _)%F; cbn [bind ret]; eauto.
  - exfalso. simpl in Hk. intuition congruence.
Qed.

Lemma builtin_lookup (vt : string) :
  In vt BUILTIN_VEHICLE_TYPES ->
  exists params,
    dict_get (VEHICLE_PARAMS (F:=Q)) vt = Ok params
    /\ In (fuel_type params) KNOWN_FUEL_TYPES.
Proof.
  intro Hvt. simpl in Hvt.
  destruct Hvt as [<-|[<-|[<-|[<-|[<-|[]]]]]];
    (eexists; split; [reflexivity|simpl; tauto]).
Qed.

Lemma size_lookup (size : string) :
  In size VEHICLE_SIZES ->
  exists size_mult, dict_get (SIZE_MULTIPLIERS (F:=Q)) size = Ok size_mult.
Proof.
  intro Hs. simpl in Hs.
  destruct Hs as [<-|[<-|[<-|[]]]]; eexists; reflexivity.
Qed.

(** On a built-in vehicle type and size, every input yields a result. *)
Lemma calculate_lifecycle_returns (vt : string) (annual_km : Q) (years : Z)
    (grid_factor : Q) (size : string) :
  In vt BUILTIN_VEHICLE_TYPES -> In size VEHICLE_SIZES ->
  exists r, calculate_lifecycle vt annual_km years grid_factor size = Ok r.
Proof.
  intros Hvt Hs.
  destruct (builtin_lookup vt Hvt) as (params & Ep & Hfuel).
  destruct (size_lookup size Hs) as (size_mult & Es).
  destruct (use_phase_ok params (annual_km * of_int years)%F grid_factor
              size_mult Hfuel) as (use_kg & Eu).
  destruct (calculate_lifecycle_fields vt annual_km years grid_factor size
              params size_mult use_kg Ep Es Eu) as (r & Er & _).
  eauto.
Qed.

(* ================================================================== *)
(** * The hybrid branch and the fuel types (claims C2, C10) *)
(* ================================================================== *)

(** C2: the result of [calculate_lifecycle] for PHEV is the same for any
    two grid factors, whatever the other inputs, in exact arithmetic and in
    binary64.  The built-in PHEV has a battery capacity of exactly 14, the
    test [battery_capacity_kwh > 14] fails on it, and its use phase is the
    non-plug-in formula (fraction 0.05, no electric emissions).  No entry of
    the constant library is [hybrid_petrol] with a capacity above 14. *)
Theorem phev_result_ignores_grid_factor :
  (forall (annual_km : Q) (years : Z) (grid_1 grid_2 : Q) (size : string),
      calculate_lifecycle "PHEV" annual_km years grid_1 size
      = calculate_lifecycle "PHEV" annual_km years grid_2 size)
  /\ (forall (annual_km : float) (years : Z) (grid_1 grid_2 : float)
             (size : string),
         calculate_lifecycle "PHEV" annual_km years grid_1 size
         = calculate_lifecycle "PHEV" annual_km years grid_2 size)
  /\ (exists params : VehicleParams Q,
         dict_get VEHICLE_PARAMS "PHEV" = Ok params
         /\ (battery_capacity_kwh params == 14)%Q
         /\ (battery_capacity_kwh params >? lit 14)%F = false
         /\ forall total_km grid_factor size_mult : Q,
              _calculate_use_phase params total_km grid_factor size_mult
              = Ok (lit 0
                    + fquot (lit 5.5 * size_mult) (lit 100)
                      * (total_km * (lit 1 - lit 0.05)) * lit 2.392)%F)
  /\ Forall (fun entry =>
               String.eqb (fuel_type (snd entry)) "hybrid_petrol"
               && (battery_capacity_kwh (snd entry) >? lit 14)%F = false)
            (VEHICLE_PARAMS (F:=Q))
  /\ Forall (fun entry =>
               String.eqb (fuel_type (snd entry)) "hybrid_petrol"
               && (battery_capacity_kwh (snd entry) >? lit 14)%F = false)
            (VEHICLE_PARAMS (F:=float)).
Proof.
  split.
  { intros. apply PHEV_lifecycle_ignores_grid; reflexivity. }
  split.
  { intros. apply PHEV_lifecycle_ignores_grid; vm_compute; reflexivity. }
  split.
  { exists PHEV_PARAMS. split; [reflexivity|]. split; [reflexivity|].
    split; [reflexivity|].
    intros. apply PHEV_use_phase; reflexivity. }
  split.
  - apply plug_in_branch_unreachable; reflexivity.
  - apply plug_in_branch_unreachable; vm_compute; reflexivity.
Qed.

(** C10: in any arithmetic, the use phase raises the unknown-fuel error
    exactly when the fuel type of its parameters is none of electricity,
    petrol, diesel and hybrid_petrol; every entry of the constant library
    has one of these four; so [calculate_lifecycle] never raises that
    error.  In exact arithmetic, on the five built-in vehicle types and
    the three sizes, [calculate_lifecycle] raises nothing at all. *)
Theorem unknown_fuel_type_unreachable :
  (forall (F : Type) (PF : PyFloat F) (params : VehicleParams F)
          (total_km grid_factor size_mult : F) (msg : string),
      _calculate_use_phase params total_km grid_factor size_mult
        = Raise (ValueError msg)
      <-> ~ In (fuel_type params) KNOWN_FUEL_TYPES
          /\ msg = "Unknown fuel type: " ++ fuel_type params)
  /\ (forall (F : Type) (PF : PyFloat F),
         map fst (VEHICLE_PARAMS (F:=F)) = BUILTIN_VEHICLE_TYPES
         /\ Forall (fun entry => In (fuel_type (snd entry)) KNOWN_FUEL_TYPES)
                   (VEHICLE_PARAMS (F:=F)))
  /\ (forall (F : Type) (PF : PyFloat F) (vt : string) (annual_km : F)
             (years : Z) (grid_factor : F) (size msg : string),
         calculate_lifecycle vt annual_km years grid_factor size
         <> Raise (ValueError msg))
  /\ (forall (vt : string) (annual_km : Q) (years : Z) (grid_factor : Q)
             (size : string),
         In vt BUILTIN_VEHICLE_TYPES -> In size VEHICLE_SIZES ->
         exists r,
           calculate_lifecycle vt annual_km years grid_factor size = Ok r).
Proof.
  split; [intros; apply use_phase_ValueError|].
  split; [intros; split; [reflexivity|apply vehicle_params_fuel_known]|].
  split; [intros; apply calculate_lifecycle_no_ValueError|].
  intros. now apply calculate_lifecycle_returns.
Qed.

(* ================================================================== *)
(** * Greenwashing detection (claim C7) *)
(* ================================================================== *)

(** C7: [_check_greenwashing] always returns a flag and an optional reason.
    With a zero total the flag is false.  With a non-zero total, writing
    the operational fraction for use phase over total: the flag is true
    with the misleading-label reason exactly when the fraction is below
    0.05 and the total above 15000; it is true with the grid-advocacy
    reason exactly when that first rule does not apply, the vehicle type is
    BEV and the fraction is above 0.70; it is true in no other case.  The
    reason is present exactly when the flag is true. *)
Theorem greenwashing_rules (use_kg total_kg : Q) (vt : string) :
  exists flag reason,
    _check_greenwashing use_kg total_kg vt = Ok (flag, reason)
    /\ ((total_kg == 0)%Q -> flag = false)
    /\ (~ (total_kg == 0)%Q ->
        let fraction := (use_kg / total_kg)%Q in
        let primary := (fraction < 0.05 /\ 15000 < total_kg)%Q in
        let secondary := (vt = "BEV" /\ 0.70 < fraction)%Q in
        ((flag = true
          /\ reason = Some (MisleadingLabel vt use_kg
                              (fraction * lit 100)%F total_kg))
         <-> primary)
        /\ ((flag = true /\ reason = Some GridAdvocacy)
            <-> ~ primary /\ secondary)
        /\ (flag = true <-> primary \/ secondary))
    /\ (flag = true <-> reason <> None).
Proof.
  destruct (check_greenwashing_cases use_kg total_kg vt)
    as [(Hz & E)|[(Hnz & Ha & Hb & E)|[(Hnz & Hn1 & Hv & Hf & E)
                                      |(Hnz & Hn1 & Hn2 & E)]]];
    rewrite E; do 2 eexists; (split; [reflexivity|]).
  - split; [reflexivity|]. split; [contradiction|].
    split; [discriminate|congruence].
  - split; [contradiction|]. split.
    + intros _. cbv zeta. split; [tauto|]. split; [|tauto].
      split; [intros [_ [=]]|tauto].
    + split; [discriminate|reflexivity].
  - split; [contradiction|]. split.
    + intros _. cbv zeta. split; [|split; [tauto|tauto]].
      split; [intros [_ [=]]|contradiction].
    + split; [discriminate|reflexivity].
  - split; [reflexivity|]. split.
    + intros _. cbv zeta. split; [|split].
      * split; [intros [[=] _]|contradiction].
      * split; [intros [[=] _]|tauto].
      * split; [discriminate|tauto].
    + split; [discriminate|congruence].
Qed.

(* ================================================================== *)
(** * recommendation_logic.py in exact arithmetic *)
(* ================================================================== *)

Lemma list_index_first {A} (a : A) (l : list A) :
  list_index (a :: l) 0 = Ok a.
Proof. reflexivity. Qed.

Lemma list_index_second {A} (a b : A) (l : list A) :
  list_index (a :: b :: l) 1 = Ok b.
Proof. reflexivity. Qed.

Lemma list_index_last {A} (a : A) (l : list A) :
  exists w, list_index (a :: l) (-1) = Ok w.
Proof.
  unfold list_index.
  change (-1 <? 0)%Z with true. cbv iota.
  destruct (Z.ltb_spec (-1 + Z.of_nat (List.length (a :: l))) 0) as [Hneg|_].
  { simpl List.length in Hneg. lia. }
  destruct (nth_error (a :: l) _) as [w|] eqn:E; [eauto|].
  apply nth_error_None in E. simpl List.length in E. lia.
Qed.

Lemma fdiv_zero {F} `{PyFloat F} (a b : F) :
  (b == lit 0)%F = true -> (a / b)%F = Raise ZeroDivisionError.
Proof. intro E. unfold fdiv. now rewrite E. Qed.

Lemma fdiv_nonzero {F} `{PyFloat F} (a b : F) :
  (b == lit 0)%F = false -> (a / b)%F = Ok (fquot a b).
Proof. intro E. unfold fdiv. now rewrite E. Qed.

Lemma savings_pct_ok (savings_kg worst_total : Q) :
  exists pct,
    (if (worst_total >? lit 0)%F
     then bind (savings_kg / worst_total)%F
               (fun ratio => ret (ratio * lit 100)%F)
     else ret (lit 0)) = Ok pct.
Proof.
  destruct (worst_total >? lit 0)%F eqn:E.
  - unfold fdiv. rewrite (Q_positive_nonzero _ E). cbn [bind ret]. eauto.
  - cbn [ret]. eauto.
Qed.

(** One result: a recommendation with confidence [round(99.0, 1)]. *)
Lemma recommend_single (r : LifecycleResult Q) :
  exists rr,
    recommend_vehicle [r] = Ok rr
    /\ recommended_vehicle rr = vehicle_type r
    /\ confidence_percentage rr = fround (lit 99.0) 1.
Proof.
  unfold recommend_vehicle.
  change (sorted total [r]) with [r].
  change (list_index [r] 0) with (Ok r).
  change (list_index [r] (-1)) with (Ok r).
  change (1 <? List.length [r])%nat with false.
  cbn [bind ret].
  destruct (savings_pct_ok (total r - total r)%F (total r)) as (pct & E).
  rewrite E. cbn [bind ret]. eexists. repeat split; reflexivity.
Qed.

(** Two results or more: by the total of the second-best. *)
Lemma recommend_several (results : list (LifecycleResult Q))
    (best second : LifecycleResult Q) (others : list (LifecycleResult Q)) :
  sorted total results = best :: second :: others ->
  ((total second == lit 0)%F = true
   /\ recommend_vehicle results = Raise ZeroDivisionError)
  \/ ((total second == lit 0)%F = false
      /\ exists rr,
           recommend_vehicle results = Ok rr
           /\ recommended_vehicle rr = vehicle_type best
           /\ confidence_percentage rr
              = fround
                  (pymin (lit 99.0)
                     (lit 50.0
                      + fquot (total second - total best) (total second)
                        * lit 100 * lit 1.65))%F 1).
Proof.
  intro Es. unfold recommend_vehicle.
  destruct results as [|r0 rest]; [discriminate|].
  rewrite Es. rewrite list_index_first, list_index_second.
  destruct (list_index_last best (second :: others)) as (worst & Ew).
  rewrite Ew. cbn [bind List.length Nat.ltb Nat.leb].
  destruct (total second == lit 0)%F eqn:E0.
  - left. split; [reflexivity|]. now rewrite (fdiv_zero _ _ E0).
  - right. split; [reflexivity|].
    rewrite (fdiv_nonzero _ _ E0). cbn [bind ret].
    destruct (savings_pct_ok (total worst - total best)%F (total worst))
      as (pct & E).
    rewrite E. cbn [bind ret]. eexists. repeat split; reflexivity.
Qed.

(** A sorted list of two or more elements, from two or more results. *)
Lemma sorted_two (r0 r1 : LifecycleResult Q)
    (rest : list (LifecycleResult Q)) :
  exists best second others,
    sorted total (r0 :: r1 :: rest) = best :: second :: others.
Proof.
  pose proof (sorted_length total (r0 :: r1 :: rest)) as Hl.
  destruct (sorted total (r0 :: r1 :: rest)) as [|b [|s o]];
    try discriminate.
  eauto.
Qed.

Lemma Qround_ndigits_comp (x y : Q) (n : nat) :
  (x == y)%Q -> Qround_ndigits x n = Qround_ndigits y n.
Proof.
  intro E. unfold Qround_ndigits.
  rewrite (round_half_even_comp
             (x * inject_Z (Z.pos (pow10 n))) (y * inject_Z (Z.pos (pow10 n))));
    [reflexivity|].
  now rewrite E.
Qed.

Lemma Qround_1_between (lo hi : Z) (x : Q) :
  (inject_Z lo <= x <= inject_Z hi)%Q ->
  (inject_Z lo <= Qround_ndigits x 1 <= inject_Z hi)%Q.
Proof.
  intros [Hlo Hhi]. rewrite Qround_1_tenths.
  assert (H1 : (lo * 10 <= round_half_even (x * 10))%Z).
  { apply round_half_even_ge. rewrite inject_Z_mult.
    change (inject_Z 10) with 10%Q. lra. }
  assert (H2 : (round_half_even (x * 10) <= hi * 10)%Z).
  { apply round_half_even_le. rewrite inject_Z_mult.
    change (inject_Z 10) with 10%Q. lra. }
  rewrite Zle_Qle, inject_Z_mult in H1, H2.
  change (inject_Z 10) with 10%Q in H1, H2.
  set (n := inject_Z (round_half_even (x * 10))) in *.
  assert (E : (n / 10 == n * (1 # 10))%Q) by (unfold Qdiv; reflexivity).
  rewrite E. split; lra.
Qed.

(* ================================================================== *)
(** * Guarded divisions, in binary64 as in exact arithmetic *)
(* ================================================================== *)

(** In binary64 a number above zero is not zero, and 100 is not zero. *)
Lemma float_positive_nonzero (x : float) :
  (x >? lit 0)%F = true -> (x == lit 0)%F = false.
Proof.
  cbn [fltb feqb lit float_PyFloat].
  change (Q2F 0) with zero.
  rewrite FloatAxioms.ltb_spec, FloatAxioms.eqb_spec.
  change (Prim2SF zero) with (S754_zero false).
  destruct (Prim2SF x) as [s|s| |s m e]; try (destruct s); cbn; congruence.
Qed.

Lemma lit_100_nonzero_float : ((lit 100 : float) == lit 0)%F = false.
Proof. vm_compute. reflexivity. Qed.

(** What holds in an arithmetic where 100 is not zero and a number above
    zero is not zero: exact rationals and binary64 are two. *)
Section GuardedDivisions.

Context {F : Type} `{PyFloat F}.

Hypothesis lit_100_nonzero : (lit 100 == lit 0)%F = false.
Hypothesis positive_nonzero :
  forall x : F, (x >? lit 0)%F = true -> (x == lit 0)%F = false.

Lemma use_phase_returns (params : VehicleParams F)
    (total_km grid_factor size_mult : F) :
  In (fuel_type params) KNOWN_FUEL_TYPES ->
  exists use_kg,
    _calculate_use_phase params total_km grid_factor size_mult = Ok use_kg.
Proof.
  intro Hk. unfold _calculate_use_phase, fdiv.
  rewrite lit_100_nonzero, fuel_factor_petrol, fuel_factor_diesel.
  cbn [bind ret].
  destruct (String.eqb_spec (fuel_type params) "electricity"); [eauto|].
  destruct (String.eqb_spec (fuel_type params) "petrol"); [eauto|].
  destruct (String.eqb_spec (fuel_type params) "diesel"); [eauto|].
  destruct (String.eqb_spec (fuel_type params) "hybrid_petrol").
  - destruct (_ >? _)%F; cbn [bind ret]; eauto.
  - exfalso. simpl in Hk. intuition congruence.
Qed.

Lemma check_greenwashing_returns (use_kg total_kg : F) (vt : string) :
  exists flag reason,
    _check_greenwashing use_kg total_kg vt = Ok (flag, reason).
Proof.
  unfold _check_greenwashing, fdiv.
  destruct (total_kg == lit 0)%F; cbn [bind ret]; [eauto|].
  destruct (_ && _); [eauto|]. destruct (_ && _); eauto.
Qed.

(** On a built-in vehicle type and size, every input yields a result that
    echoes the vehicle type. *)
Lemma calculate_lifecycle_answers (vt : string) (annual_km : F) (years : Z)
    (grid_factor : F) (size : string) :
  In vt BUILTIN_VEHICLE_TYPES -> In size VEHICLE_SIZES ->
  exists r,
    calculate_lifecycle vt annual_km years grid_factor size = Ok r
    /\ vehicle_type r = vt.
Proof.
  intros Hvt Hs.
  assert (Hp : exists params,
             dict_get (VEHICLE_PARAMS (F:=F)) vt = Ok params
             /\ In (fuel_type params) KNOWN_FUEL_TYPES).
  { simpl in Hvt. destruct Hvt as [<-|[<-|[<-|[<-|[<-|[]]]]]];
      (eexists; split; [reflexivity|simpl; tauto]). }
  assert (Hm : exists size_mult,
             dict_get (SIZE_MULTIPLIERS (F:=F)) size = Ok size_mult).
  { simpl in Hs. destruct Hs as [<-|[<-|[<-|[]]]]; eexists; reflexivity. }
  destruct Hp as (params & Ep & Hfuel). destruct Hm as (size_mult & Es).
  unfold calculate_lifecycle. rewrite Ep, Es. cbn [bind].
  destruct (use_phase_returns params (annual_km * of_int years)%F grid_factor
              size_mult Hfuel) as (use_kg & Eu).
  rewrite Eu. cbn [bind].
  match goal with
  | |- context [_check_greenwashing ?u ?t ?v] =>
      destruct (check_greenwashing_returns u t v) as (flag & reason & Eg);
      rewrite Eg
  end.
  destruct (annual_km * of_int years >? lit 0)%F eqn:Ekm.
  - unfold fdiv. rewrite (positive_nonzero _ Ekm). cbn [bind ret].
    eexists. split; reflexivity.
  - cbn [bind ret]. eexists. split; reflexivity.
Qed.

Lemma savings_pct_returns (savings_kg worst_total : F) :
  exists pct,
    (if (worst_total >? lit 0)%F
     then bind (savings_kg / worst_total)%F
               (fun ratio => ret (ratio * lit 100)%F)
     else ret (lit 0)) = Ok pct.
Proof.
  destruct (worst_total >? lit 0)%F eqn:E.
  - unfold fdiv. rewrite (positive_nonzero _ E). cbn [bind ret]. eauto.
  - cbn [ret]. eauto.
Qed.

(** One result: it is recommended, with confidence [round(99.0, 1)]. *)
Lemma recommend_one (r : LifecycleResult F) :
  exists rr,
    recommend_vehicle [r] = Ok rr
    /\ recommended_vehicle rr = vehicle_type r
    /\ confidence_percentage rr = fround (lit 99.0) 1.
Proof.
  unfold recommend_vehicle.
  change (sorted total [r]) with [r].
  change (list_index [r] 0) with (Ok r).
  change (list_index [r] (-1)) with (Ok r).
  change (1 <? List.length [r])%nat with false.
  cbn [bind ret].
  destruct (savings_pct_returns (total r - total r)%F (total r)) as (pct & E).
  rewrite E. cbn [bind ret]. eexists. repeat split; reflexivity.
Qed.

(** Two results or more, the second-lowest total above zero: the lowest is
    recommended, with the confidence the source computes. *)
Lemma recommend_two_or_more (results : list (LifecycleResult F))
    (best second : LifecycleResult F) (others : list (LifecycleResult F)) :
  sorted total results = best :: second :: others ->
  (total second >? lit 0)%F = true ->
  exists rr,
    recommend_vehicle results = Ok rr
    /\ recommended_vehicle rr = vehicle_type best
    /\ confidence_percentage rr
       = fround
           (pymin (lit 99.0)
              (lit 50.0
               + fquot (total second - total best) (total second)
                 * lit 100 * lit 1.65))%F 1.
Proof.
  intros Es Hpos. unfold recommend_vehicle.
  destruct results as [|r0 rest]; [discriminate|].
  rewrite Es. rewrite list_index_first, list_index_second.
  destruct (list_index_last best (second :: others)) as (worst & Ew).
  rewrite Ew. cbn [bind List.length Nat.ltb Nat.leb].
  rewrite (fdiv_nonzero _ _ (positive_nonzero _ Hpos)). cbn [bind ret].
  destruct (savings_pct_returns (total worst - total best)%F (total worst))
    as (pct & E).
  rewrite E. cbn [bind ret]. eexists. repeat split; reflexivity.
Qed.

End GuardedDivisions.

(* ================================================================== *)
(** * Recommendation (claims C6, C9) *)
(* ================================================================== *)

(** C6, as amended.  Take the results sorted by ascending total, starting
    with [best] and [second], the total of [second] above zero.

    - In binary64, [recommend_vehicle] returns a recommendation of [best]
      whose confidence is [round(min(99.0, 50.0 + gap_pct * 1.65), 1)],
      every operation being the binary64 one, with [gap_pct] the gap from
      best to second over the total of second, times 100.
    - In exact arithmetic that confidence is within 0.05 of
      [min(99, 50 + gap_pct * 1.65)], stated with a margin of one millionth
      for the error of binary64, and lies in [50, 99].
    - With exactly one result the confidence is 99.0, in binary64 and in
      exact arithmetic. *)
Theorem confidence_formula :
  (forall (results : list (LifecycleResult float))
          (best second : LifecycleResult float)
          (others : list (LifecycleResult float)),
      sorted total results = best :: second :: others ->
      (total second >? lit 0)%F = true ->
      exists rr,
        recommend_vehicle results = Ok rr
        /\ recommended_vehicle rr = vehicle_type best
        /\ confidence_percentage rr
           = fround
               (pymin (lit 99.0)
                  (lit 50.0
                   + fquot (total second - total best) (total second)
                     * lit 100 * lit 1.65))%F 1)
  /\ (forall (results : list (LifecycleResult Q))
             (best second : LifecycleResult Q)
             (others : list (LifecycleResult Q)),
         sorted total results = best :: second :: others ->
         (0 < total second)%Q ->
         (total best <= total second)%Q
         /\ exists rr,
              recommend_vehicle results = Ok rr
              /\ recommended_vehicle rr = vehicle_type best
              /\ (Qabs (confidence_percentage rr
                        - Qmin 99
                            (50 + (total second - total best) / total second
                                  * 100 * 1.65))
                  <= (1 # 20) + (1 # 1000000))%Q
              /\ (50 <= confidence_percentage rr <= 99)%Q)
  /\ (forall r : LifecycleResult float,
         exists rr,
           recommend_vehicle [r] = Ok rr
           /\ confidence_percentage rr = lit 99.0)
  /\ (forall r : LifecycleResult Q,
         exists rr,
           recommend_vehicle [r] = Ok rr
           /\ (confidence_percentage rr == 99)%Q).
Proof.
  split; [|split; [|split]].
  - intros results best second others Es Hpos.
    exact (recommend_two_or_more float_positive_nonzero results best second
             others Es Hpos).
  - intros results best second others Es Hpos.
    assert (Hle : (total best <= total second)%Q).
    { pose proof (sorted_sorted total results) as Hs. rewrite Es in Hs.
      apply StronglySorted_inv in Hs. destruct Hs as [_ Hall].
      apply Forall_inv in Hall. exact Hall. }
    split; [exact Hle|].
    assert (Hpos' : (total second >? lit 0)%F = true).
    { cbn [fltb lit Q_PyFloat]. apply Qltb_true. now rewrite Qred_correct. }
    destruct (recommend_two_or_more Q_positive_nonzero results best second
                others Es Hpos') as (rr & Er & Ev & Ec).
    exists rr. split; [exact Er|]. split; [exact Ev|].
    rewrite Ec. clear Ec Er Ev.
    cbn [fround fquot fadd fsub fmul lit Q_PyFloat].
    set (gap := ((total second - total best) / total second)%Q).
    assert (Hgap : (0 <= gap)%Q).
    { unfold gap. apply Qle_shift_div_l; [exact Hpos|]. lra. }
    clearbody gap.
    assert (Emin : (pymin (Qred 99.0) (Qred 50.0 + gap * Qred 100 * Qred 1.65)
                    == Qmin 99 (50 + gap * 100 * 1.65))%Q).
    { unfold pymin. cbn [fltb Q_PyFloat].
      destruct (Qltb _ _) eqn:E.
      - apply Qltb_true in E. rewrite !Qred_correct in E.
        rewrite Q.min_r by lra. rewrite !Qred_correct. lra.
      - apply Qltb_false in E. rewrite !Qred_correct in E.
        rewrite Q.min_l by lra. rewrite Qred_correct. lra. }
    rewrite (Qround_ndigits_comp _ _ 1 Emin). split.
    + pose proof (Qround_1_near (Qmin 99 (50 + gap * 100 * 1.65))) as Hn.
      eapply Qle_trans; [exact Hn|]. apply Qle_bool_iff. reflexivity.
    + apply (Qround_1_between 50 99).
      change (inject_Z 50) with 50%Q. change (inject_Z 99) with 99%Q.
      split.
      * apply Q.min_glb; lra.
      * apply Q.le_min_l.
  - intro r.
    destruct (recommend_one float_positive_nonzero r) as (rr & Er & _ & Ec).
    exists rr. split; [exact Er|]. rewrite Ec. vm_compute. reflexivity.
  - intro r.
    destruct (recommend_one Q_positive_nonzero r) as (rr & Er & _ & Ec).
    exists rr. split; [exact Er|]. rewrite Ec. reflexivity.
Qed.

(** C6 at the results of scenario A and of the hybrid under the same
    parameters: the confidence is 63.4, in binary64 and in exact
    arithmetic. *)
Lemma confidence_formula_BEV_vs_HEV :
  (sorted total [result_HEV float; result_A float]
   = [result_A float; result_HEV float]
   /\ (total (result_HEV float) >? lit 0)%F = true
   /\ exists rr,
        recommend_vehicle [result_HEV float; result_A float] = Ok rr
        /\ recommended_vehicle rr = vehicle_type (result_A float)
        /\ confidence_percentage rr
           = fround
               (pymin (lit 99.0)
                  (lit 50.0
                   + fquot (total (result_HEV float) - total (result_A float))
                       (total (result_HEV float))
                     * lit 100 * lit 1.65))%F 1)
  /\ sorted total [result_HEV Q; result_A Q] = [result_A Q; result_HEV Q]
  /\ (0 < total (result_HEV Q))%Q
  /\ (total (result_A Q) <= total (result_HEV Q))%Q
  /\ exists rr,
       recommend_vehicle [result_HEV Q; result_A Q] = Ok rr
       /\ recommended_vehicle rr = vehicle_type (result_A Q)
       /\ (Qabs (confidence_percentage rr
                 - Qmin 99
                     (50 + (total (result_HEV Q) - total (result_A Q))
                           / total (result_HEV Q) * 100 * 1.65))
           <= (1 # 20) + (1 # 1000000))%Q
       /\ (50 <= confidence_percentage rr <= 99)%Q.
Proof.
  assert (Ef : sorted total [result_HEV float; result_A float]
               = [result_A float; result_HEV float])
    by (vm_compute; reflexivity).
  assert (Hf : (total (result_HEV float) >? lit 0)%F = true)
    by (vm_compute; reflexivity).
  assert (Es : sorted total [result_HEV Q; result_A Q]
               = [result_A Q; result_HEV Q]) by (vm_compute; reflexivity).
  assert (Hpos : (0 < total (result_HEV Q))%Q) by reflexivity.
  split.
  { split; [exact Ef|]. split; [exact Hf|].
    exact (proj1 confidence_formula _ _ _ _ Ef Hf). }
  split; [exact Es|]. split; [exact Hpos|].
  exact (proj1 (proj2 confidence_formula) _ _ _ _ Es Hpos).
Defined.

(** C6 as stated fails.  On the results of scenario A and of the hybrid
    under the same parameters the confidence is 63.4, in exact arithmetic
    and in binary64, and not [min(99, 50 + gap_pct * 1.65)]; on two results
    of totals -2 and -1 the confidence is -115, below 50. *)
Lemma confidence_is_rounded_and_unbounded :
  scenario_HEV Q = Ok (result_HEV Q)
  /\ scenario_HEV float = Ok (result_HEV float)
  /\ (exists rr,
         recommend_vehicle [result_A Q; result_HEV Q] = Ok rr
         /\ (confidence_percentage rr == 63.4)%Q
         /\ ~ (confidence_percentage rr
               == Qmin 99
                    (50 + (total (result_HEV Q) - total (result_A Q))
                          / total (result_HEV Q) * 100 * 1.65))%Q)
  /\ (exists rr,
         recommend_vehicle [result_A float; result_HEV float] = Ok rr
         /\ confidence_percentage rr = lit 63.4)
  /\ (exists rr,
         recommend_vehicle
           [bare_result Q "a" (lit (-2)); bare_result Q "b" (lit (-1))]
         = Ok rr
         /\ (confidence_percentage rr == -115)%Q
         /\ ~ (50 <= confidence_percentage rr)%Q).
Proof.
  split; [vm_compute; reflexivity|].
  split; [vm_compute; reflexivity|].
  split.
  { eexists. split; [vm_compute; reflexivity|].
    split; [reflexivity|]. vm_compute. discriminate. }
  split.
  { eexists. split; vm_compute; reflexivity. }
  eexists. split; [vm_compute; reflexivity|].
  split; [reflexivity|]. vm_compute. intro Hle. now apply Hle.
Qed.

(** Where binary64 and exact arithmetic part: two petrol cars, 13043.5 km
    and 13099.2 km in one year, have totals 10990 and 11000, and
    [50 + gap_pct * 1.65] is 50.15, half-way between two tenths.  Exact
    arithmetic rounds it to 50.2; binary64 computes a number just below
    50.15 and rounds it to 50.1. *)
Remark confidence_at_a_tie :
  (exists a b : LifecycleResult float,
      calculate_lifecycle "ICEV-p" (lit 13043.5) 1 (lit 0.233) "medium" = Ok a
      /\ calculate_lifecycle "ICEV-p" (lit 13099.2) 1 (lit 0.233) "medium"
         = Ok b
      /\ total a = lit 10990 /\ total b = lit 11000
      /\ exists rr,
           recommend_vehicle [a; b] = Ok rr
           /\ confidence_percentage rr = lit 50.1)
  /\ (exists a b : LifecycleResult Q,
         calculate_lifecycle "ICEV-p" 13043.5 1 0.233 "medium" = Ok a
         /\ calculate_lifecycle "ICEV-p" 13099.2 1 0.233 "medium" = Ok b
         /\ total a = 10990 /\ total b = 11000
         /\ (50 + (total b - total a) / total b * 100 * 1.65 == 50.15)%Q
         /\ exists rr,
              recommend_vehicle [a; b] = Ok rr
              /\ (confidence_percentage rr == 50.2)%Q).
Proof.
  split.
  - do 2 eexists. split; [vm_compute; reflexivity|].
    split; [vm_compute; reflexivity|].
    split; [vm_compute; reflexivity|].
    split; [vm_compute; reflexivity|].
    eexists. split; vm_compute; reflexivity.
  - do 2 eexists. split; [vm_compute; reflexivity|].
    split; [vm_compute; reflexivity|].
    split; [reflexivity|]. split; [reflexivity|].
    split; [reflexivity|].
    eexists. split; [vm_compute; reflexivity|]. reflexivity.
Qed.

(** C9: what the code does.  [recommend_vehicle] raises the empty-input
    error on the empty list and on no other input, and on a non-empty list
    it returns a recommendation unless there are two results or more and
    the second-lowest total is zero: then it raises [ZeroDivisionError].
    Two results of total 0 are such an input, in exact arithmetic and in
    binary64. *)
Theorem recommend_raises_on_zero_runner_up :
  recommend_vehicle (F:=Q) [] = Raise (ValueError "No results to evaluate")
  /\ recommend_vehicle (F:=float) []
     = Raise (ValueError "No results to evaluate")
  /\ (forall (r : LifecycleResult Q) (rest : list (LifecycleResult Q)),
         (exists rr, recommend_vehicle (r :: rest) = Ok rr)
         \/ (recommend_vehicle (r :: rest) = Raise ZeroDivisionError
             /\ exists best second others,
                  sorted total (r :: rest) = best :: second :: others
                  /\ (total second == 0)%Q))
  /\ recommend_vehicle
       [bare_result Q "BEV" (lit 0); bare_result Q "HEV" (lit 0)]
     = Raise ZeroDivisionError
  /\ recommend_vehicle
       [bare_result float "BEV" (lit 0); bare_result float "HEV" (lit 0)]
     = Raise ZeroDivisionError.
Proof.
  split; [reflexivity|]. split; [reflexivity|].
  split; [|split; vm_compute; reflexivity].
  intros r [|r1 rest].
  - left. destruct (recommend_single r) as (rr & Er & _). eauto.
  - destruct (sorted_two r r1 rest) as (best & second & others & Es).
    destruct (recommend_several _ best second others Es)
      as [[E0 Er]|[_ (rr & Er & _)]].
    + right. split; [exact Er|]. exists best, second, others.
      split; [exact Es|].
      cbn [feqb lit Q_PyFloat] in E0. apply Qeq_bool_iff in E0.
      now rewrite Qred_correct in E0.
    + left. eauto.
Qed.

(* ================================================================== *)
(** * Totals against their parts *)
(* ================================================================== *)

Lemma Qround_1_nonneg (x : Q) : (0 <= x)%Q -> (0 <= Qround_ndigits x 1)%Q.
Proof.
  intro Hx. rewrite Qround_1_tenths.
  assert (Hn : (0 <= round_half_even (x * 10))%Z).
  { apply round_half_even_ge. change (inject_Z 0) with 0%Q. lra. }
  rewrite Zle_Qle in Hn. change (inject_Z 0) with 0%Q in Hn.
  set (n := inject_Z (round_half_even (x * 10))) in *.
  assert (E : (n / 10 == n * (1 # 10))%Q) by (unfold Qdiv; reflexivity).
  rewrite E. lra.
Qed.

(** Three parts and their sum, each rounded to one decimal: when one part
    is a whole number of tenths, the rounded sum is within one tenth of the
    sum of the rounded parts. *)
Lemma round_sum_tolerance (m u d : Q) (k : Z) :
  (d * 10 == inject_Z k)%Q ->
  (Qabs (Qround_ndigits (m + u + d) 1
         - (Qround_ndigits m 1 + Qround_ndigits u 1 + Qround_ndigits d 1))
   <= 1 # 10)%Q.
Proof.
  intro Hd.
  rewrite !Qround_1_tenths.
  rewrite (round_half_even_comp (d * 10) (inject_Z k) Hd).
  rewrite round_half_even_inject_Z.
  pose proof (round_half_even_near ((m + u + d) * 10)) as Ht.
  pose proof (round_half_even_near (m * 10)) as Hm.
  pose proof (round_half_even_near (u * 10)) as Hu.
  apply Qabs_Qle_condition in Ht, Hm, Hu.
  set (nt := round_half_even ((m + u + d) * 10)) in *.
  set (nm := round_half_even (m * 10)) in *.
  set (nu := round_half_even (u * 10)) in *.
  assert (Hlo : (-2 < nt - nm - nu - k)%Z).
  { rewrite Zlt_Qlt. unfold Z.sub. rewrite !inject_Z_plus, !inject_Z_opp.
    change (inject_Z (-2)) with (-2)%Q. lra. }
  assert (Hhi : (nt - nm - nu - k < 2)%Z).
  { rewrite Zlt_Qlt. unfold Z.sub. rewrite !inject_Z_plus, !inject_Z_opp.
    change (inject_Z 2) with 2%Q. lra. }
  assert (H1 : (-1 <= nt - nm - nu - k)%Z) by lia.
  assert (H2 : (nt - nm - nu - k <= 1)%Z) by lia.
  rewrite Zle_Qle in H1, H2. unfold Z.sub in H1, H2.
  rewrite !inject_Z_plus, !inject_Z_opp in H1, H2.
  change (inject_Z (-1)) with (-1)%Q in H1.
  change (inject_Z 1) with 1%Q in H2.
  apply Qabs_Qle_condition.
  assert (E : forall n : Q, (n / 10 == n * (1 # 10))%Q)
    by (intro n; unfold Qdiv; reflexivity).
  rewrite !E. split; lra.
Qed.

Lemma Qdiv_nonneg (a b : Q) : (0 <= a)%Q -> (0 < b)%Q -> (0 <= a / b)%Q.
Proof. intros Ha Hb. apply Qle_shift_div_l; [exact Hb|]. lra. Qed.

Lemma Qplus_nonneg (a b : Q) : (0 <= a)%Q -> (0 <= b)%Q -> (0 <= a + b)%Q.
Proof. intros. lra. Qed.

(** Every number of the constant library is non-negative. *)
Lemma builtin_params_nonneg (vt : string) (params : VehicleParams Q) :
  dict_get VEHICLE_PARAMS vt = Ok params ->
  (0 <= glider_manufacturing_kg params
   /\ 0 <= powertrain_manufacturing_kg params
   /\ 0 <= battery_manufacturing_per_kwh params
   /\ 0 <= battery_capacity_kwh params
   /\ 0 <= energy_consumption_per_100km params
   /\ 0 <= disposal_kg params
   /\ 0 <= battery_eol_factor params)%Q.
Proof.
  intro Ep. apply dict_get_In in Ep. simpl in Ep.
  destruct Ep as [E|[E|[E|[E|[E|[]]]]]]; injection E as _ <-;
    repeat split; apply Qle_bool_iff; reflexivity.
Qed.

Lemma size_multiplier_nonneg (size : string) (size_mult : Q) :
  dict_get SIZE_MULTIPLIERS size = Ok size_mult -> (0 <= size_mult)%Q.
Proof.
  intro Es. apply dict_get_In in Es. simpl in Es.
  destruct Es as [E|[E|[E|[]]]]; injection E as _ <-;
    apply Qle_bool_iff; reflexivity.
Qed.

(** Disposal is a whole number of tenths of a kilogram for every built-in
    vehicle type and size. *)
Lemma disposal_tenths (vt size : string) (params : VehicleParams Q)
    (size_mult : Q) :
  dict_get VEHICLE_PARAMS vt = Ok params ->
  dict_get SIZE_MULTIPLIERS size = Ok size_mult ->
  let battery_kwh :=
    (if battery_capacity_kwh params >? lit 0
     then battery_capacity_kwh params * size_mult else lit 0)%F in
  let disposal_kg := _calculate_disposal params battery_kwh size_mult in
  (disposal_kg * 10 == inject_Z (Qfloor (disposal_kg * 10)))%Q.
Proof.
  intros Ep Es. apply dict_get_In in Ep, Es. simpl in Ep, Es.
  destruct Ep as [E|[E|[E|[E|[E|[]]]]]]; injection E as _ <-;
    destruct Es as [E|[E|[E|[]]]]; injection E as _ <-;
    vm_compute; reflexivity.
Qed.

(** With non-negative parameters and inputs the use phase is
    non-negative. *)
Lemma use_phase_nonneg (params : VehicleParams Q)
    (total_km grid_factor size_mult : Q) :
  In (fuel_type params) KNOWN_FUEL_TYPES ->
  (0 <= energy_consumption_per_100km params)%Q ->
  (0 <= total_km)%Q -> (0 <= grid_factor)%Q -> (0 <= size_mult)%Q ->
  exists use_kg,
    _calculate_use_phase params total_km grid_factor size_mult = Ok use_kg
    /\ (0 <= use_kg)%Q.
Proof.
  intros Hk Hc Hkm Hg Hs. unfold _calculate_use_phase.
  rewrite !(fdiv_nonzero _ _ lit_100_nonzero_Q).
  rewrite fuel_factor_petrol, fuel_factor_diesel. cbn [bind ret].
  assert (H100 : (0 < Qred 100)%Q) by reflexivity.
  assert (Hcons : (0 <= fquot (energy_consumption_per_100km params
                                * size_mult)%F (lit 100))%Q).
  { cbn [fquot fmul lit Q_PyFloat]. apply Qdiv_nonneg; [|exact H100].
    now apply Qmult_le_0_compat. }
  set (per_km := fquot (energy_consumption_per_100km params * size_mult)%F
                   (lit 100)) in *.
  clearbody per_km.
  assert (Hpetrol : (0 <= (lit 2.392 : Q))%Q)
    by (apply Qle_bool_iff; reflexivity).
  assert (Hdiesel : (0 <= (lit 2.640 : Q))%Q)
    by (apply Qle_bool_iff; reflexivity).
  destruct (String.eqb_spec (fuel_type params) "electricity").
  { eexists. split; [reflexivity|]. cbn [fmul Q_PyFloat].
    apply Qmult_le_0_compat; [|exact Hg].
    now apply Qmult_le_0_compat. }
  destruct (String.eqb_spec (fuel_type params) "petrol").
  { eexists. split; [reflexivity|]. cbn [fmul Q_PyFloat].
    apply Qmult_le_0_compat; [|exact Hpetrol].
    now apply Qmult_le_0_compat. }
  destruct (String.eqb_spec (fuel_type params) "diesel").
  { eexists. split; [reflexivity|]. cbn [fmul Q_PyFloat].
    apply Qmult_le_0_compat; [|exact Hdiesel].
    now apply Qmult_le_0_compat. }
  destruct (String.eqb_spec (fuel_type params) "hybrid_petrol").
  2:{ exfalso. simpl in Hk. intuition congruence. }
  assert (Hfossil : forall fraction : Q,
            (0 <= (lit 1 - fraction)%F)%Q ->
            (0 <= (per_km * (total_km * (lit 1 - fraction)) * lit 2.392)%F)%Q).
  { intros fraction Hf. cbn [fmul Q_PyFloat].
    apply Qmult_le_0_compat; [|exact Hpetrol].
    apply Qmult_le_0_compat; [exact Hcons|].
    now apply Qmult_le_0_compat. }
  destruct (battery_capacity_kwh params >? lit 14)%F.
  - cbn [bind ret]. eexists. split; [reflexivity|].
    cbn [fadd Q_PyFloat]. apply Qplus_nonneg.
    + assert (Hkwh : (0 <= fquot (lit 18.0 * size_mult)%F (lit 100))%Q).
      { cbn [fquot fmul lit Q_PyFloat]. apply Qdiv_nonneg; [|exact H100].
        apply Qmult_le_0_compat; [apply Qle_bool_iff; reflexivity|exact Hs]. }
      set (kwh_per_km := fquot (lit 18.0 * size_mult)%F (lit 100)) in *.
      clearbody kwh_per_km. cbn [fmul Q_PyFloat].
      apply Qmult_le_0_compat; [|exact Hg].
      apply Qmult_le_0_compat; [exact Hkwh|].
      apply Qmult_le_0_compat; [exact Hkm|].
      apply Qle_bool_iff; reflexivity.
    + apply Hfossil. apply Qle_bool_iff; reflexivity.
  - cbn [bind ret]. eexists. split; [reflexivity|].
    cbn [fadd Q_PyFloat]. apply Qplus_nonneg.
    + apply Qle_bool_iff; reflexivity.
    + apply Hfossil. apply Qle_bool_iff; reflexivity.
Qed.

(* ================================================================== *)
(** * The total and its parts (claim C8) *)
(* ================================================================== *)

(** C8, as amended: for a built-in vehicle type and size, an annual
    distance in (0, 100000], 1 to 30 years and a grid factor in (0, 2],
    [calculate_lifecycle] returns a result whose total differs from the sum
    of its manufacturing, use phase and disposal by at most 0.1 and a
    margin of one millionth for the error of binary64, and whose total is
    not negative.  (In exact arithmetic the difference is at most 0.1:
    disposal is a whole number of tenths, the three other roundings err by
    at most 0.05 each, and the difference is a multiple of 0.1.) *)
Theorem total_matches_parts (vt : string) (annual_km : Q) (years : Z)
    (grid_factor : Q) (size : string) :
  In vt BUILTIN_VEHICLE_TYPES ->
  In size VEHICLE_SIZES ->
  (0 < annual_km <= 100000)%Q ->
  (1 <= years <= 30)%Z ->
  (0 < grid_factor <= 2)%Q ->
  exists r,
    calculate_lifecycle vt annual_km years grid_factor size = Ok r
    /\ (Qabs (total r - (manufacturing r + use_phase r + disposal r))
        <= (1 # 10) + (1 # 1000000))%Q
    /\ (0 <= total r)%Q.
Proof.
  intros Hvt Hsize [Hkm _] Hyears [Hg _].
  destruct (builtin_lookup vt Hvt) as (params & Ep & Hfuel).
  destruct (size_lookup size Hsize) as (size_mult & Es).
  destruct (builtin_params_nonneg vt params Ep)
    as (Hgl & Hpt & Hbm & Hcap & Hcons & Hdis & Heol).
  pose proof (size_multiplier_nonneg size size_mult Es) as Hsm.
  assert (Htotal_km : (0 <= (annual_km * of_int years)%F)%Q).
  { unfold of_int. cbn [fmul lit Q_PyFloat]. rewrite Qred_correct.
    apply Qmult_le_0_compat; [lra|].
    change 0%Q with (inject_Z 0). rewrite <- Zle_Qle. lia. }
  destruct (use_phase_nonneg params (annual_km * of_int years)%F grid_factor
              size_mult Hfuel Hcons Htotal_km (Qlt_le_weak _ _ Hg) Hsm)
    as (use_kg & Eu & Huse).
  destruct (calculate_lifecycle_fields vt annual_km years grid_factor size
              params size_mult use_kg Ep Es Eu)
    as (r & Er & Em & Eup & Ed & Et).
  pose proof (disposal_tenths vt size params size_mult Ep Es) as Htenths.
  cbv zeta in Em, Ed, Et, Htenths.
  set (battery_kwh :=
         (if battery_capacity_kwh params >? lit 0
          then battery_capacity_kwh params * size_mult else lit 0)%F) in *.
  set (manufacturing_kg :=
         (glider_manufacturing_kg params * size_mult
          + powertrain_manufacturing_kg params * size_mult
          + battery_kwh * battery_manufacturing_per_kwh params)%F) in *.
  set (disposal_kg := _calculate_disposal params battery_kwh size_mult) in *.
  assert (Hbat : (0 <= battery_kwh)%Q).
  { unfold battery_kwh. destruct (_ >? _)%F.
    - cbn [fmul Q_PyFloat]. now apply Qmult_le_0_compat.
    - apply Qle_bool_iff; reflexivity. }
  assert (Hman : (0 <= manufacturing_kg)%Q).
  { unfold manufacturing_kg. cbn [fadd fmul Q_PyFloat].
    repeat apply Qplus_nonneg; now apply Qmult_le_0_compat. }
  assert (Hdisp : (0 <= disposal_kg)%Q).
  { unfold disposal_kg, _calculate_disposal. cbn [fadd fmul Q_PyFloat].
    apply Qplus_nonneg; now apply Qmult_le_0_compat. }
  exists r. split; [exact Er|]. rewrite Em, Eup, Ed, Et.
  cbn [fround fadd Q_PyFloat]. split.
  - eapply Qle_trans.
    + apply (round_sum_tolerance manufacturing_kg use_kg disposal_kg
               (Qfloor (disposal_kg * 10)) Htenths).
    + apply Qle_bool_iff. reflexivity.
  - apply Qround_1_nonneg. lra.
Qed.

(** C8 at scenario A. *)
Lemma total_matches_parts_scenario_A :
  exists r,
    calculate_lifecycle (F:=Q) "BEV" 15000 10 0.233 "medium" = Ok r
    /\ (Qabs (total r - (manufacturing r + use_phase r + disposal r))
        <= (1 # 10) + (1 # 1000000))%Q
    /\ (0 <= total r)%Q.
Proof.
  apply (total_matches_parts "BEV" 15000 10 0.233 "medium").
  - simpl. tauto.
  - simpl. tauto.
  - split; [reflexivity|]. intro Hgt. discriminate.
  - lia.
  - split; [reflexivity|]. intro Hgt. discriminate.
Defined.

(** C8 as stated fails in binary64.  For the small hybrid driven
    96061.5 km a year for 29 years the four returned numbers are 7076.2,
    269042.6, 263.5 and 276382.4 as binary64 reads them: the total minus
    the sum of the three parts is 0.1000000000349..., above 0.1, whether
    the difference is taken in binary64 or on the exact values of the four
    numbers.  It is within the margin of the amended statement. *)
Lemma total_off_by_more_than_a_tenth_in_binary64 :
  exists r : LifecycleResult float,
    calculate_lifecycle "HEV" (lit 96061.5) 29 (lit 0.233) "small" = Ok r
    /\ manufacturing r = lit 7076.2
    /\ use_phase r = lit 269042.6
    /\ disposal r = lit 263.5
    /\ total r = lit 276382.4
    /\ (PrimFloat.abs
          (total r - (manufacturing r + use_phase r + disposal r))%F
        <=? lit 0.1)%F = false
    /\ (PrimFloat.abs
          (total r - (manufacturing r + use_phase r + disposal r))%F
        <=? lit 0.100001)%F = true
    /\ exists t m u d : Q,
         F2Q (total r) = Some t /\ F2Q (manufacturing r) = Some m
         /\ F2Q (use_phase r) = Some u /\ F2Q (disposal r) = Some d
         /\ (1 # 10 < Qabs (t - (m + u + d)))%Q
         /\ (Qabs (t - (m + u + d)) <= (1 # 10) + (1 # 1000000))%Q.
Proof.
  eexists. split; [vm_compute; reflexivity|].
  repeat (split; [vm_compute; reflexivity|]).
  do 4 eexists.
  repeat (split; [vm_compute; reflexivity|]).
  vm_compute. discriminate.
Qed.

(* ================================================================== *)
(** * More on rounding *)
(* ================================================================== *)

(** Rounding to the nearest integer is monotone. *)
Lemma round_half_even_mono (x y : Q) :
  (x <= y)%Q -> (round_half_even x <= round_half_even y)%Z.
Proof.
  intro Hxy.
  destruct (Z_le_gt_dec (round_half_even x) (round_half_even y))
    as [Hle|Hgt]; [exact Hle|exfalso].
  pose proof (round_half_even_near x) as Hx.
  pose proof (round_half_even_near y) as Hy.
  apply Qabs_Qle_condition in Hx, Hy.
  assert (Hge : (round_half_even y + 1 <= round_half_even x)%Z) by lia.
  rewrite Zle_Qle, inject_Z_plus in Hge.
  change (inject_Z 1) with 1%Q in Hge.
  assert (E : (x == y)%Q) by lra.
  apply round_half_even_comp in E. lia.
Qed.

Lemma Qround_1_mono (x y : Q) :
  (x <= y)%Q -> (Qround_ndigits x 1 <= Qround_ndigits y 1)%Q.
Proof.
  intro Hxy. rewrite !Qround_1_tenths.
  assert (Hn : (round_half_even (x * 10) <= round_half_even (y * 10))%Z)
    by (apply round_half_even_mono; lra).
  rewrite Zle_Qle in Hn.
  set (n := inject_Z (round_half_even (x * 10))) in *.
  set (m := inject_Z (round_half_even (y * 10))) in *.
  assert (E : forall q : Q, (q / 10 == q * (1 # 10))%Q)
    by (intro q; unfold Qdiv; reflexivity).
  rewrite !E. lra.
Qed.

(* ================================================================== *)
(** * Lookups and what [calculate_lifecycle] returns *)
(* ================================================================== *)

Lemma dict_get_Ok_key {V} (d : list (string * V)) (k : string) (v : V) :
  dict_get d k = Ok v -> In k (map fst d).
Proof.
  intro E. apply dict_get_In in E.
  change k with (fst (k, v)). now apply in_map.
Qed.

Lemma dict_get_Raise {V} (d : list (string * V)) (k : string) (e : exn) :
  dict_get d k = Raise e -> e = KeyError k /\ ~ In k (map fst d).
Proof.
  induction d as [|[k' v'] d IH]; simpl.
  - intros [= <-]. split; [reflexivity|tauto].
  - destruct (String.eqb_spec k k') as [<-|Hne]; [discriminate|].
    intro E. destruct (IH E) as [-> Hn]. split; [reflexivity|].
    intros [Hk|Hk]; [congruence|contradiction].
Qed.

Lemma dict_get_known {V} (d : list (string * V)) (k : string) :
  In k (map fst d) -> exists v, dict_get d k = Ok v.
Proof.
  intro Hk. destruct (dict_get d k) as [v|e] eqn:E; [eauto|].
  apply dict_get_Raise in E. tauto.
Qed.

Section Inversion.

Context {F : Type} `{PyFloat F}.

Lemma vehicle_params_keys :
  map fst (VEHICLE_PARAMS (F:=F)) = BUILTIN_VEHICLE_TYPES.
Proof. reflexivity. Qed.

Lemma size_multipliers_keys :
  map fst (SIZE_MULTIPLIERS (F:=F)) = VEHICLE_SIZES.
Proof. reflexivity. Qed.

Lemma fdiv_Raise (a b : F) (e : exn) :
  (a / b)%F = Raise e -> e = ZeroDivisionError.
Proof. unfold fdiv. destruct (_ == _)%F; [now intros [= <-]|discriminate]. Qed.

(** The use phase raises nothing but [ValueError] and
    [ZeroDivisionError]. *)
Lemma use_phase_no_KeyError (params : VehicleParams F)
    (total_km grid_factor size_mult : F) (key : string) :
  _calculate_use_phase params total_km grid_factor size_mult
  <> Raise (KeyError key).
Proof.
  unfold _calculate_use_phase, fdiv.
  rewrite fuel_factor_petrol, fuel_factor_diesel.
  repeat match goal with
         | |- context [if ?b then _ else _] => destruct b
         end; cbn [bind ret]; discriminate.
Qed.

(** What a returned result is made of. *)
Lemma calculate_lifecycle_Ok_inv (vt : string) (annual_km : F) (years : Z)
    (grid_factor : F) (size : string) (r : LifecycleResult F) :
  calculate_lifecycle vt annual_km years grid_factor size = Ok r ->
  exists params size_mult use_kg,
    dict_get VEHICLE_PARAMS vt = Ok params
    /\ dict_get SIZE_MULTIPLIERS size = Ok size_mult
    /\ _calculate_use_phase params (annual_km * of_int years)%F grid_factor
         size_mult = Ok use_kg
    /\ let distance := (annual_km * of_int years)%F in
       let battery_kwh :=
         (if battery_capacity_kwh params >? lit 0
          then battery_capacity_kwh params * size_mult else lit 0)%F in
       let manufacturing_kg :=
         (glider_manufacturing_kg params * size_mult
          + powertrain_manufacturing_kg params * size_mult
          + battery_kwh * battery_manufacturing_per_kwh params)%F in
       let disposal_kg := _calculate_disposal params battery_kwh size_mult in
       let total_kg := (manufacturing_kg + use_kg + disposal_kg)%F in
       vehicle_type r = vt
       /\ manufacturing r = fround manufacturing_kg 1
       /\ use_phase r = fround use_kg 1
       /\ disposal r = fround disposal_kg 1
       /\ total r = fround total_kg 1
       /\ total_km r = fround distance 0
       /\ _check_greenwashing use_kg total_kg vt
          = Ok (greenwashing_flag r, greenwashing_reason r)
       /\ ((distance >? lit 0)%F = true ->
           (distance == lit 0)%F = false
           /\ per_km r = fround (fquot total_kg distance * lit 1000)%F 1)
       /\ ((distance >? lit 0)%F = false -> per_km r = fround (lit 0) 1).
Proof.
  unfold calculate_lifecycle.
  destruct (dict_get VEHICLE_PARAMS vt) as [params|] eqn:Ep;
    cbn [bind]; [|discriminate].
  destruct (dict_get SIZE_MULTIPLIERS size) as [size_mult|] eqn:Es;
    cbn [bind]; [|discriminate].
  destruct (_calculate_use_phase _ _ _ _) as [use_kg|] eqn:Eu;
    cbn [bind]; [|discriminate].
  intro Er. exists params, size_mult, use_kg.
  split; [reflexivity|]. split; [reflexivity|]. split; [exact Eu|].
  cbv zeta.
  destruct (annual_km * of_int years >? lit 0)%F eqn:Ekm.
  - unfold fdiv at 1 in Er.
    destruct (annual_km * of_int years == lit 0)%F eqn:Ez;
      cbn [bind ret] in Er; [discriminate|].
    destruct (_check_greenwashing _ _ _) as [[flag reason]|] eqn:Eg;
      cbn [bind ret] in Er; [|discriminate].
    injection Er as <-. cbn.
    repeat split; try reflexivity; try discriminate.
  - cbn [bind ret] in Er.
    destruct (_check_greenwashing _ _ _) as [[flag reason]|] eqn:Eg;
      cbn [bind ret] in Er; [|discriminate].
    injection Er as <-. cbn.
    repeat split; try reflexivity; try discriminate.
Qed.

End Inversion.

(* ================================================================== *)
(** * Errors of [calculate_lifecycle] *)
(* ================================================================== *)

(** When [calculate_lifecycle] raises [KeyError], and with which key. *)
Lemma calculate_lifecycle_KeyError_iff {F : Type} `{PyFloat F}
    (vt : string) (annual_km : F) (years : Z) (grid_factor : F)
    (size key : string) :
  calculate_lifecycle vt annual_km years grid_factor size
    = Raise (KeyError key)
  <-> (~ In vt BUILTIN_VEHICLE_TYPES /\ key = vt)
      \/ (In vt BUILTIN_VEHICLE_TYPES /\ ~ In size VEHICLE_SIZES
          /\ key = size).
Proof.
  unfold calculate_lifecycle.
  destruct (dict_get VEHICLE_PARAMS vt) as [params|e] eqn:Ep; cbn [bind].
  2:{ apply dict_get_Raise in Ep. destruct Ep as [-> Hn].
      rewrite vehicle_params_keys in Hn. split.
      - intros [= <-]. left. now split.
      - intros [[_ ->]|[Hin _]]; [reflexivity|contradiction]. }
  apply dict_get_Ok_key in Ep. rewrite vehicle_params_keys in Ep.
  destruct (dict_get SIZE_MULTIPLIERS size) as [size_mult|e] eqn:Es;
    cbn [bind].
  2:{ apply dict_get_Raise in Es. destruct Es as [-> Hn].
      rewrite size_multipliers_keys in Hn. split.
      - intros [= <-]. right. now repeat split.
      - intros [[Hn' _]|[_ [_ ->]]]; [contradiction|reflexivity]. }
  apply dict_get_Ok_key in Es. rewrite size_multipliers_keys in Es.
  split; [|intros [[Hn _]|[_ [Hn _]]]; contradiction].
  intro E. exfalso. revert E.
  destruct (_calculate_use_phase _ _ _ _) as [use_kg|e] eqn:Eu;
    cbn [bind].
  2:{ intros [= ->]. now apply use_phase_no_KeyError in Eu. }
  unfold _check_greenwashing, fdiv.
  repeat (match goal with
          | |- context [if ?b then _ else _] => destruct b
          end; cbn [bind ret]); discriminate.
Qed.

(** X1: in any arithmetic, [calculate_lifecycle] raises [KeyError] exactly
    when the vehicle type is not in the constant library (the key is the
    vehicle type, whatever the size) or the vehicle type is known and the
    size is not one of the three (the key is the size), and a result is
    returned only when both are known.  In binary64 and in exact
    arithmetic, with a number of years that converts to [float], a result
    is returned whenever both are known. *)
Theorem calculate_lifecycle_key_errors :
  (forall (F : Type) (PF : PyFloat F) (vt : string) (annual_km : F)
          (years : Z) (grid_factor : F) (size key : string),
      calculate_lifecycle vt annual_km years grid_factor size
        = Raise (KeyError key)
      <-> (~ In vt BUILTIN_VEHICLE_TYPES /\ key = vt)
          \/ (In vt BUILTIN_VEHICLE_TYPES /\ ~ In size VEHICLE_SIZES
              /\ key = size))
  /\ (forall (F : Type) (PF : PyFloat F) (vt : string) (annual_km : F)
             (years : Z) (grid_factor : F) (size : string)
             (r : LifecycleResult F),
         calculate_lifecycle vt annual_km years grid_factor size = Ok r ->
         In vt BUILTIN_VEHICLE_TYPES /\ In size VEHICLE_SIZES)
  /\ (forall (vt : string) (annual_km : float) (years : Z)
             (grid_factor : float) (size : string),
         fits_float years ->
         In vt BUILTIN_VEHICLE_TYPES -> In size VEHICLE_SIZES ->
         exists r,
           calculate_lifecycle vt annual_km years grid_factor size = Ok r)
  /\ (forall (vt : string) (annual_km : Q) (years : Z) (grid_factor : Q)
             (size : string),
         fits_float years ->
         In vt BUILTIN_VEHICLE_TYPES -> In size VEHICLE_SIZES ->
         exists r,
           calculate_lifecycle vt annual_km years grid_factor size = Ok r).
Proof.
  split; [|split; [|split]].
  - intros. apply calculate_lifecycle_KeyError_iff.
  - intros F PF vt annual_km years grid_factor size r Er.
    destruct (calculate_lifecycle_Ok_inv _ _ _ _ _ _ Er)
      as (params & size_mult & use_kg & Ep & Es & _).
    apply dict_get_Ok_key in Ep, Es.
    rewrite vehicle_params_keys in Ep.
    rewrite size_multipliers_keys in Es. now split.
  - intros vt annual_km years grid_factor size _ Hvt Hs.
    destruct (calculate_lifecycle_answers lit_100_nonzero_float
                float_positive_nonzero vt annual_km years grid_factor size
                Hvt Hs) as (r & Er & _).
    eauto.
  - intros vt annual_km years grid_factor size _ Hvt Hs.
    now apply calculate_lifecycle_returns.
Qed.

(* ================================================================== *)
(** * What the inputs do not influence *)
(* ================================================================== *)

(** X2: in any arithmetic, two calculations for the same vehicle type and
    size return the same manufacturing and disposal figures, whatever the
    distances, years and grid factors; and a result echoes the vehicle
    type it was asked for. *)
Theorem manufacturing_and_disposal_fixed_by_type_and_size
    (F : Type) (PF : PyFloat F) (vt size : string)
    (km_1 km_2 : F) (years_1 years_2 : Z) (grid_1 grid_2 : F)
    (r_1 r_2 : LifecycleResult F) :
  calculate_lifecycle vt km_1 years_1 grid_1 size = Ok r_1 ->
  calculate_lifecycle vt km_2 years_2 grid_2 size = Ok r_2 ->
  manufacturing r_1 = manufacturing r_2
  /\ disposal r_1 = disposal r_2
  /\ vehicle_type r_1 = vt /\ vehicle_type r_2 = vt.
Proof.
  intros E1 E2.
  destruct (calculate_lifecycle_Ok_inv _ _ _ _ _ _ E1)
    as (p1 & s1 & u1 & Ep1 & Es1 & _ & Hv1 & Hm1 & _ & Hd1 & _).
  destruct (calculate_lifecycle_Ok_inv _ _ _ _ _ _ E2)
    as (p2 & s2 & u2 & Ep2 & Es2 & _ & Hv2 & Hm2 & _ & Hd2 & _).
  rewrite Ep1 in Ep2. injection Ep2 as <-.
  rewrite Es1 in Es2. injection Es2 as <-.
  rewrite Hm1, Hm2, Hd1, Hd2. auto.
Qed.

(** X2 on the large PHEV, in binary64: a long ownership and none at
    all. *)
Lemma manufacturing_and_disposal_fixed_PHEV_large :
  exists r_1 r_2 : LifecycleResult float,
    calculate_lifecycle "PHEV" (lit 12345.6) 7 (lit 0.5) "large" = Ok r_1
    /\ calculate_lifecycle "PHEV" (lit 50000) 0 (lit 2) "large" = Ok r_2
    /\ manufacturing r_1 = manufacturing r_2
    /\ disposal r_1 = disposal r_2
    /\ vehicle_type r_1 = "PHEV" /\ vehicle_type r_2 = "PHEV".
Proof.
  destruct (calculate_lifecycle (F:=float) "PHEV" (lit 12345.6) 7 (lit 0.5)
              "large") as [r_1|e] eqn:E1;
    [|vm_compute in E1; discriminate].
  destruct (calculate_lifecycle (F:=float) "PHEV" (lit 50000) 0 (lit 2)
              "large") as [r_2|e] eqn:E2;
    [|vm_compute in E2; discriminate].
  exists r_1, r_2. split; [reflexivity|]. split; [reflexivity|].
  exact (manufacturing_and_disposal_fixed_by_type_and_size
           float _ "PHEV" "large" _ _ _ _ _ _ r_1 r_2 E1 E2).
Defined.

Section GridFree.

Context {F : Type} `{PyFloat F}.

(** Outside the electricity branch and the plug-in branch the grid factor
    is not used. *)
Lemma use_phase_grid_free (params : VehicleParams F)
    (total_km grid_1 grid_2 size_mult : F) :
  fuel_type params <> "electricity" ->
  (fuel_type params = "hybrid_petrol" ->
   (battery_capacity_kwh params >? lit 14)%F = false) ->
  _calculate_use_phase params total_km grid_1 size_mult
  = _calculate_use_phase params total_km grid_2 size_mult.
Proof.
  intros Hne Hhy. unfold _calculate_use_phase.
  destruct (String.eqb_spec (fuel_type params) "electricity");
    [contradiction|].
  destruct (String.eqb_spec (fuel_type params) "petrol"); [reflexivity|].
  destruct (String.eqb_spec (fuel_type params) "diesel"); [reflexivity|].
  destruct (String.eqb_spec (fuel_type params) "hybrid_petrol");
    [|reflexivity].
  now rewrite Hhy.
Qed.

End GridFree.

(** X3: in any arithmetic in which neither 14 nor 1.5 is above 14, the
    outcome of [calculate_lifecycle] for a vehicle type other than BEV is
    the same for any two grid factors: only the BEV entry takes the
    electricity branch, and no entry takes the plug-in branch. *)
Theorem grid_factor_matters_for_BEV_only
    (F : Type) (PF : PyFloat F) (vt : string) (annual_km : F) (years : Z)
    (grid_1 grid_2 : F) (size : string) :
  (lit 14 >? lit 14)%F = false ->
  (lit 1.5 >? lit 14)%F = false ->
  vt <> "BEV" ->
  calculate_lifecycle vt annual_km years grid_1 size
  = calculate_lifecycle vt annual_km years grid_2 size.
Proof.
  intros H14 H15 Hvt. unfold calculate_lifecycle.
  destruct (dict_get VEHICLE_PARAMS vt) as [params|e] eqn:Ep; cbn [bind];
    [|reflexivity].
  destruct (dict_get SIZE_MULTIPLIERS size) as [size_mult|e]; cbn [bind];
    [|reflexivity].
  rewrite (use_phase_grid_free params _ grid_1 grid_2); [reflexivity| |].
  - apply dict_get_In in Ep. simpl in Ep.
    destruct Ep as [E|[E|[E|[E|[E|[]]]]]]; injection E as E1 <-;
      cbn [fuel_type]; try discriminate.
    congruence.
  - apply dict_get_In in Ep. simpl in Ep.
    destruct Ep as [E|[E|[E|[E|[E|[]]]]]]; injection E as E1 <-;
      cbn [fuel_type battery_capacity_kwh]; try discriminate; auto.
Qed.

(** X3 on the diesel vehicle, in binary64. *)
Lemma grid_factor_matters_for_BEV_only_diesel :
  calculate_lifecycle (F:=float) "ICEV-d" (lit 15000) 10 (lit 0.233) "small"
  = calculate_lifecycle (F:=float) "ICEV-d" (lit 15000) 10 (lit 1.9) "small".
Proof.
  apply (grid_factor_matters_for_BEV_only float _ "ICEV-d").
  - vm_compute. reflexivity.
  - vm_compute. reflexivity.
  - discriminate.
Defined.

(* ================================================================== *)
(** * The figures of a result *)
(* ================================================================== *)

(** Manufacturing is at least 7055 kg (the small petrol vehicle). *)
Lemma manufacturing_at_least (vt size : string) (params : VehicleParams Q)
    (size_mult : Q) :
  dict_get VEHICLE_PARAMS vt = Ok params ->
  dict_get SIZE_MULTIPLIERS size = Ok size_mult ->
  (7055 <= glider_manufacturing_kg params * size_mult
           + powertrain_manufacturing_kg params * size_mult
           + (if battery_capacity_kwh params >? lit 0
              then battery_capacity_kwh params * size_mult else lit 0)
             * battery_manufacturing_per_kwh params)%F%Q.
Proof.
  intros Ep Es. apply dict_get_In in Ep, Es. simpl in Ep, Es.
  destruct Ep as [E|[E|[E|[E|[E|[]]]]]]; injection E as _ <-;
    destruct Es as [E|[E|[E|[]]]]; injection E as _ <-;
    apply Qle_bool_iff; vm_compute; reflexivity.
Qed.

(** The unrounded figures behind a result, with their signs. *)
Lemma calculate_lifecycle_figures (vt : string) (annual_km : Q) (years : Z)
    (grid_factor : Q) (size : string) (r : LifecycleResult Q) :
  (0 <= annual_km)%Q -> (0 <= years)%Z -> (0 <= grid_factor)%Q ->
  calculate_lifecycle vt annual_km years grid_factor size = Ok r ->
  exists m u d : Q,
    (7055 <= m /\ 0 <= u /\ 0 <= d)%Q
    /\ manufacturing r = Qround_ndigits m 1
    /\ use_phase r = Qround_ndigits u 1
    /\ disposal r = Qround_ndigits d 1
    /\ total r = Qround_ndigits (m + u + d) 1
    /\ _check_greenwashing u (m + u + d)%Q vt
       = Ok (greenwashing_flag r, greenwashing_reason r)
    /\ exists params size_mult,
         dict_get VEHICLE_PARAMS vt = Ok params
         /\ dict_get SIZE_MULTIPLIERS size = Ok size_mult
         /\ _calculate_use_phase params (annual_km * of_int years)%F
              grid_factor size_mult = Ok u
         /\ (m + d == (glider_manufacturing_kg params
                       + powertrain_manufacturing_kg params
                       + battery_capacity_kwh params
                         * battery_manufacturing_per_kwh params
                       + disposal_kg params
                       + battery_capacity_kwh params
                         * battery_eol_factor params) * size_mult)%Q.
Proof.
  intros Hkm Hy Hg Er.
  destruct (calculate_lifecycle_Ok_inv _ _ _ _ _ _ Er)
    as (params & size_mult & use_kg & Ep & Es & Eu & Hf).
  cbv zeta in Hf.
  destruct Hf as (_ & Em & Eup & Ed & Et & _ & Eg & _).
  destruct (builtin_params_nonneg vt params Ep)
    as (Hgl & Hpt & Hbm & Hcap & Hcons & Hdis & Heol).
  pose proof (size_multiplier_nonneg size size_mult Es) as Hsm.
  pose proof (manufacturing_at_least vt size params size_mult Ep Es) as Hm.
  assert (Hfuel : In (fuel_type params) KNOWN_FUEL_TYPES).
  { apply dict_get_In in Ep.
    pose proof (vehicle_params_fuel_known (F:=Q)) as Hall.
    rewrite Forall_forall in Hall. exact (Hall _ Ep). }
  assert (Htotal_km : (0 <= (annual_km * of_int years)%F)%Q).
  { unfold of_int. cbn [fmul lit Q_PyFloat]. rewrite Qred_correct.
    apply Qmult_le_0_compat; [exact Hkm|].
    change 0%Q with (inject_Z 0). rewrite <- Zle_Qle. exact Hy. }
  destruct (use_phase_nonneg params (annual_km * of_int years)%F grid_factor
              size_mult Hfuel Hcons Htotal_km Hg Hsm) as (u' & Eu' & Hu).
  rewrite Eu in Eu'. injection Eu' as <-.
  set (battery_kwh :=
         (if battery_capacity_kwh params >? lit 0
          then battery_capacity_kwh params * size_mult else lit 0)%F) in *.
  assert (Hbat : (0 <= battery_kwh)%Q
                 /\ (battery_kwh == battery_capacity_kwh params * size_mult)%Q).
  { unfold battery_kwh. destruct (_ >? _)%F eqn:E.
    - cbn [fmul Q_PyFloat]. split; [now apply Qmult_le_0_compat|reflexivity].
    - cbn [fltb lit Q_PyFloat] in E. apply Qltb_false in E.
      rewrite Qred_correct in *. split; [lra|].
      assert (E0 : (battery_capacity_kwh params == 0)%Q) by lra.
      rewrite E0. lra. }
  destruct Hbat as [Hbat Ebat].
  exists (glider_manufacturing_kg params * size_mult
          + powertrain_manufacturing_kg params * size_mult
          + battery_kwh * battery_manufacturing_per_kwh params)%F,
    use_kg, (_calculate_disposal params battery_kwh size_mult).
  split.
  { split; [exact Hm|]. split; [exact Hu|].
    unfold _calculate_disposal. cbn [fadd fmul Q_PyFloat].
    apply Qplus_nonneg; now apply Qmult_le_0_compat. }
  split; [exact Em|]. split; [exact Eup|]. split; [exact Ed|].
  split; [exact Et|]. split; [exact Eg|].
  exists params, size_mult. split; [exact Ep|]. split; [exact Es|].
  split; [exact Eu|].
  unfold _calculate_disposal. cbn [fadd fmul Q_PyFloat].
  rewrite Ebat. ring.
Qed.

(** X4: for non-negative distance, years and grid factor, every returned
    result has a manufacturing figure of at least 7055 kg, non-negative use
    phase and disposal, none of the three above the total, and a total of
    at least 7055 kg. *)
Theorem lifecycle_parts_within_total (vt : string) (annual_km : Q)
    (years : Z) (grid_factor : Q) (size : string) (r : LifecycleResult Q) :
  (0 <= annual_km)%Q -> (0 <= years)%Z -> (0 <= grid_factor)%Q ->
  calculate_lifecycle vt annual_km years grid_factor size = Ok r ->
  (7055 <= manufacturing r /\ 0 <= use_phase r /\ 0 <= disposal r
   /\ manufacturing r <= total r /\ use_phase r <= total r
   /\ disposal r <= total r /\ 7055 <= total r)%Q.
Proof.
  intros Hkm Hy Hg Er.
  destruct (calculate_lifecycle_figures _ _ _ _ _ _ Hkm Hy Hg Er)
    as (m & u & d & (Hm & Hu & Hd) & -> & -> & -> & -> & _).
  assert (H7055 : forall x : Q, (7055 <= x -> 7055 <= Qround_ndigits x 1)%Q).
  { intros x Hx.
    apply (Qround_1_between 7055 (Qceiling x)). split; [exact Hx|].
    apply Qle_ceiling. }
  repeat split.
  - now apply H7055.
  - now apply Qround_1_nonneg.
  - now apply Qround_1_nonneg.
  - apply Qround_1_mono. lra.
  - apply Qround_1_mono. lra.
  - apply Qround_1_mono. lra.
  - apply H7055. lra.
Qed.

(** X4 at scenario B. *)
Lemma lifecycle_parts_within_total_scenario_B :
  (7055 <= manufacturing (result_B Q) /\ 0 <= use_phase (result_B Q)
   /\ 0 <= disposal (result_B Q)
   /\ manufacturing (result_B Q) <= total (result_B Q)
   /\ use_phase (result_B Q) <= total (result_B Q)
   /\ disposal (result_B Q) <= total (result_B Q)
   /\ 7055 <= total (result_B Q))%Q.
Proof.
  apply (lifecycle_parts_within_total "ICEV-p" (lit 15000) 10 (lit 0.233)
           "medium").
  - vm_compute. discriminate.
  - lia.
  - vm_compute. discriminate.
  - vm_compute. reflexivity.
Defined.

(* ================================================================== *)
(** * Which results are flagged *)
(* ================================================================== *)

Lemma Qdiv_lt_iff (u t a : Q) :
  (0 < t)%Q -> (u / t < a <-> u < a * t)%Q.
Proof.
  intro Ht.
  assert (E : (u == u / t * t)%Q) by (field; lra).
  rewrite E at 2. symmetry. apply Qmult_lt_r. exact Ht.
Qed.

Lemma Qdiv_gt_iff (u t a : Q) :
  (0 < t)%Q -> (a < u / t <-> a * t < u)%Q.
Proof.
  intro Ht.
  assert (E : (u == u / t * t)%Q) by (field; lra).
  rewrite E at 2. symmetry. apply Qmult_lt_r. exact Ht.
Qed.

(** Outside BEV, manufacturing and disposal together stay below 12516 kg
    (the large PHEV). *)
Lemma upfront_at_most (vt size : string) (params : VehicleParams Q)
    (size_mult : Q) :
  vt <> "BEV" ->
  dict_get VEHICLE_PARAMS vt = Ok params ->
  dict_get SIZE_MULTIPLIERS size = Ok size_mult ->
  ((glider_manufacturing_kg params
    + powertrain_manufacturing_kg params
    + battery_capacity_kwh params * battery_manufacturing_per_kwh params
    + disposal_kg params
    + battery_capacity_kwh params * battery_eol_factor params) * size_mult
   <= 12516)%Q.
Proof.
  intros Hvt Ep Es. apply dict_get_In in Ep, Es. simpl in Ep, Es.
  destruct Ep as [E|[E|[E|[E|[E|[]]]]]]; injection E as Ev <-;
    try congruence;
    destruct Es as [E|[E|[E|[]]]]; injection E as _ <-;
    apply Qle_bool_iff; vm_compute; reflexivity.
Qed.

(** X5: for non-negative distance, years and grid factor, a result for a
    vehicle type other than BEV is never flagged and carries no reason. *)
Theorem only_BEV_is_flagged (vt : string) (annual_km : Q) (years : Z)
    (grid_factor : Q) (size : string) (r : LifecycleResult Q) :
  vt <> "BEV" ->
  (0 <= annual_km)%Q -> (0 <= years)%Z -> (0 <= grid_factor)%Q ->
  calculate_lifecycle vt annual_km years grid_factor size = Ok r ->
  greenwashing_flag r = false /\ greenwashing_reason r = None.
Proof.
  intros Hvt Hkm Hy Hg Er.
  destruct (calculate_lifecycle_figures _ _ _ _ _ _ Hkm Hy Hg Er)
    as (m & u & d & (Hm & Hu & Hd) & _ & _ & _ & _ & Eg
        & params & size_mult & Ep & Es & _ & Hmd).
  pose proof (upfront_at_most vt size params size_mult Hvt Ep Es) as Hc.
  rewrite <- Hmd in Hc.
  destruct (check_greenwashing_cases u (m + u + d) vt)
    as [(_ & E)|[(_ & Ha & Hb & _)|[(_ & _ & Hv & _)|(_ & _ & _ & E)]]].
  - rewrite E in Eg. now injection Eg as <- <-.
  - exfalso. apply Qdiv_lt_iff in Ha; lra.
  - contradiction.
  - rewrite E in Eg. now injection Eg as <- <-.
Qed.

(** X5 at scenario B. *)
Lemma only_BEV_is_flagged_scenario_B :
  greenwashing_flag (result_B Q) = false
  /\ greenwashing_reason (result_B Q) = None.
Proof.
  apply (only_BEV_is_flagged "ICEV-p" (lit 15000) 10 (lit 0.233) "medium").
  - discriminate.
  - vm_compute. discriminate.
  - lia.
  - vm_compute. discriminate.
  - vm_compute. reflexivity.
Defined.

(** The use phase of the medium BEV is 0.18 kWh per km at the grid
    factor. *)
Lemma BEV_medium_use_phase (params : VehicleParams Q) (size_mult : Q)
    (annual_km : Q) (years : Z) (grid_factor u : Q) :
  dict_get VEHICLE_PARAMS "BEV" = Ok params ->
  dict_get SIZE_MULTIPLIERS "medium" = Ok size_mult ->
  _calculate_use_phase params (annual_km * of_int years)%F grid_factor
    size_mult = Ok u ->
  (u == 0.18 * (annual_km * inject_Z years * grid_factor))%Q
  /\ ((glider_manufacturing_kg params
       + powertrain_manufacturing_kg params
       + battery_capacity_kwh params * battery_manufacturing_per_kwh params
       + disposal_kg params
       + battery_capacity_kwh params * battery_eol_factor params) * size_mult
      == 17300)%Q.
Proof.
  intros Ep Es Eu.
  injection Ep as <-. injection Es as <-.
  split; [|reflexivity].
  set (y := of_int years : Q) in *.
  assert (Ey : (y == inject_Z years)%Q)
    by (unfold y, of_int; cbn [lit Q_PyFloat]; apply Qred_correct).
  clearbody y.
  unfold _calculate_use_phase in Eu.
  cbn [fuel_type energy_consumption_per_100km] in Eu.
  change (String.eqb "electricity" "electricity") with true in Eu.
  cbv iota in Eu.
  rewrite (fdiv_nonzero _ _ lit_100_nonzero_Q) in Eu.
  cbn [bind ret] in Eu. injection Eu as <-.
  cbn [fmul fquot lit Q_PyFloat]. rewrite Ey, ?Qred_correct. field.
Qed.

(** X6: for the medium BEV with non-negative inputs, write [load] for
    lifetime distance times grid factor; manufacturing plus disposal is
    17300 kg and the use phase is [0.18 * load].  Up to [3.42 * load =
    17299] the result is flagged with the misleading-label reason; from
    [3.42 * load = 17301] to [0.054 * load = 12109] it is not flagged; from
    [0.054 * load = 12111] on it is flagged with the grid-advocacy reason.
    Conversely each outcome confines the load to its side of the two
    thresholds 17300 and 12110, here with the same margin of 1 (the
    thresholds themselves are exact in exact arithmetic only). *)
Theorem BEV_medium_flag_thresholds (annual_km : Q) (years : Z)
    (grid_factor : Q) (r : LifecycleResult Q) :
  (0 <= annual_km)%Q -> (0 <= years)%Z -> (0 <= grid_factor)%Q ->
  calculate_lifecycle "BEV" annual_km years grid_factor "medium" = Ok r ->
  let load := (annual_km * inject_Z years * grid_factor)%Q in
  ((3.42 * load <= 17299)%Q ->
   greenwashing_flag r = true
   /\ exists v a b c,
        greenwashing_reason r = Some (MisleadingLabel v a b c))
  /\ ((17301 <= 3.42 * load /\ 0.054 * load <= 12109)%Q ->
      greenwashing_flag r = false /\ greenwashing_reason r = None)
  /\ ((12111 <= 0.054 * load)%Q ->
      greenwashing_flag r = true
      /\ greenwashing_reason r = Some GridAdvocacy)
  /\ ((exists v a b c,
          greenwashing_reason r = Some (MisleadingLabel v a b c)) ->
      (3.42 * load < 17301)%Q)
  /\ (greenwashing_reason r = Some GridAdvocacy ->
      (12109 < 0.054 * load)%Q)
  /\ (greenwashing_flag r = false ->
      (17299 < 3.42 * load /\ 0.054 * load < 12111)%Q).
Proof.
  intros Hkm Hy Hg Er load.
  destruct (calculate_lifecycle_figures _ _ _ _ _ _ Hkm Hy Hg Er)
    as (m & u & d & (Hm & Hu & Hd) & _ & _ & _ & _ & Eg
        & params & size_mult & Ep & Es & Eu & Hmd).
  destruct (BEV_medium_use_phase params size_mult _ _ _ _ Ep Es Eu)
    as [Hload Hc].
  fold load in Hload. rewrite Hc in Hmd. clear Hc Ep Es Eu.
  assert (Ht : (0 < m + u + d)%Q) by lra.
  assert (H1 : (u / (m + u + d) < 0.05 <-> 3.42 * load < 17300)%Q).
  { rewrite (Qdiv_lt_iff _ _ _ Ht). split; intro; lra. }
  assert (H2 : (0.70 < u / (m + u + d) <-> 12110 < 0.054 * load)%Q).
  { rewrite (Qdiv_gt_iff _ _ _ Ht). split; intro; lra. }
  assert (H3 : (15000 < m + u + d)%Q) by lra.
  assert (Hload0 : (0 <= load)%Q) by lra.
  clearbody load.
  destruct (check_greenwashing_cases u (m + u + d) "BEV")
    as [(Hz & _)|[(_ & Ha & _ & E)|[(_ & Hn & _ & Hf & E)
                                   |(_ & Hn & Hn2 & E)]]];
    [lra| | |]; rewrite E in Eg; injection Eg as <- <-.
  - apply H1 in Ha. split; [|split; [|split; [|split; [|split]]]].
    + intros _. split; [reflexivity|eauto].
    + intros [H _]. exfalso. lra.
    + intro H. exfalso. lra.
    + intros _. lra.
    + intros [=].
    + intros [=].
  - apply H2 in Hf. split; [|split; [|split; [|split; [|split]]]].
    + intro H. exfalso. lra.
    + intros [_ H]. exfalso. lra.
    + intros _. split; reflexivity.
    + intros (v & a & b & c & [=]).
    + intros _. lra.
    + intros [=].
  - assert (Ha : (17300 <= 3.42 * load)%Q).
    { apply Qnot_lt_le. intro Hlt. apply H1 in Hlt. apply Hn.
      split; [exact Hlt|exact H3]. }
    assert (Hb : (0.054 * load <= 12110)%Q).
    { apply Qnot_lt_le. intro Hlt. apply H2 in Hlt. apply Hn2.
      split; [reflexivity|exact Hlt]. }
    split; [|split; [|split; [|split; [|split]]]].
    + intro H. exfalso. lra.
    + intros _. split; reflexivity.
    + intro H. exfalso. lra.
    + intros (v & a & b & c & [=]).
    + intros [=].
    + intros _. split; lra.
Qed.

(** X6 on a lightly used medium BEV: 1000 km a year for 10 years at grid
    0.233 is flagged as misleadingly labelled. *)
Lemma BEV_medium_flag_thresholds_light_use :
  exists r : LifecycleResult Q,
    calculate_lifecycle "BEV" 1000 10 0.233 "medium" = Ok r
    /\ greenwashing_flag r = true
    /\ exists v a b c,
         greenwashing_reason r = Some (MisleadingLabel v a b c).
Proof.
  destruct (calculate_lifecycle (F:=Q) "BEV" 1000 10 0.233 "medium")
    as [r|e] eqn:Er; [|vm_compute in Er; discriminate].
  exists r. split; [reflexivity|].
  apply (proj1 (BEV_medium_flag_thresholds 1000 10 0.233 r
                  ltac:(discriminate) ltac:(lia) ltac:(discriminate) Er)).
  vm_compute. discriminate.
Defined.

(* ================================================================== *)
(** * Emissions per kilometre *)
(* ================================================================== *)

Lemma of_int_Q (z : Z) : ((of_int z : Q) == inject_Z z)%Q.
Proof. unfold of_int. cbn [lit Q_PyFloat]. apply Qred_correct. Qed.

Lemma Qround_1_zero : Qround_ndigits (lit 0) 1 = 0%Q.
Proof. reflexivity. Qed.

(** X7: write [K] for annual distance times years.  When [K] is not
    positive a returned result has [per_km] 0: no division is attempted.
    For an annual distance in [0.1, 100000], 1 to 30 years and a grid
    factor in [0, 2], [per_km] times [K] over 1000 is within
    [K / 20000 + 0.05] kg of [total] (the two roundings to one decimal,
    one of them scaled by the distance) and a margin of one millionth for
    the error of binary64. *)
Theorem per_km_matches_total (vt : string) (annual_km : Q) (years : Z)
    (grid_factor : Q) (size : string) (r : LifecycleResult Q) :
  calculate_lifecycle vt annual_km years grid_factor size = Ok r ->
  let K := (annual_km * inject_Z years)%Q in
  ((K <= 0)%Q -> per_km r = 0%Q)
  /\ ((1 # 10 <= annual_km <= 100000)%Q -> (1 <= years <= 30)%Z ->
      (0 <= grid_factor <= 2)%Q ->
      (Qabs (per_km r * K / 1000 - total r)
       <= K / 20000 + (1 # 20) + (1 # 1000000))%Q).
Proof.
  intros Er K.
  destruct (calculate_lifecycle_Ok_inv _ _ _ _ _ _ Er)
    as (params & size_mult & use_kg & _ & _ & _ & Hf).
  cbv zeta in Hf.
  destruct Hf as (_ & _ & _ & _ & Et & _ & _ & Hpos & Hzero).
  set (total_kg := (_ + use_kg + _)%F) in *. clearbody total_kg.
  set (distance := (annual_km * of_int years)%F) in *.
  assert (Ed : (distance == K)%Q).
  { unfold distance, K. cbn [fmul Q_PyFloat]. now rewrite of_int_Q. }
  clearbody distance.
  assert (Hlt : (distance >? lit 0)%F = true <-> (0 < K)%Q).
  { cbn [fltb lit Q_PyFloat]. rewrite Qltb_true, Qred_correct.
    now rewrite Ed. }
  split.
  - intro HK. rewrite Hzero; [reflexivity|].
    destruct (distance >? lit 0)%F; [|reflexivity].
    exfalso. assert (0 < K)%Q by now apply Hlt. lra.
  - intros [Hkm _] [Hy _] _.
    assert (HK : (0 < K)%Q).
    { unfold K. apply Qmult_lt_0_compat; [lra|].
      change 0%Q with (inject_Z 0). rewrite <- Zlt_Qlt. lia. }
    destruct (Hpos (proj2 Hlt HK)) as [_ Ep].
    rewrite Ep, Et. cbn [fround fmul fquot lit Q_PyFloat].
    pose proof (Qround_1_near total_kg) as Ht.
    pose proof (Qround_1_near (total_kg / distance * Qred 1000)) as Hp.
    apply Qabs_Qle_condition in Ht, Hp.
    set (p := Qround_ndigits (total_kg / distance * Qred 1000) 1) in *.
    set (t := Qround_ndigits total_kg 1) in *.
    assert (Ex : (total_kg / distance * Qred 1000 * (K / 1000)
                  == total_kg)%Q).
    { rewrite Qred_correct, Ed. field. lra. }
    set (x := (total_kg / distance * Qred 1000)%Q) in *.
    clearbody p t x.
    assert (Hk : (0 <= K / 1000)%Q)
      by (apply Qle_shift_div_l; [reflexivity|lra]).
    set (k := (K / 1000)%Q) in *.
    assert (EK : (K == k * 1000)%Q) by (unfold k; field).
    assert (Hup : ((p - x) * k <= (1 # 20) * k)%Q)
      by (apply Qmult_le_compat_r; lra).
    assert (Hlo : (- (1 # 20) * k <= (p - x) * k)%Q)
      by (apply Qmult_le_compat_r; lra).
    assert (Epk : (p * K / 1000 == p * k)%Q) by (unfold k; field).
    assert (EK2 : (K / 20000 == (1 # 20) * k)%Q) by (unfold k; field).
    rewrite Epk, EK2. clearbody k.
    apply Qabs_Qle_condition. split; nra.
Qed.

(** X7 at scenario A. *)
Lemma per_km_matches_total_scenario_A :
  (Qabs (per_km (result_A Q) * (15000 * inject_Z 10) / 1000
         - total (result_A Q))
   <= 15000 * inject_Z 10 / 20000 + (1 # 20) + (1 # 1000000))%Q.
Proof.
  refine (proj2 (per_km_matches_total "BEV" 15000 10 0.233 "medium"
                   (result_A Q) _) _ _ _).
  - vm_compute. reflexivity.
  - split; vm_compute; discriminate.
  - lia.
  - split; vm_compute; discriminate.
Defined.

(* ================================================================== *)
(** * Cumulative curves *)
(* ================================================================== *)

Lemma nth_error_range (lo hi : Z) (i : nat) :
  (i < Z.to_nat (hi - lo))%nat ->
  nth_error (range lo hi) i = Some (lo + Z.of_nat i)%Z.
Proof.
  intro Hi. unfold range.
  rewrite nth_error_map, nth_error_seq.
  destruct (Nat.ltb_spec i (Z.to_nat (hi - lo))); [reflexivity|lia].
Qed.

(** The points of a curve, year by year. *)
Lemma build_cumulative_curve_points (r : LifecycleResult Q) (years : Z)
    (curve : list Q) :
  _build_cumulative_curve r years = Ok curve ->
  exists annual : Q,
    ((years > 0)%Z -> (annual == use_phase r / inject_Z years)%Q)
    /\ ((years <= 0)%Z -> (annual == 0)%Q)
    /\ forall y, (0 <= y <= years)%Z ->
         curve_at curve y
         = Some (Qround_ndigits
                   (manufacturing r + disposal r + annual * inject_Z y) 1).
Proof.
  assert (Hpoint : forall (annual : Q) (y : Z),
            (0 <= y <= years)%Z ->
            curve_at
              (map (fun y => fround (manufacturing r + disposal r
                                     + annual * of_int y)%F 1)
                   (range 0 (years + 1))) y
            = Some (Qround_ndigits
                      (manufacturing r + disposal r + annual * inject_Z y)
                      1)).
  { intros annual y Hy. unfold curve_at.
    destruct (Z.ltb_spec y 0); [lia|].
    rewrite nth_error_map, nth_error_range by lia.
    unfold option_map. rewrite Z.add_0_l, Z2Nat.id by lia.
    f_equal. apply Qround_ndigits_comp.
    pose proof (of_int_Q y) as Ey.
    set (oy := of_int y : Q) in *. clearbody oy.
    change ((manufacturing r + disposal r + annual * oy)%F)
      with (manufacturing r + disposal r + annual * oy)%Q.
    now rewrite Ey. }
  unfold _build_cumulative_curve.
  destruct (years >? 0)%Z eqn:E.
  - rewrite (fdiv_nonzero _ _ (of_int_nonzero years ltac:(lia))).
    unfold bind, ret. intros [= <-].
    exists (fquot (use_phase r) (of_int years)).
    split.
    { intros _. pose proof (of_int_Q years) as Ey.
      set (oy := of_int years : Q) in *. clearbody oy.
      change (fquot (use_phase r) oy) with (use_phase r / oy)%Q.
      now rewrite Ey. }
    split; [lia|]. apply Hpoint.
  - unfold bind, ret. intros [= <-]. exists (lit 0).
    split; [lia|]. split; [reflexivity|]. apply Hpoint.
Qed.




(** Each pair of a comparison comes from one of the other results. *)
Lemma pair_of_comparison (years : Z) (best : LifecycleResult Q)
    (best_curve : list Q) (others : list (LifecycleResult Q))
    (ps : list (BreakEvenPair Q)) (p : BreakEvenPair Q) :
  Forall2
    (fun other p =>
       exists comparison_curve,
         _build_cumulative_curve other years = Ok comparison_curve
         /\ p = {| year := _find_break_even_year best_curve
                             comparison_curve;
                   best_vehicle := vehicle_type best;
                   comparison_vehicle := vehicle_type other;
                   yearly_best_cumulative := best_curve;
                   yearly_comparison_cumulative := comparison_curve |})
    others ps ->
  In p ps ->
  exists other comparison_curve,
    In other others
    /\ _build_cumulative_curve other years = Ok comparison_curve
    /\ p = {| year := _find_break_even_year best_curve comparison_curve;
              best_vehicle := vehicle_type best;
              comparison_vehicle := vehicle_type other;
              yearly_best_cumulative := best_curve;
              yearly_comparison_cumulative := comparison_curve |}.
Proof.
  intros Hps Hp. induction Hps as [|o q os qs (cc & E1 & E2) _ IH].
  - contradiction.
  - destruct Hp as [<-|Hp].
    + exists o, cc. split; [now left|auto].
    + destruct (IH Hp) as (o' & cc' & Hin & H'). exists o', cc'.
      split; [now right|exact H'].
Qed.

(* ================================================================== *)
(** * When the break-even year is present *)
(* ================================================================== *)



(* ================================================================== *)
(** * What a recommendation is made of *)
(* ================================================================== *)

(** The last element of a non-empty list does not depend on the default. *)
Lemma last_cons_default {A} (a : A) (l : list A) (x y : A) :
  last (a :: l) x = last (a :: l) y.
Proof.
  revert a. induction l as [|b t IH]; intro a; [reflexivity|].
  change (last (a :: b :: t) x) with (last (b :: t) x).
  change (last (a :: b :: t) y) with (last (b :: t) y).
  apply IH.
Qed.

Lemma nth_error_last {A} (a : A) (l : list A) :
  nth_error (a :: l) (List.length l) = Some (last (a :: l) a).
Proof.
  revert a. induction l as [|b t IH]; intro a; [reflexivity|].
  cbn [List.length nth_error]. rewrite IH. f_equal.
  change (last (a :: b :: t) a) with (last (b :: t) a).
  apply last_cons_default.
Qed.

Lemma list_index_last_eq {A} (a : A) (l : list A) :
  list_index (a :: l) (-1) = Ok (last (a :: l) a).
Proof.
  unfold list_index. change (-1 <? 0)%Z with true. cbv iota.
  destruct (Z.ltb_spec (-1 + Z.of_nat (List.length (a :: l))) 0) as [Hn|_].
  { simpl List.length in Hn. lia. }
  replace (Z.to_nat (-1 + Z.of_nat (List.length (a :: l))))
    with (List.length l) by (simpl List.length; lia).
  now rewrite nth_error_last.
Qed.

(** The last element of a list sorted by total has the highest total. *)
Lemma sorted_last_highest (best : LifecycleResult Q)
    (others : list (LifecycleResult Q)) :
  StronglySorted (key_le total) (best :: others) ->
  forall r, In r (best :: others) ->
    (total r <= total (last (best :: others) best))%Q.
Proof.
  revert best. induction others as [|o os IH]; intros best Hs r Hr.
  - destruct Hr as [<-|[]]. simpl. lra.
  - change (last (best :: o :: os) best) with (last (o :: os) best).
    assert (El : last (o :: os) best = last (o :: os) o)
      by apply last_cons_default.
    rewrite El. apply StronglySorted_inv in Hs. destruct Hs as [Hs Hall].
    destruct Hr as [<-|Hr].
    + apply Forall_inv in Hall. unfold key_le in Hall.
      pose proof (IH o Hs o (or_introl eq_refl)). lra.
    + now apply IH.
Qed.

(** What a returned recommendation is made of. *)
Lemma recommend_Ok_inv (results : list (LifecycleResult Q))
    (rr : RecommendationResult Q) :
  recommend_vehicle results = Ok rr ->
  exists best others pct,
    sorted total results = best :: others
    /\ let worst := last (best :: others) best in
       recommended_vehicle rr = vehicle_type best
       /\ total_emissions_kg rr = total best
       /\ savings_vs_worst_kg rr
          = Qround_ndigits (total worst - total best) 1
       /\ savings_vs_worst_pct rr = Qround_ndigits pct 1
       /\ ((0 < total worst)%Q ->
           (pct == (total worst - total best) / total worst * 100)%Q)
       /\ ((total worst <= 0)%Q -> (pct == 0)%Q)
       /\ reasoning rr
          = _build_reasoning best worst (best :: others)
              (total worst - total best)%F pct.
Proof.
  unfold recommend_vehicle.
  destruct results as [|r0 rest]; [discriminate|].
  destruct (sorted_cons total r0 rest) as (best & others & Es).
  rewrite Es. rewrite list_index_first, list_index_last_eq.
  unfold bind at 1 2.
  set (worst := last (best :: others) best).
  destruct (if (1 <? List.length (best :: others))%nat then _ else _)
    as [confidence|e]; [|discriminate].
  unfold bind at 1.
  destruct (total worst >? lit 0)%F eqn:Ew.
  - rewrite (fdiv_nonzero _ _ (Q_positive_nonzero _ Ew)).
    unfold bind, ret. intros [= <-].
    exists best, others, (fquot (total worst - total best)%F (total worst)
                          * lit 100)%F.
    split; [reflexivity|]. cbv zeta. fold worst.
    cbn [recommended_vehicle total_emissions_kg savings_vs_worst_kg
         savings_vs_worst_pct reasoning].
    do 4 (split; [reflexivity|]).
    split; [|split; [|reflexivity]].
    + intros _. reflexivity.
    + intro Hle. exfalso.
      change ((total worst >? lit 0)%F) with (Qltb (Qred 0) (total worst))
        in Ew.
      apply Qltb_true in Ew. rewrite Qred_correct in Ew. lra.
  - unfold bind, ret. intros [= <-]. exists best, others, (lit 0).
    split; [reflexivity|]. cbv zeta. fold worst.
    cbn [recommended_vehicle total_emissions_kg savings_vs_worst_kg
         savings_vs_worst_pct reasoning].
    do 4 (split; [reflexivity|]).
    split; [|split; [intros _|]; reflexivity].
    intro Hpos. exfalso.
    change ((total worst >? lit 0)%F) with (Qltb (Qred 0) (total worst))
      in Ew.
    apply Qltb_false in Ew. rewrite Qred_correct in Ew. lra.
Qed.

(* ================================================================== *)
(** * The recommendation and the comparison *)
(* ================================================================== *)

(** X10: on the same results, the best vehicle of the break-even
    comparison and of each of its pairs is the recommended vehicle. *)
Theorem recommendation_agrees_with_break_even
    (results : list (LifecycleResult Q)) (years : Z)
    (c : BreakEvenComparison Q) (rr : RecommendationResult Q) :
  compare_best_vs_all results years = Ok (Some c) ->
  recommend_vehicle results = Ok rr ->
  cmp_best_vehicle c = recommended_vehicle rr
  /\ Forall (fun p => best_vehicle p = recommended_vehicle rr) (pairs c).
Proof.
  intros Hc Hr.
  destruct (Nat.ltb_spec (List.length results) 2) as [Hshort|Hlong].
  { rewrite compare_best_vs_all_short in Hc by exact Hshort. discriminate. }
  destruct (compare_best_vs_all_long results years Hlong)
    as (best & others & best_curve & ps & Es & _ & Ec & Hps).
  rewrite Ec in Hc. injection Hc as <-.
  destruct (recommend_Ok_inv results rr Hr)
    as (best' & others' & pct & Es' & Hv & _).
  rewrite Es in Es'. injection Es' as <- <-.
  cbn [cmp_best_vehicle pairs]. rewrite Hv. split; [reflexivity|].
  clear Ec Es. induction Hps as [|o q os qs Hq _ IH]; [constructor|].
  destruct Hq as (cc & _ & ->). constructor; [reflexivity|exact IH].
Qed.

(** X10 at scenario C. *)
Lemma recommendation_agrees_with_break_even_scenario_C :
  exists rr,
    recommend_vehicle [result_A Q; result_B Q] = Ok rr
    /\ cmp_best_vehicle (comparison_C Q) = recommended_vehicle rr
    /\ Forall (fun p => best_vehicle p = recommended_vehicle rr)
              (pairs (comparison_C Q)).
Proof.
  destruct (recommend_vehicle [result_A Q; result_B Q]) as [rr|e] eqn:Er;
    [|vm_compute in Er; discriminate].
  exists rr. split; [reflexivity|].
  apply (recommendation_agrees_with_break_even
           [result_A Q; result_B Q] 10 (comparison_C Q) rr);
    [vm_compute; reflexivity|exact Er].
Defined.

(** X11: a returned recommendation names a result of lowest total and
    reports that total; its savings are the gap to a result of highest
    total, rounded to one decimal, and are not negative; when the lowest
    total is not negative the savings percentage lies in [0, 100]. *)
Theorem recommended_is_lowest (results : list (LifecycleResult Q))
    (rr : RecommendationResult Q) :
  recommend_vehicle results = Ok rr ->
  exists best worst,
    In best results /\ In worst results
    /\ (forall r, In r results -> total best <= total r <= total worst)%Q
    /\ recommended_vehicle rr = vehicle_type best
    /\ total_emissions_kg rr = total best
    /\ savings_vs_worst_kg rr = Qround_ndigits (total worst - total best) 1
    /\ (0 <= savings_vs_worst_kg rr)%Q
    /\ ((0 <= total best)%Q -> (0 <= savings_vs_worst_pct rr <= 100)%Q).
Proof.
  intro Hr.
  destruct (recommend_Ok_inv results rr Hr)
    as (best & others & pct & Es & Hf).
  cbv zeta in Hf. set (worst := last (best :: others) best) in *.
  destruct Hf as (Hv & Ht & Hs & Hp & Hpos & Hzero & _).
  pose proof (sorted_perm total results) as Hperm. rewrite Es in Hperm.
  pose proof (sorted_sorted total results) as Hsorted. rewrite Es in Hsorted.
  assert (Hworst_in : In worst (best :: others)).
  { unfold worst. destruct others as [|o os]; [now left|].
    right. change (last (best :: o :: os) best) with (last (o :: os) best).
    clear. revert o. induction os as [|e t IH]; intro o; [now left|].
    change (last (o :: e :: t) best) with (last (e :: t) best).
    right. apply IH. }
  assert (Hrange : forall r, In r (best :: others) ->
                     (total best <= total r <= total worst)%Q).
  { intros r Hin. split.
    - destruct Hin as [<-|Hin]; [lra|].
      apply StronglySorted_inv in Hsorted. destruct Hsorted as [_ Hall].
      rewrite Forall_forall in Hall. exact (Hall r Hin).
    - now apply sorted_last_highest. }
  assert (Hbw : (total best <= total worst)%Q)
    by (apply (Hrange worst Hworst_in)).
  exists best, worst.
  split; [apply (Permutation_in _ Hperm); now left|].
  split; [now apply (Permutation_in _ Hperm)|].
  split.
  { intros r Hin. apply Hrange.
    apply (Permutation_in _ (Permutation_sym Hperm)). exact Hin. }
  split; [exact Hv|]. split; [exact Ht|]. split; [exact Hs|].
  split.
  { rewrite Hs. apply Qround_1_nonneg. lra. }
  intro Hbest. rewrite Hp.
  apply (Qround_1_between 0 100).
  change (inject_Z 0) with 0%Q. change (inject_Z 100) with 100%Q.
  destruct (Qlt_le_dec 0 (total worst)) as [Hw|Hw].
  - rewrite (Hpos Hw).
    set (tw := total worst) in *. set (tb := total best) in *.
    assert (Hratio : (0 <= (tw - tb) / tw <= 1)%Q).
    { split.
      - apply Qle_shift_div_l; [exact Hw|]. lra.
      - apply Qle_shift_div_r; [exact Hw|]. lra. }
    set (ratio := ((tw - tb) / tw)%Q) in *. clearbody ratio. lra.
  - rewrite (Hzero Hw). lra.
Qed.

(** X11 at the results of scenarios A and B: 11969 kg saved. *)
Lemma recommended_is_lowest_scenario_C :
  exists rr best worst,
    recommend_vehicle [result_B Q; result_A Q] = Ok rr
    /\ In best [result_B Q; result_A Q] /\ In worst [result_B Q; result_A Q]
    /\ recommended_vehicle rr = vehicle_type best
    /\ total_emissions_kg rr = total best
    /\ savings_vs_worst_kg rr = Qround_ndigits (total worst - total best) 1.
Proof.
  destruct (recommend_vehicle [result_B Q; result_A Q]) as [rr|e] eqn:Er;
    [|vm_compute in Er; discriminate].
  destruct (recommended_is_lowest [result_B Q; result_A Q] rr Er)
    as (best & worst & Hb & Hw & _ & Hv & Ht & Hs & _).
  exists rr, best, worst. repeat split; assumption.
Defined.

(* ================================================================== *)
(** * The reasoning text *)
(* ================================================================== *)

(** The sentences of [_build_reasoning], one by one. *)
Lemma build_reasoning_spec (best worst : LifecycleResult Q)
    (sorted_results : list (LifecycleResult Q)) (savings_kg savings_pct : Q) :
  exists rest,
    _build_reasoning best worst sorted_results savings_kg savings_pct
    = LowestTotal (vehicle_type best) (total best) (per_km best) :: rest
    /\ (List.length rest <= 3)%nat
    /\ (forall s p w,
          In (SavesVsWorst s p w) rest
          <-> s = savings_kg /\ p = savings_pct /\ w = vehicle_type worst
              /\ (0 < savings_pct)%Q
              /\ vehicle_type worst <> vehicle_type best)
    /\ (In ManufacturingDominates rest
        <-> (use_phase best < manufacturing best)%Q)
    /\ (In UsePhaseDominates rest
        <-> (manufacturing best <= use_phase best
             /\ manufacturing best * 2 < use_phase best)%Q)
    /\ (forall x,
          In (GreenwashingAlert x) rest
          <-> greenwashing_flag best = true /\ x = greenwashing_reason best).
Proof.
  unfold _build_reasoning.
  assert (Hs : (savings_pct >? lit 0)%F = true <-> (0 < savings_pct)%Q).
  { change ((savings_pct >? lit 0)%F) with (Qltb (Qred 0) savings_pct).
    rewrite Qltb_true. now rewrite Qred_correct. }
  assert (Hm : (manufacturing best >? use_phase best)%F = true
               <-> (use_phase best < manufacturing best)%Q)
    by apply Qltb_true.
  assert (Hu : (use_phase best >? manufacturing best * lit 2)%F = true
               <-> (manufacturing best * 2 < use_phase best)%Q).
  { change ((use_phase best >? manufacturing best * lit 2)%F)
      with (Qltb (manufacturing best * Qred 2) (use_phase best)).
    rewrite Qltb_true. now rewrite Qred_correct. }
  assert (Hv : negb (String.eqb (vehicle_type worst) (vehicle_type best))
               = true <-> vehicle_type worst <> vehicle_type best).
  { rewrite negb_true_iff. apply String.eqb_neq. }
  destruct (savings_pct >? lit 0)%F eqn:E1;
    destruct (negb (String.eqb (vehicle_type worst) (vehicle_type best)))
      eqn:E2;
    destruct (manufacturing best >? use_phase best)%F eqn:E3;
    destruct (use_phase best >? manufacturing best * lit 2)%F eqn:E4;
    destruct (greenwashing_flag best) eqn:E5;
    cbn [andb app];
    (eexists; split; [reflexivity|]);
    (split; [simpl; lia|]);
    assert (Hnm : (manufacturing best <= use_phase best)%Q
                  <-> ~ (use_phase best < manufacturing best)%Q)
      by (split; intro; lra);
    repeat split; intros;
    repeat match goal with
           | H : In _ _ |- _ => simpl in H
           | H : _ \/ _ |- _ => destruct H
           | H : _ /\ _ |- _ => destruct H
           | H : False |- _ => contradiction
           | H : SavesVsWorst _ _ _ = SavesVsWorst _ _ _ |- _ =>
               injection H as <- <- <-
           | H : GreenwashingAlert _ = GreenwashingAlert _ |- _ =>
               injection H as <-
           | H : _ = _ |- _ => discriminate H
           end;
    subst;
    try reflexivity;
    try (simpl; tauto);
    try (apply Hs; reflexivity);
    try (apply Hv; reflexivity);
    try (apply Hm; reflexivity);
    try (apply Hu; reflexivity);
    try (exfalso;
         match goal with
         | H : (0 < _)%Q |- _ => apply Hs in H; discriminate H
         | H : _ <> _ |- _ => apply Hv in H; discriminate H
         | H : (_ * 2 < _)%Q |- _ => apply Hu in H; discriminate H
         | H : (use_phase _ < manufacturing _)%Q |- _ =>
             apply Hm in H; discriminate H
         end);
    try (exfalso;
         match goal with
         | H : (_ <= _)%Q |- _ =>
             apply Hnm in H; apply H; apply Hm; reflexivity
         end);
    try (apply Hnm; intro Hlt; apply Hm in Hlt; discriminate Hlt).
Qed.

Lemma last_In {A} (a : A) (l : list A) : In (last (a :: l) a) (a :: l).
Proof.
  revert a. induction l as [|b t IH]; intro a; [now left|].
  change (last (a :: b :: t) a) with (last (b :: t) a).
  rewrite (last_cons_default b t a b). right. apply IH.
Qed.

(** X12: the reasoning of a returned recommendation opens with the
    sentence on the recommended vehicle and its total, and has at most
    three more sentences.  It never holds both dominance notes.  A savings
    sentence, when there is one, carries a positive percentage and names
    the vehicle type of one of the results, different from the recommended
    one; when all results have the same vehicle type there is none. *)
Theorem reasoning_of_recommendation (results : list (LifecycleResult Q))
    (rr : RecommendationResult Q) :
  recommend_vehicle results = Ok rr ->
  (exists per_km_g rest,
      reasoning rr
      = LowestTotal (recommended_vehicle rr) (total_emissions_kg rr) per_km_g
        :: rest
      /\ (List.length rest <= 3)%nat)
  /\ ~ (In ManufacturingDominates (reasoning rr)
        /\ In UsePhaseDominates (reasoning rr))
  /\ (forall s p w,
        In (SavesVsWorst s p w) (reasoning rr) ->
        (0 < p)%Q /\ w <> recommended_vehicle rr
        /\ exists worst, In worst results /\ vehicle_type worst = w)
  /\ ((forall r r', In r results -> In r' results ->
         vehicle_type r = vehicle_type r') ->
      forall s p w, ~ In (SavesVsWorst s p w) (reasoning rr)).
Proof.
  intro Hr.
  destruct (recommend_Ok_inv results rr Hr)
    as (best & others & pct & Es & Hf).
  cbv zeta in Hf. set (worst := last (best :: others) best) in *.
  destruct Hf as (Hv & Ht & _ & _ & _ & _ & Hreason).
  pose proof (sorted_perm total results) as Hperm. rewrite Es in Hperm.
  assert (Hbest_in : In best results)
    by (apply (Permutation_in _ Hperm); now left).
  assert (Hworst_in : In worst results)
    by (apply (Permutation_in _ Hperm); apply last_In).
  destruct (build_reasoning_spec best worst (best :: others)
              (total worst - total best)%F pct)
    as (rest & Erest & Hlen & Hsave & Hman & Huse & _).
  rewrite Erest in Hreason. rewrite Hreason, Hv, Ht.
  assert (Hin : forall s, (forall a b c, s <> LowestTotal a b c) ->
            In s (LowestTotal (vehicle_type best) (total best) (per_km best)
                  :: rest) <-> In s rest).
  { intros s Hs. split; [intros [E|Hin]|intro Hin].
    - symmetry in E. now apply Hs in E.
    - exact Hin.
    - now right. }
  split; [eauto|]. split; [|split].
  - rewrite !Hin by discriminate. rewrite Hman, Huse. intros [Ha [Hb _]]. lra.
  - intros s p w Hsv. rewrite Hin in Hsv by discriminate.
    apply Hsave in Hsv. destruct Hsv as (_ & -> & -> & Hp & Hne).
    split; [exact Hp|]. split; [exact Hne|]. eauto.
  - intros Hsame s p w Hsv. rewrite Hin in Hsv by discriminate.
    apply Hsave in Hsv. destruct Hsv as (_ & _ & _ & _ & Hne).
    apply Hne. now apply Hsame.
Qed.

(** X12 at the results of scenarios A and B. *)
Lemma reasoning_of_recommendation_scenario_C :
  exists rr,
    recommend_vehicle [result_A Q; result_B Q] = Ok rr
    /\ (exists per_km_g rest,
           reasoning rr
           = LowestTotal (recommended_vehicle rr) (total_emissions_kg rr)
               per_km_g :: rest
           /\ (List.length rest <= 3)%nat)
    /\ ~ (In ManufacturingDominates (reasoning rr)
          /\ In UsePhaseDominates (reasoning rr)).
Proof.
  destruct (recommend_vehicle [result_A Q; result_B Q]) as [rr|e] eqn:Er;
    [|vm_compute in Er; discriminate].
  exists rr. split; [reflexivity|].
  destruct (reasoning_of_recommendation [result_A Q; result_B Q] rr Er)
    as (H1 & H2 & _).
  split; assumption.
Defined.

(* ================================================================== *)
(** * main.py: the two endpoints *)
(* ================================================================== *)

Lemma VehicleType_value_builtin (v : VehicleType) :
  In (VehicleType_value v) BUILTIN_VEHICLE_TYPES.
Proof. destruct v; simpl; tauto. Qed.

(** The set of years has at most one element exactly when all years are
    the same. *)
Lemma nodup_at_most_one (l : list Z) :
  (List.length (nodup Z.eq_dec l) <= 1)%nat
  <-> forall a b, In a l -> In b l -> a = b.
Proof.
  split.
  - intros Hlen a b Ha Hb.
    destruct (Z.eq_dec a b) as [E|Hne]; [exact E|exfalso].
    assert (Hincl : incl [a; b] (nodup Z.eq_dec l)).
    { intros x [<-|[<-|[]]]; now apply nodup_In. }
    assert (Hnd : NoDup [a; b]).
    { constructor; [intros [E|[]]; congruence|].
      constructor; [intros []|constructor]. }
    pose proof (NoDup_incl_length Hnd Hincl) as Hle. simpl in Hle. lia.
  - intro Hsame. destruct l as [|a t]; [simpl; lia|].
    assert (Hincl : incl (nodup Z.eq_dec (a :: t)) [a]).
    { intros x Hx. apply nodup_In in Hx. left.
      apply Hsame; [now left|exact Hx]. }
    pose proof (NoDup_incl_length (NoDup_nodup Z.eq_dec (a :: t)) Hincl)
      as Hle.
    simpl in Hle. exact Hle.
Qed.

(** A result for non-negative inputs has a total of 7055 kg or more. *)
Lemma calculate_lifecycle_total_at_least (vt : string) (annual_km : Q)
    (years : Z) (grid_factor : Q) (size : string) (r : LifecycleResult Q) :
  (0 <= annual_km)%Q -> (0 <= years)%Z -> (0 <= grid_factor)%Q ->
  calculate_lifecycle vt annual_km years grid_factor size = Ok r ->
  (7055 <= total r)%Q.
Proof.
  intros Hkm Hy Hg Er.
  destruct (calculate_lifecycle_figures _ _ _ _ _ _ Hkm Hy Hg Er)
    as (m & u & d & (Hm & Hu & Hd) & _ & _ & _ & -> & _).
  apply (Qround_1_between 7055 (Qceiling (m + u + d))).
  split; [change (inject_Z 7055) with 7055%Q; lra|apply Qle_ceiling].
Qed.

(** Either all vehicles of a list have the same years or two differ. *)
Lemma classic_years (l : list (CalculateRequest Q)) :
  (forall v v', In v l -> In v' l -> req_years v = req_years v')
  \/ exists v v', In v l /\ In v' l /\ req_years v <> req_years v'.
Proof.
  destruct (le_lt_dec (List.length (nodup Z.eq_dec (map req_years l))) 1)
    as [Hle|Hgt].
  - left. intros v v' Hv Hv'.
    apply (proj1 (nodup_at_most_one _) Hle); apply in_map; assumption.
  - right.
    destruct (nodup Z.eq_dec (map req_years l)) as [|a [|b t]] eqn:E;
      try (simpl in Hgt; lia).
    assert (Ha : In a (map req_years l))
      by (apply (nodup_In Z.eq_dec); rewrite E; now left).
    assert (Hb : In b (map req_years l))
      by (apply (nodup_In Z.eq_dec); rewrite E; right; now left).
    apply in_map_iff in Ha, Hb.
    destruct Ha as (v & Ea & Hv). destruct Hb as (v' & Eb & Hv').
    exists v, v'. split; [exact Hv|]. split; [exact Hv'|].
    rewrite Ea, Eb. intros ->.
    pose proof (NoDup_nodup Z.eq_dec (map req_years l)) as Hnd.
    rewrite E in Hnd. apply NoDup_cons_iff in Hnd.
    destruct Hnd as [Hnot _]. apply Hnot. now left.
Qed.

(** X13: [compare_vehicles] answers 400 with the same-years message exactly
    when two vehicles of the request differ in their years. *)
Theorem compare_vehicles_years_mismatch (req : CompareRequest Q) :
  compare_vehicles req = HTTPException 400 SameYearsRequired
  <-> exists v v',
        In v (vehicles req) /\ In v' (vehicles req)
        /\ req_years v <> req_years v'.
Proof.
  unfold compare_vehicles.
  destruct (Nat.ltb_spec 1
              (List.length (nodup Z.eq_dec (map req_years (vehicles req)))))
    as [Hmany|Hone].
  - split; [intros _|reflexivity].
    destruct (classic_years (vehicles req)) as [Hsame|Hdiff];
      [|exact Hdiff].
    exfalso.
    assert (Hle : (List.length
                     (nodup Z.eq_dec (map req_years (vehicles req))) <= 1)%nat).
    { apply nodup_at_most_one. intros a b Ha Hb.
      apply in_map_iff in Ha, Hb.
      destruct Ha as (v & <- & Hv). destruct Hb as (v' & <- & Hv').
      now apply Hsame. }
    lia.
  - split.
    + unfold uncaught, catch_calculation.
      repeat match goal with
             | |- context [match ?x with _ => _ end] => destruct x
             end; discriminate.
    + intros (v & v' & Hv & Hv' & Hne). exfalso. apply Hne.
      apply (proj1 (nodup_at_most_one _) Hone);
        apply in_map; assumption.
Qed.

(** What one in-range request yields. *)
Lemma calculate_in_range (v : CalculateRequest Q) :
  request_in_range v ->
  exists r,
    calculate_lifecycle (VehicleType_value (req_vehicle_type v))
      (req_annual_km v) (req_years v) (req_grid_factor v)
      (req_vehicle_size v) = Ok r
    /\ vehicle_type r = VehicleType_value (req_vehicle_type v)
    /\ (7055 <= total r)%Q.
Proof.
  intros ([Hkm _] & [Hy _] & [Hg _] & Hsize).
  destruct (calculate_lifecycle_returns
              (VehicleType_value (req_vehicle_type v)) (req_annual_km v)
              (req_years v) (req_grid_factor v) (req_vehicle_size v)
              (VehicleType_value_builtin _) Hsize) as (r & Er).
  exists r. split; [exact Er|]. split.
  - destruct (calculate_lifecycle_Ok_inv _ _ _ _ _ _ Er)
      as (params & size_mult & use_kg & _ & _ & _ & Hf). apply Hf.
  - assert (Hy0 : (0 <= req_years v)%Z) by lia.
    exact (calculate_lifecycle_total_at_least _ _ _ _ _ _ Hkm Hy0
             (Qlt_le_weak _ _ Hg) Er).
Qed.

Lemma for_each_Forall {A B} (f : A -> exc B) (l : list A) :
  Forall (fun a => exists b, f a = Ok b) l ->
  exists bs, for_each f l = Ok bs /\ Forall2 (fun a b => f a = Ok b) l bs.
Proof.
  induction 1 as [|a t (b & Eb) _ (bs & E & Hbs)]; simpl.
  - exists []. split; [reflexivity|constructor].
  - rewrite Eb, E. simpl.
    exists (b :: bs). split; [reflexivity|now constructor].
Qed.

(** X14: for a request of two or more vehicles, all within the ranges of
    the schema and with the same years, [compare_vehicles] responds: with
    one result per vehicle, in the order of the request, each the outcome
    of [calculate_lifecycle] on that vehicle; with a break-even comparison
    of one pair per vehicle but the best; and with a recommendation of the
    comparison's best vehicle.  No [HTTPException] and no uncaught
    exception can come out. *)
Theorem compare_vehicles_responds (req : CompareRequest Q) :
  (2 <= List.length (vehicles req))%nat ->
  Forall request_in_range (vehicles req) ->
  (forall v v', In v (vehicles req) -> In v' (vehicles req) ->
     req_years v = req_years v') ->
  exists resp c,
    compare_vehicles req = Respond resp
    /\ Forall2
         (fun v r =>
            calculate_lifecycle (VehicleType_value (req_vehicle_type v))
              (req_annual_km v) (req_years v) (req_grid_factor v)
              (req_vehicle_size v) = Ok r)
         (vehicles req) (results resp)
    /\ break_even resp = Some c
    /\ List.length (pairs c) = (List.length (vehicles req) - 1)%nat
    /\ cmp_best_vehicle c = recommended_vehicle (recommendation resp)
    /\ exists r, In r (results resp)
         /\ vehicle_type r = recommended_vehicle (recommendation resp)
         /\ total r = total_emissions_kg (recommendation resp).
Proof.
  intros Hlen Hrange Hsame. unfold compare_vehicles.
  destruct (Nat.ltb_spec 1
              (List.length (nodup Z.eq_dec (map req_years (vehicles req)))))
    as [Hmany|_].
  { exfalso.
    assert (Hle : (List.length
                     (nodup Z.eq_dec (map req_years (vehicles req))) <= 1)%nat).
    { apply nodup_at_most_one. intros a b Ha Hb.
      apply in_map_iff in Ha, Hb.
      destruct Ha as (v & <- & Hv). destruct Hb as (v' & <- & Hv').
      now apply Hsame. }
    lia. }
  destruct (vehicles req) as [|v0 [|v1 vs]] eqn:Ev;
    try (simpl in Hlen; lia).
  rewrite list_index_first. unfold uncaught at 1.
  set (calc := fun v : CalculateRequest Q =>
         calculate_lifecycle (VehicleType_value (req_vehicle_type v))
           (req_annual_km v) (req_years v) (req_grid_factor v)
           (req_vehicle_size v)).
  destruct (for_each_Forall calc (v0 :: v1 :: vs)) as (rs & Ers & Hrs).
  { eapply Forall_impl; [|exact Hrange].
    intros v Hv. destruct (calculate_in_range v Hv) as (r & Er & _). eauto. }
  rewrite Ers. unfold catch_calculation.
  assert (Hpos : Forall (fun r => (7055 <= total r)%Q) rs).
  { clear Ers Ev Hlen Hsame.
    induction Hrs as [|v r vs' rs' Hvr _ IH]; [constructor|].
    apply Forall_cons_iff in Hrange. destruct Hrange as [Hv Hrest].
    constructor; [|exact (IH Hrest)].
    destruct (calculate_in_range v Hv) as (r' & Er' & _ & Ht).
    unfold calc in Hvr. rewrite Er' in Hvr. now injection Hvr as <-. }
  assert (Hlen_rs : List.length rs = List.length (v0 :: v1 :: vs))
    by (symmetry; exact (Forall2_length Hrs)).
  assert (Hlong : (2 <= List.length rs)%nat)
    by (rewrite Hlen_rs; simpl; lia).
  destruct (compare_best_vs_all_long rs (req_years v0) Hlong)
    as (best & others & best_curve & ps & Es & _ & Ec & Hps).
  rewrite Ec. unfold uncaught at 1.
  destruct others as [|second others].
  { exfalso. pose proof (sorted_length total rs) as Hl.
    rewrite Es, Hlen_rs in Hl. simpl in Hl. lia. }
  pose proof (sorted_perm total rs) as Hperm. rewrite Es in Hperm.
  assert (Hbest_in : In best rs)
    by (apply (Permutation_in _ Hperm); now left).
  assert (Hsecond : (7055 <= total second)%Q).
  { rewrite Forall_forall in Hpos. apply Hpos.
    apply (Permutation_in _ Hperm). right. now left. }
  destruct (recommend_several rs best second others Es)
    as [[E0 _]|[_ (rr & Er & Hv & _)]].
  { exfalso. change ((total second == lit 0)%F)
      with (Qeq_bool (total second) (Qred 0)) in E0.
    apply Qeq_bool_iff in E0. rewrite Qred_correct in E0. lra. }
  rewrite Er. unfold uncaught.
  eexists. eexists. split; [reflexivity|].
  cbn [results break_even recommendation pairs cmp_best_vehicle].
  split; [exact Hrs|]. split; [reflexivity|]. split.
  { apply Forall2_length in Hps. apply Permutation_length in Hperm.
    rewrite Hlen_rs in Hperm. simpl in Hps, Hperm. simpl. lia. }
  split; [now rewrite Hv|].
  destruct (recommend_Ok_inv rs rr Er) as (best' & others' & pct & Es' & Hf).
  rewrite Es in Es'. injection Es' as <- <-.
  exists best. split; [exact Hbest_in|].
  cbv zeta in Hf. destruct Hf as (Hv' & Ht' & _).
  now rewrite Hv', Ht'.
Qed.

(** X14 on the request of scenario C. *)
Lemma compare_vehicles_responds_scenario_C :
  exists resp c,
    compare_vehicles
      {| vehicles :=
           [ {| req_vehicle_type := BEV; req_annual_km := 15000;
                req_years := 10; req_grid_factor := 0.233;
                req_vehicle_size := "medium" |};
             {| req_vehicle_type := ICEV_p; req_annual_km := 15000;
                req_years := 10; req_grid_factor := 0.233;
                req_vehicle_size := "medium" |} ] |}
    = Respond resp
    /\ break_even resp = Some c
    /\ List.length (pairs c) = 1%nat
    /\ cmp_best_vehicle c = recommended_vehicle (recommendation resp).
Proof.
  destruct (compare_vehicles_responds
              {| vehicles :=
                   [ {| req_vehicle_type := BEV; req_annual_km := 15000;
                        req_years := 10; req_grid_factor := 0.233;
                        req_vehicle_size := "medium" |};
                     {| req_vehicle_type := ICEV_p; req_annual_km := 15000;
                        req_years := 10; req_grid_factor := 0.233;
                        req_vehicle_size := "medium" |} ] |})
    as (resp & c & E & _ & Hb & Hl & Hc & _).
  - simpl. lia.
  - repeat constructor; cbn; try lia; try discriminate; tauto.
  - intros v v' [<-|[<-|[]]] [<-|[<-|[]]]; reflexivity.
  - exists resp, c. repeat split; assumption.
Defined.

(** X15: in any arithmetic, [calculate_single] answers 400 exactly when the
    size of the request is not one of the three; the exception reported
    under "Unknown vehicle type" is then the [KeyError] of the size, the
    vehicle type being one of the enumeration.  In binary64 and in exact
    arithmetic, a request with a known size and a number of years that
    converts to [float] gets a response, the result of
    [calculate_lifecycle] for the enumeration's identifier, and a request
    whose years convert to [float] is not answered 500. *)
Theorem calculate_single_outcomes :
  (forall (F : Type) (PF : PyFloat F) (req : CalculateRequest F)
          (detail : Detail),
      calculate_single req = HTTPException 400 detail
      <-> ~ In (req_vehicle_size req) VEHICLE_SIZES
          /\ detail = UnknownVehicleType (KeyError (req_vehicle_size req)))
  /\ (forall req : CalculateRequest float,
         fits_float (req_years req) ->
         In (req_vehicle_size req) VEHICLE_SIZES ->
         exists r,
           calculate_single req = Respond r
           /\ calculate_lifecycle
                (VehicleType_value (req_vehicle_type req))
                (req_annual_km req) (req_years req) (req_grid_factor req)
                (req_vehicle_size req) = Ok r
           /\ vehicle_type r = VehicleType_value (req_vehicle_type req))
  /\ (forall req : CalculateRequest Q,
         fits_float (req_years req) ->
         In (req_vehicle_size req) VEHICLE_SIZES ->
         exists r,
           calculate_single req = Respond r
           /\ calculate_lifecycle
                (VehicleType_value (req_vehicle_type req))
                (req_annual_km req) (req_years req) (req_grid_factor req)
                (req_vehicle_size req) = Ok r
           /\ vehicle_type r = VehicleType_value (req_vehicle_type req))
  /\ (forall (req : CalculateRequest float) (detail : Detail),
         fits_float (req_years req) ->
         calculate_single req <> HTTPException 500 detail)
  /\ (forall (req : CalculateRequest Q) (detail : Detail),
         fits_float (req_years req) ->
         calculate_single req <> HTTPException 500 detail).
Proof.
  assert (Hbad : forall (F : Type) (PF : PyFloat F)
                        (req : CalculateRequest F),
            ~ In (req_vehicle_size req) VEHICLE_SIZES ->
            calculate_lifecycle
              (VehicleType_value (req_vehicle_type req))
              (req_annual_km req) (req_years req) (req_grid_factor req)
              (req_vehicle_size req)
            = Raise (KeyError (req_vehicle_size req))).
  { intros F PF req Hn. apply calculate_lifecycle_KeyError_iff. right.
    split; [apply VehicleType_value_builtin|now split]. }
  assert (Hgood : forall (F : Type) (PF : PyFloat F),
            (lit 100 == lit 0)%F = false ->
            (forall x : F, (x >? lit 0)%F = true -> (x == lit 0)%F = false) ->
            forall req : CalculateRequest F,
              In (req_vehicle_size req) VEHICLE_SIZES ->
              exists r,
                calculate_single req = Respond r
                /\ calculate_lifecycle
                     (VehicleType_value (req_vehicle_type req))
                     (req_annual_km req) (req_years req)
                     (req_grid_factor req) (req_vehicle_size req) = Ok r
                /\ vehicle_type r = VehicleType_value (req_vehicle_type req)).
  { intros F PF H100 Hpos req Hsize.
    unfold calculate_single, catch_calculation.
    destruct (calculate_lifecycle_answers H100 Hpos
                (VehicleType_value (req_vehicle_type req))
                (req_annual_km req) (req_years req) (req_grid_factor req)
                (req_vehicle_size req) (VehicleType_value_builtin _) Hsize)
      as (r & Er & Ev).
    rewrite Er. exists r. now repeat split. }
  assert (Hno500 : forall (F : Type) (PF : PyFloat F),
            (lit 100 == lit 0)%F = false ->
            (forall x : F, (x >? lit 0)%F = true -> (x == lit 0)%F = false) ->
            forall (req : CalculateRequest F) (detail : Detail),
              calculate_single req <> HTTPException 500 detail).
  { intros F PF H100 Hpos req detail.
    destruct (in_dec string_dec (req_vehicle_size req) VEHICLE_SIZES)
      as [Hsize|Hsize].
    - destruct (Hgood F PF H100 Hpos req Hsize) as (r & Er & _).
      rewrite Er. discriminate.
    - unfold calculate_single, catch_calculation.
      rewrite (Hbad F PF req Hsize). discriminate. }
  split; [|split; [|split; [|split]]].
  - intros F PF req detail. unfold calculate_single, catch_calculation.
    destruct (calculate_lifecycle _ _ _ _ _) as [r|e] eqn:E.
    + split; [discriminate|]. intros [Hn _].
      rewrite (Hbad F PF req Hn) in E. discriminate.
    + destruct e as [key|msg| |];
        try (split; [discriminate|]; intros [Hn _];
             rewrite (Hbad F PF req Hn) in E; discriminate).
      apply calculate_lifecycle_KeyError_iff in E.
      destruct E as [[Hn _]|(_ & Hn & ->)].
      { exfalso. apply Hn, VehicleType_value_builtin. }
      split; [intros [= <-]; now split|intros [_ ->]; reflexivity].
  - intros req _.
    exact (Hgood float _ lit_100_nonzero_float float_positive_nonzero req).
  - intros req _.
    exact (Hgood Q _ lit_100_nonzero_Q Q_positive_nonzero req).
  - intros req detail _.
    exact (Hno500 float _ lit_100_nonzero_float float_positive_nonzero
             req detail).
  - intros req detail _.
    exact (Hno500 Q _ lit_100_nonzero_Q Q_positive_nonzero req detail).
Qed.

(* ================================================================== *)
(** * More of the same never costs less *)
(* ================================================================== *)

Lemma Qmult_mono (a b c d : Q) :
  (0 <= a <= b)%Q -> (0 <= c <= d)%Q -> (0 <= a * c <= b * d)%Q.
Proof.
  intros [Ha Hab] [Hc Hcd]. split; [now apply Qmult_le_0_compat|].
  apply Qle_trans with (b * c)%Q.
  - now apply Qmult_le_compat_r.
  - rewrite !(Qmult_comm b). apply Qmult_le_compat_r; [exact Hcd|lra].
Qed.

Lemma Qdiv_100_mono (a b : Q) :
  (0 <= a <= b)%Q -> (0 <= a / Qred 100 <= b / Qred 100)%Q.
Proof.
  intros [Ha Hab].
  assert (E : forall q : Q, (q / Qred 100 == q * (1 # 100))%Q)
    by (intro q; rewrite Qred_correct; unfold Qdiv; reflexivity).
  rewrite !E. lra.
Qed.

Lemma Qrefl_bounds (a : Q) : (0 <= a)%Q -> (0 <= a <= a)%Q.
Proof. intro. split; lra. Qed.

(** The use phase does not decrease with distance, grid factor or size
    multiplier. *)
Lemma use_phase_monotone (params : VehicleParams Q)
    (km_1 km_2 grid_1 grid_2 size_1 size_2 u_1 u_2 : Q) :
  (0 <= energy_consumption_per_100km params)%Q ->
  (0 <= km_1 <= km_2)%Q -> (0 <= grid_1 <= grid_2)%Q ->
  (0 <= size_1 <= size_2)%Q ->
  _calculate_use_phase params km_1 grid_1 size_1 = Ok u_1 ->
  _calculate_use_phase params km_2 grid_2 size_2 = Ok u_2 ->
  (u_1 <= u_2)%Q.
Proof.
  intros Hc Hkm Hg Hs. unfold _calculate_use_phase.
  rewrite !(fdiv_nonzero _ _ lit_100_nonzero_Q).
  rewrite fuel_factor_petrol, fuel_factor_diesel. unfold bind, ret.
  pose proof (Qdiv_100_mono _ _
                (Qmult_mono _ _ _ _ (Qrefl_bounds _ Hc) Hs)) as Hper.
  change (energy_consumption_per_100km params * size_1 / Qred 100)%Q
    with (fquot (energy_consumption_per_100km params * size_1)%F (lit 100))
    in Hper.
  change (energy_consumption_per_100km params * size_2 / Qred 100)%Q
    with (fquot (energy_consumption_per_100km params * size_2)%F (lit 100))
    in Hper.
  set (per_1 := fquot (energy_consumption_per_100km params * size_1)%F
                  (lit 100)) in *.
  set (per_2 := fquot (energy_consumption_per_100km params * size_2)%F
                  (lit 100)) in *.
  clearbody per_1 per_2.
  assert (Hpetrol : (0 <= (lit 2.392 : Q) <= lit 2.392)%Q)
    by (apply Qrefl_bounds, Qle_bool_iff; reflexivity).
  assert (Hdiesel : (0 <= (lit 2.640 : Q) <= lit 2.640)%Q)
    by (apply Qrefl_bounds, Qle_bool_iff; reflexivity).
  destruct (String.eqb (fuel_type params) "electricity").
  { intros [= <-] [= <-].
    apply (Qmult_mono _ _ _ _ (Qmult_mono _ _ _ _ Hper Hkm) Hg). }
  destruct (String.eqb (fuel_type params) "petrol").
  { intros [= <-] [= <-].
    apply (Qmult_mono _ _ _ _ (Qmult_mono _ _ _ _ Hper Hkm) Hpetrol). }
  destruct (String.eqb (fuel_type params) "diesel").
  { intros [= <-] [= <-].
    apply (Qmult_mono _ _ _ _ (Qmult_mono _ _ _ _ Hper Hkm) Hdiesel). }
  destruct (String.eqb (fuel_type params) "hybrid_petrol"); [|discriminate].
  assert (Hfossil : forall fraction : Q,
            (0 <= (lit 1 - fraction)%F)%Q ->
            (per_1 * (km_1 * (lit 1 - fraction)) * lit 2.392
             <= per_2 * (km_2 * (lit 1 - fraction)) * lit 2.392)%F%Q).
  { intros fraction Hf.
    apply (Qmult_mono _ _ _ _
             (Qmult_mono _ _ _ _ Hper
                (Qmult_mono _ _ _ _ Hkm (Qrefl_bounds _ Hf))) Hpetrol). }
  destruct (battery_capacity_kwh params >? lit 14)%F.
  - intros [= <-] [= <-].
    assert (H18 : (0 <= (lit 18.0 : Q) <= lit 18.0)%Q)
      by (apply Qrefl_bounds, Qle_bool_iff; reflexivity).
    assert (Hfr : (0 <= (PHEV_ELECTRIC_FRACTION : Q)
                   <= PHEV_ELECTRIC_FRACTION)%Q)
      by (apply Qrefl_bounds, Qle_bool_iff; reflexivity).
    pose proof (Qmult_mono _ _ _ _
                  (Qmult_mono _ _ _ _
                     (Qdiv_100_mono _ _ (Qmult_mono _ _ _ _ H18 Hs))
                     (Qmult_mono _ _ _ _ Hkm Hfr)) Hg) as [_ Hel].
    assert (Hfo := Hfossil PHEV_ELECTRIC_FRACTION
                     ltac:(apply Qle_bool_iff; reflexivity)).
    change (fadd (F:=Q)) with Qplus. 
    apply Qplus_le_compat; [exact Hel|exact Hfo].
  - intros [= <-] [= <-].
    assert (Hfo := Hfossil (lit 0.05) ltac:(apply Qle_bool_iff; reflexivity)).
    change (fadd (F:=Q)) with Qplus.
    apply Qplus_le_compat; [apply Qle_refl|exact Hfo].
Qed.

(** X16: two calculations for the same vehicle type: when the second has
    a size multiplier, a lifetime distance and a grid factor that are each
    at least those of the first (none of them negative), none of its
    manufacturing, use phase, disposal and total figures is lower. *)
Theorem lifecycle_monotone (vt : string)
    (km_1 km_2 : Q) (years_1 years_2 : Z) (grid_1 grid_2 : Q)
    (size_1 size_2 : string) (mult_1 mult_2 : Q)
    (r_1 r_2 : LifecycleResult Q) :
  dict_get SIZE_MULTIPLIERS size_1 = Ok mult_1 ->
  dict_get SIZE_MULTIPLIERS size_2 = Ok mult_2 ->
  (mult_1 <= mult_2)%Q ->
  (0 <= km_1 * inject_Z years_1 <= km_2 * inject_Z years_2)%Q ->
  (0 <= grid_1 <= grid_2)%Q ->
  calculate_lifecycle vt km_1 years_1 grid_1 size_1 = Ok r_1 ->
  calculate_lifecycle vt km_2 years_2 grid_2 size_2 = Ok r_2 ->
  (manufacturing r_1 <= manufacturing r_2
   /\ use_phase r_1 <= use_phase r_2
   /\ disposal r_1 <= disposal r_2
   /\ total r_1 <= total r_2)%Q.
Proof.
  intros Es1 Es2 Hmult Hkm Hg E1 E2.
  destruct (calculate_lifecycle_Ok_inv _ _ _ _ _ _ E1)
    as (params & s1 & u1 & Ep & Es1' & Eu1 & Hf1).
  destruct (calculate_lifecycle_Ok_inv _ _ _ _ _ _ E2)
    as (params' & s2 & u2 & Ep' & Es2' & Eu2 & Hf2).
  rewrite Ep in Ep'. injection Ep' as <-.
  rewrite Es1 in Es1'. injection Es1' as <-.
  rewrite Es2 in Es2'. injection Es2' as <-.
  cbv zeta in Hf1, Hf2.
  destruct Hf1 as (_ & -> & -> & -> & -> & _).
  destruct Hf2 as (_ & -> & -> & -> & -> & _).
  destruct (builtin_params_nonneg vt params Ep)
    as (Hgl & Hpt & Hbm & Hcap & Hcons & Hdis & Heol).
  pose proof (size_multiplier_nonneg size_1 mult_1 Es1) as Hs1.
  assert (Hs : (0 <= mult_1 <= mult_2)%Q) by (split; assumption).
  assert (Hkm' : (0 <= (km_1 * of_int years_1)%F
                  <= (km_2 * of_int years_2)%F)%Q).
  { pose proof (of_int_Q years_1) as Ey1.
    pose proof (of_int_Q years_2) as Ey2.
    set (y1 := of_int years_1 : Q) in *.
    set (y2 := of_int years_2 : Q) in *. clearbody y1 y2.
    change ((km_1 * y1)%F) with (km_1 * y1)%Q.
    change ((km_2 * y2)%F) with (km_2 * y2)%Q.
    now rewrite Ey1, Ey2. }
  pose proof (use_phase_monotone params _ _ _ _ _ _ _ _
                Hcons Hkm' Hg Hs Eu1 Eu2) as Hu.
  set (bat_1 := (if battery_capacity_kwh params >? lit 0
                 then battery_capacity_kwh params * mult_1
                 else lit 0)%F).
  set (bat_2 := (if battery_capacity_kwh params >? lit 0
                 then battery_capacity_kwh params * mult_2
                 else lit 0)%F).
  assert (Hbat : (0 <= bat_1 <= bat_2)%Q).
  { unfold bat_1, bat_2. destruct (_ >? _)%F.
    - apply (Qmult_mono _ _ _ _ (Qrefl_bounds _ Hcap) Hs).
    - apply Qrefl_bounds, Qle_bool_iff. reflexivity. }
  assert (Hm : ((glider_manufacturing_kg params * mult_1
                 + powertrain_manufacturing_kg params * mult_1
                 + bat_1 * battery_manufacturing_per_kwh params)%F
                <= (glider_manufacturing_kg params * mult_2
                    + powertrain_manufacturing_kg params * mult_2
                    + bat_2 * battery_manufacturing_per_kwh params)%F)%Q).
  { change (fadd (F:=Q)) with Qplus. change (fmul (F:=Q)) with Qmult.
    pose proof (Qmult_mono _ _ _ _ (Qrefl_bounds _ Hgl) Hs) as [_ H1].
    pose proof (Qmult_mono _ _ _ _ (Qrefl_bounds _ Hpt) Hs) as [_ H2].
    pose proof (Qmult_mono _ _ _ _ Hbat (Qrefl_bounds _ Hbm)) as [_ H3].
    lra. }
  assert (Hd : (_calculate_disposal params bat_1 mult_1
                <= _calculate_disposal params bat_2 mult_2)%Q).
  { unfold _calculate_disposal.
    change (fadd (F:=Q)) with Qplus. change (fmul (F:=Q)) with Qmult.
    pose proof (Qmult_mono _ _ _ _ (Qrefl_bounds _ Hdis) Hs) as [_ H1].
    pose proof (Qmult_mono _ _ _ _ Hbat (Qrefl_bounds _ Heol)) as [_ H2].
    lra. }
  change (fround (F:=Q)) with Qround_ndigits.
  repeat split; apply Qround_1_mono; try assumption.
  change (fadd (F:=Q)) with Qplus in *. lra.
Qed.

(** X16 from scenario A to a large BEV driven further on a dirtier grid. *)
Lemma lifecycle_monotone_scenario_A :
  exists r_2 : LifecycleResult Q,
    calculate_lifecycle "BEV" 20000 12 0.4 "large" = Ok r_2
    /\ (manufacturing (result_A Q) <= manufacturing r_2
        /\ use_phase (result_A Q) <= use_phase r_2
        /\ disposal (result_A Q) <= disposal r_2
        /\ total (result_A Q) <= total r_2)%Q.
Proof.
  destruct (calculate_lifecycle (F:=Q) "BEV" 20000 12 0.4 "large")
    as [r_2|e] eqn:E2; [|vm_compute in E2; discriminate].
  exists r_2. split; [reflexivity|].
  apply (lifecycle_monotone "BEV" 15000 20000 10 12 0.233 0.4
           "medium" "large" (lit 1.00) (lit 1.20) (result_A Q) r_2).
  - reflexivity.
  - reflexivity.
  - vm_compute. discriminate.
  - split; vm_compute; discriminate.
  - split; vm_compute; discriminate.
  - vm_compute. reflexivity.
  - exact E2.
Defined.

(* ================================================================== *)
(** * Immediate break-even *)
(* ================================================================== *)

(** With no negative horizon the curve starts at manufacturing plus
    disposal. *)
Lemma build_cumulative_curve_start (r : LifecycleResult Q) (years : Z)
    (curve : list Q) :
  (0 <= years)%Z ->
  _build_cumulative_curve r years = Ok curve ->
  curve_at curve 0 = Some (Qround_ndigits (manufacturing r + disposal r) 1).
Proof.
  intros Hy Ec.
  destruct (build_cumulative_curve_points r years curve Ec)
    as (annual & _ & _ & Hpt).
  rewrite (Hpt 0%Z) by lia. f_equal. apply Qround_ndigits_comp.
  change (inject_Z 0) with 0%Q. ring.
Qed.

(** X17: over a horizon of 0 years or more, each pair of the comparison
    sets the best result against one of the other results, and its
    break-even year is 0 exactly when manufacturing plus disposal of the
    best, rounded to one decimal, is at most that of the other. *)
Theorem break_even_immediate (results : list (LifecycleResult Q))
    (years : Z) (c : BreakEvenComparison Q) (p : BreakEvenPair Q) :
  (0 <= years)%Z ->
  compare_best_vs_all results years = Ok (Some c) ->
  In p (pairs c) ->
  exists best other,
    In best results /\ In other results
    /\ best_vehicle p = vehicle_type best
    /\ comparison_vehicle p = vehicle_type other
    /\ (total best <= total other)%Q
    /\ (year p = Some 0%Z
        <-> (Qround_ndigits (manufacturing best + disposal best) 1
             <= Qround_ndigits (manufacturing other + disposal other) 1)%Q).
Proof.
  intros Hy Hc Hp.
  destruct (Nat.ltb_spec (List.length results) 2) as [Hshort|Hlong].
  { rewrite compare_best_vs_all_short in Hc by exact Hshort. discriminate. }
  destruct (compare_best_vs_all_long results years Hlong)
    as (best & others & best_curve & ps & Es & Eb & Ec & Hps).
  rewrite Ec in Hc. injection Hc as <-. cbn [pairs] in Hp.
  destruct (pair_of_comparison years best best_curve others ps p Hps Hp)
    as (other & cc & Hin & Ecc & ->).
  cbn [year best_vehicle comparison_vehicle].
  pose proof (sorted_perm total results) as Hperm. rewrite Es in Hperm.
  pose proof (sorted_sorted total results) as Hsorted. rewrite Es in Hsorted.
  exists best, other.
  split; [apply (Permutation_in _ Hperm); now left|].
  split; [apply (Permutation_in _ Hperm); now right|].
  split; [reflexivity|]. split; [reflexivity|]. split.
  { apply StronglySorted_inv in Hsorted. destruct Hsorted as [_ Hall].
    rewrite Forall_forall in Hall. exact (Hall other Hin). }
  pose proof (build_cumulative_curve_start best years best_curve Hy Eb)
    as Hb0.
  pose proof (build_cumulative_curve_start other years cc Hy Ecc) as Hc0.
  pose proof (find_break_even_year_spec best_curve cc) as Hs.
  destruct (_find_break_even_year best_curve cc) as [y|].
  - destruct Hs as (Hy0 & (b & k & Hb & Hk & Hle) & Hbefore). split.
    + intros [= ->]. rewrite Hb0 in Hb. rewrite Hc0 in Hk.
      injection Hb as <-. injection Hk as <-. exact Hle.
    + intro Hle0. f_equal.
      destruct (Z.eq_dec y 0) as [E|Hne]; [exact E|exfalso].
      specialize (Hbefore 0%Z _ _ ltac:(lia) Hb0 Hc0). lra.
  - split; [discriminate|]. intro Hle0. exfalso.
    specialize (Hs 0%Z _ _ Hb0 Hc0). lra.
Qed.

(** X17 at scenario C: BEV starts above ICEV-p, so the year is not 0. *)
Lemma break_even_immediate_scenario_C :
  exists best other,
    In best [result_A Q; result_B Q] /\ In other [result_A Q; result_B Q]
    /\ best_vehicle (pair_C Q) = vehicle_type best
    /\ comparison_vehicle (pair_C Q) = vehicle_type other
    /\ (total best <= total other)%Q
    /\ (year (pair_C Q) = Some 0%Z
        <-> (Qround_ndigits (manufacturing best + disposal best) 1
             <= Qround_ndigits (manufacturing other + disposal other) 1)%Q).
Proof.
  apply (break_even_immediate [result_A Q; result_B Q] 10 (comparison_C Q)).
  - lia.
  - vm_compute. reflexivity.
  - left. reflexivity.
Defined.
